(** * TabelaNutricionalPython: nutritional aggregation, persistence and report

  A shallow embedding of [main.py]: the backend classes [Ingrediente],
  [Receita], [DataManager], [CalculadoraNutricional], [ValoresDiarios],
  [GeradorPDF] and the ingredient delete handler of [NutritionApp].

  Numbers.  Python's [float] is IEEE 754 binary64.  The program is written
  once, over an interface [Aritmetica] of the operations it uses
  ([+], [*], [/], [<=], [==], [round(v, 2)], [int(v)], literals), and the
  interface has two instances: [binary64], the arithmetic the interpreter
  runs (Rocq's primitive floats), and [exata], the rationals, where sums
  and products are exact and only [round] loses information.  There every
  number is of the arithmetic's type; an int, which the forms read for the
  quantities in grams, is the float of the same value, as every use
  multiplies it by a float.  [CalculadoraNumeros] is the calculator on
  Python's own numbers, int or float, where the conversion of an int
  beyond the range of the doubles raises; on floats, and on ints that
  convert, the two agree.

  Effects.  The calculator is pure and returns a value or raises
  ([Resultado]).  The stores, the documents built and the message boxes
  shown are the fields of [Mundo], threaded through [IO]; [json.dump] and
  [json.load] are the identity on JSON documents.  Exceptions are values;
  their message texts are indicative. *)

From Stdlib Require Import ZArith QArith Qround Qcanon List Ascii String Bool.
From Stdlib Require Import Permutation Lia Lqa.
From Stdlib Require Import Floats.
Import ListNotations.

Set Implicit Arguments.

Local Open Scope Z_scope.

(** ** Arithmetic *)

(** [round_half_even q]: the integer nearest to [q], ties to the even one. *)
Definition round_half_even (q : Q) : Z :=
  let f := Qfloor q in
  match Qcompare (q - inject_Z f) (1 # 2) with
  | Lt => f
  | Gt => f + 1
  | Eq => if Z.even f then f else f + 1
  end.

(** [round(q, 2)] on an exact value: the nearest multiple of 1/100. *)
Definition Qround2 (q : Q) : Q :=
  Qmake (round_half_even (q * inject_Z 100)) 100.

(** ** Exceptions and results *)

Inductive Excecao :=
| ValueError (msg : string)
| TypeError (msg : string)
| KeyError (chave : string)
| ZeroDivisionError
| OverflowError (msg : string)
| AttributeError (msg : string).

Inductive Resultado (A : Type) :=
| Retorna (a : A)
| Levanta (e : Excecao).
Arguments Retorna {A} a.
Arguments Levanta {A} e.

Definition ligar {A B} (r : Resultado A) (k : A -> Resultado B) : Resultado B :=
  match r with
  | Retorna a => k a
  | Levanta e => Levanta e
  end.

Class Aritmetica (F : Type) := {
  (** a numeric literal of the source ([0.0], [4], [4.184]), as the number
      the interpreter reads it as *)
  lit : Q -> F;
  soma : F -> F -> F;
  mult : F -> F -> F;
  (** [x / y] for [y] that is not zero; [divisao] below raises on zero *)
  quoc : F -> F -> F;
  menor_igual : F -> F -> bool;
  igual : F -> F -> bool;
  (** [round(v, 2)] *)
  round2 : F -> F;
  (** [int(v)]: truncation toward zero *)
  truncar : F -> Resultado Z;
  (** a number that fails [y <= 0] is not [== 0] *)
  positivo_nao_zero :
    forall y, menor_igual y (lit 0) = false -> igual y (lit 0) = false
}.

(** *** binary64 *)

Module Binary64.

(** The double nearest to [n / d] (ties to even), for positive [n], [d]:
    what [float("n/d")] or a decimal literal denotes. *)
Definition de_fracao (n d : positive) : float :=
  let e0 := Z.log2 (Zpos n) - Z.log2 (Zpos d) - 53 in
  let e1 := Z.max e0 (-1074) in
  let num1 := if e1 <? 0 then Zpos n * 2 ^ (- e1) else Zpos n in
  let den1 := if e1 <? 0 then Zpos d else Zpos d * 2 ^ e1 in
  let grande := 2 ^ 53 <=? num1 / den1 in
  let e := if grande then e1 + 1 else e1 in
  let den := if grande then 2 * den1 else den1 in
  let q := num1 / den in
  let r := num1 mod den in
  let q' := if (den <? 2 * r) || ((den =? 2 * r) && Z.odd q)
            then q + 1 else q in
  Z.ldexp (PrimFloat.of_uint63 (Uint63.of_Z q')) e.

Definition de_Q (q : Q) : float :=
  match Qnum q with
  | Z0 => PrimFloat.zero
  | Zpos n => de_fracao n (Qden q)
  | Zneg n => PrimFloat.opp (de_fracao n (Qden q))
  end.

(** The exact value of a finite double, as sign and magnitude. *)
Definition magnitude (m : positive) (e : Z) : Q :=
  if e <? 0 then Qmake (Zpos m) (Z.to_pos (2 ^ (- e)))
  else inject_Z (Zpos m * 2 ^ e).

(** [round(v, 2)] of CPython: the decimal expansion of [v] correctly
    rounded to two places (ties on the exact binary value go to even),
    read back as the nearest double; infinities, NaN and zeros are
    returned as they are, and the sign is kept. *)
Definition round2 (v : float) : float :=
  match Prim2SF v with
  | S754_finite s m e =>
      if 0 <=? e then v
      else
        let n := round_half_even (magnitude m e * inject_Z 100) in
        let r := match n with
                 | Zpos p => de_fracao p 100
                 | _ => PrimFloat.zero
                 end in
        if s then PrimFloat.opp r else r
  | _ => v
  end.

Definition truncar (v : float) : Resultado Z :=
  match Prim2SF v with
  | S754_zero _ => Retorna 0
  | S754_finite s m e =>
      let a := if e <? 0 then Zpos m / 2 ^ (- e) else Zpos m * 2 ^ e in
      Retorna (if s then - a else a)
  | S754_infinity _ =>
      Levanta (OverflowError "cannot convert float infinity to integer")
  | S754_nan =>
      Levanta (ValueError "cannot convert float NaN to integer")
  end.

End Binary64.

(** The law holds by the IEEE comparison: [y == 0] is the comparison
    result "equal", under which [y <= 0] holds as well. *)
#[export] Instance binary64 : Aritmetica float.
Proof.
  refine {| lit := Binary64.de_Q;
            soma := PrimFloat.add;
            mult := PrimFloat.mul;
            quoc := PrimFloat.div;
            menor_igual := PrimFloat.leb;
            igual := PrimFloat.eqb;
            round2 := Binary64.round2;
            truncar := Binary64.truncar;
            positivo_nao_zero := _ |}.
  intros y. rewrite leb_spec, eqb_spec. unfold SFleb, SFeqb.
  destruct (SFcompare (Prim2SF y) (Prim2SF (Binary64.de_Q 0))) as [[ | | ] | ];
    congruence.
Defined.

(** *** Exact rationals *)

Module Exata.

Definition round2 (q : Qc) : Qc := Q2Qc (Qround2 q).

Definition truncar (q : Qc) : Resultado Z :=
  Retorna (Z.quot (Qnum q) (Zpos (Qden q))).

End Exata.

#[export] Instance exata : Aritmetica Qc.
Proof.
  refine {| lit := Q2Qc;
            soma := Qcplus;
            mult := Qcmult;
            quoc := Qcdiv;
            menor_igual := fun x y => Qle_bool x y;
            igual := fun x y => Qeq_bool x y;
            round2 := Exata.round2;
            truncar := Exata.truncar;
            positivo_nao_zero := _ |}.
  intros y G. destruct (Qeq_bool y (Q2Qc 0)) eqn:E; [ | reflexivity ].
  apply Qeq_bool_iff in E.
  assert (L : Qle_bool y (Q2Qc 0) = true)
    by (apply Qle_bool_iff; rewrite E; apply Qle_refl).
  congruence.
Defined.

Declare Scope py_scope.
Delimit Scope py_scope with py.
Notation "x <- r ;; k" := (ligar r (fun x => k))
  (at level 61, r at next level, right associativity) : py_scope.

(** [x / y] on numbers: Python raises on a zero divisor. *)
Definition divisao {F} `{Aritmetica F} (x y : F) : Resultado F :=
  if igual y (lit 0) then Levanta ZeroDivisionError else Retorna (quoc x y).

(** ** Data model: [class Ingrediente], [class Receita] *)

Module Ingrediente.
Record t (F : Type) := novo {
  nome : string;
  carboidrato_por_g : F;
  proteina_por_g : F;
  gordura_por_g : F;
  fibra_por_g : F;
  sodio_por_g : F
}.
End Ingrediente.

Module Receita.
(** [ingredientes]: list of pairs (Ingrediente, quantity in grams);
    [rendimento_total]: grams of the finished recipe. *)
Record t (F : Type) := nova {
  nome : string;
  ingredientes : list (Ingrediente.t F * F);
  rendimento_total : F
}.
End Receita.

(** The dictionary [totais] of the calculator, with its six keys. *)
Record Totais (F : Type) := mkTotais {
  carboidratos : F;
  proteina : F;
  gordura : F;
  fibra : F;
  sodio : F;
  calorias : F
}.

(** ** [class CalculadoraNutricional] *)

Module CalculadoraNutricional.
Section Calculadora.
  Context {F : Type} `{Aritmetica F}.

Definition totais_iniciais : Totais F :=
  mkTotais (lit 0) (lit 0) (lit 0) (lit 0) (lit 0) (lit 0).

(** Body of the inner loop: one (ingrediente, qtd) pair of a recipe. *)
Definition acumular_ingrediente (fator : F) (totais : Totais F)
    (par : Ingrediente.t F * F) : Totais F :=
  let '(ingrediente, qtd) := par in
  let quantidade_efetiva := mult qtd fator in
  let carb := mult quantidade_efetiva (Ingrediente.carboidrato_por_g ingrediente) in
  let prot := mult quantidade_efetiva (Ingrediente.proteina_por_g ingrediente) in
  let gord := mult quantidade_efetiva (Ingrediente.gordura_por_g ingrediente) in
  {| carboidratos := soma (carboidratos totais) carb;
     proteina := soma (proteina totais) prot;
     gordura := soma (gordura totais) gord;
     calorias := soma (calorias totais)
                   (soma (soma (mult carb (lit 4)) (mult prot (lit 4)))
                         (mult gord (lit 9)));
     fibra := soma (fibra totais)
                (mult quantidade_efetiva (Ingrediente.fibra_por_g ingrediente));
     sodio := soma (sodio totais)
                (mult quantidade_efetiva (Ingrediente.sodio_por_g ingrediente)) |}.

Definition mensagem_rendimento (receita : Receita.t F) : string :=
  ("Receita " ++ Receita.nome receita ++ " tem rendimento total inválido")%string.

(** The outer loop, from the dictionary [totais] accumulated so far. *)
Fixpoint acumular (receitas_porcoes : list (Receita.t F * F))
    (totais : Totais F) : Resultado (Totais F) :=
  match receitas_porcoes with
  | [] => Retorna totais
  | (receita, porcao) :: resto =>
      if menor_igual (Receita.rendimento_total receita) (lit 0)
      then Levanta (ValueError (mensagem_rendimento receita))
      else
        (fator <- divisao porcao (Receita.rendimento_total receita) ;;
         acumular resto
           (fold_left (acumular_ingrediente fator)
                      (Receita.ingredientes receita) totais))%py
  end.

(** [{k: round(v, 2) for k, v in totais.items()}] *)
Definition arredondar (totais : Totais F) : Totais F :=
  {| carboidratos := round2 (carboidratos totais);
     proteina := round2 (proteina totais);
     gordura := round2 (gordura totais);
     fibra := round2 (fibra totais);
     sodio := round2 (sodio totais);
     calorias := round2 (calorias totais) |}.

Definition calcular_por_porcao (receitas_porcoes : list (Receita.t F * F))
    : Resultado (Totais F) :=
  (totais <- acumular receitas_porcoes totais_iniciais ;;
   Retorna (arredondar totais))%py.

End Calculadora.
End CalculadoraNutricional.

(** ** Python numbers: [int] and [float]

    The forms read quantities with [int], and a JSON document holds ints
    as well as floats.  An arithmetic operation with a float operand
    converts an int operand to the nearest double first, and that
    conversion raises [OverflowError] beyond the range of the doubles. *)

Module Numero.

Inductive t :=
| Int (z : Z)
| Float (x : float).

(** The magnitudes from which the nearest double (ties to even) would be
    [2^1024]: half an ulp above the largest double. *)
Definition limite : Z := 2 ^ 1024 - 2 ^ 970.

(** [float(z)] *)
Definition float_de_int (z : Z) : Resultado float :=
  if Z.abs z <? limite then Retorna (Binary64.de_Q (inject_Z z))
  else Levanta (OverflowError "int too large to convert to float").

Definition para_float (n : t) : Resultado float :=
  match n with
  | Int z => float_de_int z
  | Float x => Retorna x
  end.

(** [n <= 0]: a comparison with the int literal is exact. *)
Definition nao_positivo (n : t) : bool :=
  match n with
  | Int z => z <=? 0
  | Float x => PrimFloat.leb x (Binary64.de_Q 0)
  end.

(** [x / y]: two ints give the correctly rounded quotient, or
    [OverflowError] when it rounds beyond the doubles; otherwise the int
    operand is converted and the floats are divided. *)
Definition dividir (x y : t) : Resultado float :=
  match x, y with
  | Int a, Int b =>
      if b =? 0 then Levanta ZeroDivisionError
      else if limite * Z.abs b <=? Z.abs a
      then Levanta (OverflowError "integer division result too large for a float")
      else Retorna (Binary64.de_Q (inject_Z a / inject_Z b))
  | _, _ =>
      (fx <- para_float x ;; fy <- para_float y ;; divisao fx fy)%py
  end.

(** [x * y] with a float on the right, and with a float on the left *)
Definition vezes (x : t) (y : float) : Resultado float :=
  (fx <- para_float x ;; Retorna (PrimFloat.mul fx y))%py.

Definition vezes_por (x : float) (y : t) : Resultado float :=
  (fy <- para_float y ;; Retorna (PrimFloat.mul x fy))%py.

End Numero.

(** ** [class CalculadoraNutricional] on Python numbers

    The same function, with portions, yields, quantities and coefficients
    that are ints or floats.  [totais] starts as floats, so every sum is a
    float sum; the factor is a float, so every product has a float
    operand. *)

Module CalculadoraNumeros.

(** Body of the inner loop.  The coefficients are converted in the order
    of the source lines; the line of ['calorias'] multiplies the same
    operands again. *)
Definition acumular_ingrediente (fator : float) (totais : Totais float)
    (par : Ingrediente.t Numero.t * Numero.t) : Resultado (Totais float) :=
  let '(ingrediente, qtd) := par in
  (quantidade_efetiva <- Numero.vezes qtd fator ;;
   carb <- Numero.vezes_por quantidade_efetiva
             (Ingrediente.carboidrato_por_g ingrediente) ;;
   prot <- Numero.vezes_por quantidade_efetiva
             (Ingrediente.proteina_por_g ingrediente) ;;
   gord <- Numero.vezes_por quantidade_efetiva
             (Ingrediente.gordura_por_g ingrediente) ;;
   fib <- Numero.vezes_por quantidade_efetiva
            (Ingrediente.fibra_por_g ingrediente) ;;
   sod <- Numero.vezes_por quantidade_efetiva
            (Ingrediente.sodio_por_g ingrediente) ;;
   Retorna
     {| carboidratos := soma (carboidratos totais) carb;
        proteina := soma (proteina totais) prot;
        gordura := soma (gordura totais) gord;
        calorias := soma (calorias totais)
                      (soma (soma (mult carb (lit 4)) (mult prot (lit 4)))
                            (mult gord (lit 9)));
        fibra := soma (fibra totais) fib;
        sodio := soma (sodio totais) sod |})%py.

(** The inner loop, stopping at the first exception. *)
Fixpoint laco_ingredientes (fator : float)
    (ingredientes : list (Ingrediente.t Numero.t * Numero.t))
    (totais : Totais float) : Resultado (Totais float) :=
  match ingredientes with
  | [] => Retorna totais
  | par :: resto =>
      (totais' <- acumular_ingrediente fator totais par ;;
       laco_ingredientes fator resto totais')%py
  end.

Fixpoint acumular (receitas_porcoes : list (Receita.t Numero.t * Numero.t))
    (totais : Totais float) : Resultado (Totais float) :=
  match receitas_porcoes with
  | [] => Retorna totais
  | (receita, porcao) :: resto =>
      if Numero.nao_positivo (Receita.rendimento_total receita)
      then Levanta (ValueError
                      (CalculadoraNutricional.mensagem_rendimento receita))
      else
        (fator <- Numero.dividir porcao (Receita.rendimento_total receita) ;;
         totais' <- laco_ingredientes fator (Receita.ingredientes receita) totais ;;
         acumular resto totais')%py
  end.

Definition calcular_por_porcao
    (receitas_porcoes : list (Receita.t Numero.t * Numero.t))
    : Resultado (Totais float) :=
  (totais <- acumular receitas_porcoes CalculadoraNutricional.totais_iniciais ;;
   Retorna (CalculadoraNutricional.arredondar totais))%py.

End CalculadoraNumeros.

(** ** The outside world: stores, documents, message boxes *)

(** A JSON document as [json.load] returns it (and as [json.dump] writes it:
    tuples are written as arrays).  The stores of this program hold null,
    numbers, strings, arrays and objects. *)
#[local] Set Warnings "-register-all".
Inductive JSON (F : Type) : Type :=
| JNull
| JNum (x : F)
| JStr (s : string)
| JList (l : list (JSON F))
| JDict (d : list (string * JSON F)).
Arguments JNull {F}.
Arguments JStr {F} s.

(** A piece of formatted text: a literal, [f"{v:.nf}"], [str(v)], an [int]. *)
Inductive Pedaco (F : Type) : Type :=
| Texto (s : string)
| Fixo (casas : nat) (v : F)
| Str (v : F)
| Inteiro (z : Z).
Arguments Texto {F} s.
Arguments Inteiro {F} z.

Definition Celula (F : Type) := list (Pedaco F).
Definition Tabela (F : Type) := list (list (Celula F)).

(** [messagebox.showerror] / [messagebox.showinfo]; [causa] is the exception
    whose [str(e)] ends the text. *)
Inductive Mensagem :=
| showerror (titulo texto : string) (causa : option Excecao)
| showinfo (titulo texto : string).

Record Mundo (F : Type) := mkMundo {
  ingredientes_json : option (JSON F);      (* ingredientes.json *)
  receitas_json : option (JSON F);          (* receitas.json *)
  valores_diarios_json : option (JSON F);   (* valores_diarios.json *)
  documentos : list (string * Tabela F);    (* PDF files built, newest first *)
  mensagens : list Mensagem                 (* message boxes shown, newest first *)
}.

Definition IO (F A : Type) := Mundo F -> Resultado A * Mundo F.

Definition io_ret {F A} (a : A) : IO F A := fun w => (Retorna a, w).

Definition io_ligar {F A B} (m : IO F A) (k : A -> IO F B) : IO F B :=
  fun w => match m w with
           | (Retorna a, w') => k a w'
           | (Levanta e, w') => (Levanta e, w')
           end.

Declare Scope io_scope.
Delimit Scope io_scope with io.
Notation "x <- m ;; k" := (io_ligar m (fun x => k))
  (at level 61, m at next level, right associativity) : io_scope.
Notation "m ;; k" := (io_ligar m (fun _ => k))
  (at level 61, right associativity) : io_scope.

Section Mundo.
  Context {F : Type}.

Definition escrever_ingredientes (j : JSON F) : IO F unit := fun w =>
  (Retorna tt,
   mkMundo (Some j) (receitas_json w) (valores_diarios_json w)
           (documentos w) (mensagens w)).

Definition escrever_receitas (j : JSON F) : IO F unit := fun w =>
  (Retorna tt,
   mkMundo (ingredientes_json w) (Some j) (valores_diarios_json w)
           (documentos w) (mensagens w)).

Definition escrever_valores_diarios (j : JSON F) : IO F unit := fun w =>
  (Retorna tt,
   mkMundo (ingredientes_json w) (receitas_json w) (Some j)
           (documentos w) (mensagens w)).

(** [doc.build(elements)] under a name that can be written: the document
    is added to the ones built.  The report button names its document
    [Janela.nome_do_arquivo], a bare file name in the working directory. *)
Definition construir_documento (nome_arquivo : string) (t : Tabela F)
    : IO F unit := fun w =>
  (Retorna tt,
   mkMundo (ingredientes_json w) (receitas_json w) (valores_diarios_json w)
           ((nome_arquivo, t) :: documentos w) (mensagens w)).

Definition mostrar (m : Mensagem) : IO F unit := fun w =>
  (Retorna tt,
   mkMundo (ingredientes_json w) (receitas_json w) (valores_diarios_json w)
           (documentos w) (m :: mensagens w)).

(** ** Python values read from a store *)

(** The characters of a text.  A Python [str] is a sequence of code
    points, and a text is held here in UTF-8: a byte [10xxxxxx] continues
    the code point of the byte before it. *)
Definition continuacao (c : ascii) : bool :=
  ((128 <=? N_of_ascii c) && (N_of_ascii c <? 192))%N.

Fixpoint pontos_de_codigo (s : string) : list string :=
  match s with
  | EmptyString => []
  | String c resto =>
      let pontos := pontos_de_codigo resto in
      match resto with
      | EmptyString => [String c EmptyString]
      | String d _ =>
          if continuacao d then
            match pontos with
            | p :: ps => String c p :: ps
            | [] => [String c EmptyString]
            end
          else String c EmptyString :: pontos
      end
  end.

Definition caracteres (s : string) : list (JSON F) :=
  map (fun c => JStr c) (pontos_de_codigo s).

(** [for x in j]: a list yields its items, a dict its keys, a str its
    characters; a number or [None] is not iterable. *)
Definition iterar (j : JSON F) : Resultado (list (JSON F)) :=
  match j with
  | JList l => Retorna l
  | JDict d => Retorna (map (fun kv => JStr (fst kv)) d)
  | JStr s => Retorna (caracteres s)
  | JNum _ => Levanta (TypeError "object is not iterable")
  | JNull => Levanta (TypeError "object is not iterable")
  end.

(** [a, b = j] *)
Definition desempacotar2 (j : JSON F) : Resultado (JSON F * JSON F) :=
  (itens <- iterar j ;;
   match itens with
   | [a; b] => Retorna (a, b)
   | _ => Levanta (ValueError "wrong number of values to unpack")
   end)%py.

(** The keys of a dict are unique; the first binding of [chave] is read. *)
Fixpoint procurar (chave : string) (d : list (string * JSON F))
    : option (JSON F) :=
  match d with
  | [] => None
  | (k, v) :: resto => if String.eqb k chave then Some v else procurar chave resto
  end.

(** [j[chave]] with a string key *)
Definition subscrito (j : JSON F) (chave : string) : Resultado (JSON F) :=
  match j with
  | JDict d =>
      match procurar chave d with
      | Some v => Retorna v
      | None => Levanta (KeyError chave)
      end
  | JList _ => Levanta (TypeError "list indices must be integers")
  | JStr _ => Levanta (TypeError "string indices must be integers")
  | JNum _ => Levanta (TypeError "object is not subscriptable")
  | JNull => Levanta (TypeError "object is not subscriptable")
  end.

(** [j.get(chave, padrao)] *)
Definition obter (j : JSON F) (chave : string) (padrao : JSON F)
    : Resultado (JSON F) :=
  match j with
  | JDict d =>
      match procurar chave d with
      | Some v => Retorna v
      | None => Retorna padrao
      end
  | _ => Levanta (AttributeError "object has no attribute 'get'")
  end.

(** The records of the model are typed.  Python stores whatever value the
    document holds and fails at its first use as a number or a name; the
    model reports a value of another type where it is read. *)
Definition como_numero (j : JSON F) : Resultado F :=
  match j with
  | JNum x => Retorna x
  | _ => Levanta (TypeError "number expected")
  end.

Definition como_texto (j : JSON F) : Resultado string :=
  match j with
  | JStr s => Retorna s
  | _ => Levanta (TypeError "str expected")
  end.

(** A [for] loop that appends one result per item, stopping at the first
    exception. *)
Fixpoint para_cada {A B} (f : A -> Resultado B) (l : list A)
    : Resultado (list B) :=
  match l with
  | [] => Retorna []
  | x :: resto =>
      (y <- f x ;; ys <- para_cada f resto ;; Retorna (y :: ys))%py
  end.

End Mundo.

(** ** [to_dict] of the two classes *)

Definition Ingrediente_to_dict {F} (i : Ingrediente.t F) : JSON F :=
  JDict [ ("nome", JStr (Ingrediente.nome i));
          ("carboidrato_por_g", JNum (Ingrediente.carboidrato_por_g i));
          ("proteina_por_g", JNum (Ingrediente.proteina_por_g i));
          ("gordura_por_g", JNum (Ingrediente.gordura_por_g i));
          ("fibra_por_g", JNum (Ingrediente.fibra_por_g i));
          ("sodio_por_g", JNum (Ingrediente.sodio_por_g i)) ]%string.

(** [(ingrediente.nome, quantidade)], written by [json.dump] as an array *)
Definition par_to_json {F} (par : Ingrediente.t F * F) : JSON F :=
  JList [JStr (Ingrediente.nome (fst par)); JNum (snd par)].

Definition Receita_to_dict {F} (r : Receita.t F) : JSON F :=
  JDict [ ("nome", JStr (Receita.nome r));
          ("ingredientes", JList (map par_to_json (Receita.ingredientes r)));
          ("rendimento_total", JNum (Receita.rendimento_total r)) ]%string.

(** ** [class DataManager] *)

Module DataManager.
Section DataManager.
  Context {F : Type} `{Aritmetica F}.

Definition ingrediente_de_item (item : JSON F) : Resultado (Ingrediente.t F) :=
  (nome <- (v <- subscrito item "nome" ;; como_texto v) ;;
   carb <- (v <- subscrito item "carboidrato_por_g" ;; como_numero v) ;;
   prot <- (v <- subscrito item "proteina_por_g" ;; como_numero v) ;;
   gord <- (v <- subscrito item "gordura_por_g" ;; como_numero v) ;;
   fibra <- (v <- subscrito item "fibra_por_g" ;; como_numero v) ;;
   sodio <- (v <- subscrito item "sodio_por_g" ;; como_numero v) ;;
   Retorna (Ingrediente.novo nome carb prot gord fibra sodio))%py.

Definition carregar_ingredientes : IO F (list (Ingrediente.t F)) := fun w =>
  match ingredientes_json w with
  | None => (Retorna [], w)
  | Some dados =>
      ((itens <- iterar dados ;; para_cada ingrediente_de_item itens)%py, w)
  end.

Definition salvar_ingredientes (ingredientes : list (Ingrediente.t F))
    : IO F unit :=
  escrever_ingredientes (JList (map Ingrediente_to_dict ingredientes)).

(** [i.nome == nome_ing], where [nome_ing] is whatever the store holds *)
Definition nome_igual (nome_ing : JSON F) (i : Ingrediente.t F) : bool :=
  match nome_ing with
  | JStr s => String.eqb (Ingrediente.nome i) s
  | _ => false
  end.

(** The inner loop of [carregar_receitas]: each (name, quantity) pair is
    looked up with [next(..., None)] and appended only when found. *)
Fixpoint resolver (ingredientes : list (Ingrediente.t F))
    (pares : list (JSON F)) : Resultado (list (Ingrediente.t F * F)) :=
  match pares with
  | [] => Retorna []
  | par :: resto =>
      (nq <- desempacotar2 par ;;
       match find (nome_igual (fst nq)) ingredientes with
       | Some ingrediente =>
           qtd <- como_numero (snd nq) ;;
           ingredientes_receita <- resolver ingredientes resto ;;
           Retorna ((ingrediente, qtd) :: ingredientes_receita)
       | None => resolver ingredientes resto
       end)%py
  end.

(** [sum(qtd for _, qtd in ingredientes_receita)], as the sum from zero
    in stored order.  In exact arithmetic this is the sum, whatever the
    method.  In binary64 it is the plain sum of doubles; [sum] itself adds
    ints exactly and compensates the rounding errors of floats, and the
    two agree where every partial sum is exact. *)
Definition soma_quantidades (ingredientes_receita : list (Ingrediente.t F * F))
    : F :=
  fold_left (fun acc par => soma acc (snd par)) ingredientes_receita (lit 0).

Definition receita_de_item (ingredientes : list (Ingrediente.t F))
    (item : JSON F) : Resultado (Receita.t F) :=
  (pares <- (v <- subscrito item "ingredientes" ;; iterar v) ;;
   ingredientes_receita <- resolver ingredientes pares ;;
   nome <- (v <- subscrito item "nome" ;; como_texto v) ;;
   rendimento <- (v <- obter item "rendimento_total"
                          (JNum (soma_quantidades ingredientes_receita)) ;;
                  como_numero v) ;;
   Retorna (Receita.nova nome ingredientes_receita rendimento))%py.

Definition carregar_receitas (ingredientes : list (Ingrediente.t F))
    : IO F (list (Receita.t F)) := fun w =>
  match receitas_json w with
  | None => (Retorna [], w)
  | Some dados =>
      match (itens <- iterar dados ;;
             para_cada (receita_de_item ingredientes) itens)%py with
      | Retorna receitas => (Retorna receitas, w)
      | Levanta e =>
          (r <- mostrar (showerror "Erro" "Falha ao carregar receitas: " (Some e)) ;;
           io_ret [])%io w
      end
  end.

Definition salvar_receitas (receitas : list (Receita.t F)) : IO F unit :=
  escrever_receitas (JList (map Receita_to_dict receitas)).

Definition deletar_ingrediente (nome : string) : IO F unit :=
  (ingredientes <- carregar_ingredientes ;;
   salvar_ingredientes
     (filter (fun i => negb (String.eqb (Ingrediente.nome i) nome))
             ingredientes))%io.

(** A call binds the positional arguments to the parameters before the
    body runs; [carregar_receitas] has one required parameter. *)
Definition chamar_carregar_receitas
    (argumentos : list (list (Ingrediente.t F)))
    : IO F (list (Receita.t F)) :=
  match argumentos with
  | [ingredientes] => carregar_receitas ingredientes
  | [] => fun w =>
      (Levanta (TypeError
         "carregar_receitas() missing 1 required positional argument: 'ingredientes'"),
       w)
  | _ => fun w =>
      (Levanta (TypeError
         "carregar_receitas() takes 2 positional arguments but more were given"),
       w)
  end.

(** [receitas = cls.carregar_receitas()]: the call passes no argument. *)
Definition deletar_receita (nome : string) : IO F unit :=
  (receitas <- chamar_carregar_receitas [] ;;
   salvar_receitas
     (filter (fun r => negb (String.eqb (Receita.nome r) nome)) receitas))%io.

End DataManager.
End DataManager.

(** ** [class ValoresDiarios] *)

Module ValoresDiarios.
Section ValoresDiarios.
  Context {F : Type} `{Aritmetica F}.

Definition padrao : JSON F :=
  JDict [ ("carboidratos", JNum (lit 300));
          ("proteinas", JNum (lit 75));
          ("gorduras_totais", JNum (lit 55));
          ("valor_energetico", JNum (lit 2000));
          ("fibras", JNum (lit 30));
          ("sodio", JNum (lit 5000)) ]%string.

(** [except FileNotFoundError]: the built-in table *)
Definition carregar : IO F (JSON F) := fun w =>
  match valores_diarios_json w with
  | Some dados => (Retorna dados, w)
  | None => (Retorna padrao, w)
  end.

Definition salvar (dados : JSON F) : IO F unit :=
  escrever_valores_diarios dados.

End ValoresDiarios.
End ValoresDiarios.

(** ** [class GeradorPDF] *)

Module GeradorPDF.
Section GeradorPDF.
  Context {F : Type} `{Aritmetica F}.

(** [kcal], lines 209-211: from the three macro totals it is given *)
Definition kcal (dados_nutricionais : Totais F) : F :=
  soma (soma (mult (carboidratos dados_nutricionais) (lit 4))
             (mult (proteina dados_nutricionais) (lit 4)))
       (mult (gordura dados_nutricionais) (lit 9)).

Definition kj (dados_nutricionais : Totais F) : F :=
  mult (kcal dados_nutricionais) (lit 4.184).

(** [(total / vd[chave]) * 100] *)
Definition porcentagem (total : F) (vd : JSON F) (chave : string)
    : Resultado F :=
  (referencia <- (v <- subscrito vd chave ;; como_numero v) ;;
   razao <- divisao total referencia ;;
   Retorna (mult razao (lit 100)))%py.

Record Porcentagens := mkPorcentagens {
  p_carboidratos : F;
  p_proteina : F;
  p_gordura : F;
  p_kcal : F;
  p_fibra : F;
  p_sodio : F
}.

Definition porcentagens (dados_nutricionais : Totais F) (vd : JSON F)
    : Resultado Porcentagens :=
  (c <- porcentagem (carboidratos dados_nutricionais) vd "carboidratos" ;;
   p <- porcentagem (proteina dados_nutricionais) vd "proteinas" ;;
   g <- porcentagem (gordura dados_nutricionais) vd "gorduras_totais" ;;
   k <- porcentagem (kcal dados_nutricionais) vd "valor_energetico" ;;
   f <- porcentagem (fibra dados_nutricionais) vd "fibras" ;;
   s <- porcentagem (sodio dados_nutricionais) vd "sodio" ;;
   Retorna (mkPorcentagens c p g k f s))%py.

Definition texto_rodape (vd : JSON F) : Resultado (Celula F) :=
  (ve <- (v <- subscrito vd "valor_energetico" ;; como_numero v) ;;
   ve_kj <- truncar (mult ve (lit 4.184)) ;;
   Retorna [ Texto "*% Valores Diários de referência com base em uma dieta de ";
             Str ve; Texto " kcal ou "; Inteiro ve_kj;
             Texto " kJ. Seus valores diários podem ser maiores ou menores dependendo de suas necessidades energéticas." ])%py.

Definition linha (rotulo : string) (valor : F) (unidade : string)
    (porcento : F) : list (Celula F) :=
  [ [Texto rotulo]; [Fixo 1 valor; Texto unidade];
    [Fixo 1 porcento; Texto "%"] ].

Definition linha_energia (dados_nutricionais : Totais F) (p : Porcentagens)
    : list (Celula F) :=
  [ [Texto "Valor Energético"];
    [Fixo 1 (kcal dados_nutricionais); Texto " kcal = ";
     Fixo 0 (kj dados_nutricionais); Texto " kJ"];
    [Fixo 1 (p_kcal p); Texto "%"] ].

Definition tabela_dados (dados_nutricionais : Totais F) (peso_porcao : F)
    (p : Porcentagens) (rodape : Celula F) : Tabela F :=
  [ [ [Texto "<b>INFORMAÇÃO NUTRICIONAL</b><br/>Marmita de ";
       Str peso_porcao; Texto "g"]; [Texto ""]; [Texto ""] ];
    [ [Texto ""]; [Texto "Quantidade nesta marmita"]; [Texto "%VD*"] ];
    linha_energia dados_nutricionais p;
    linha "Carboidratos" (carboidratos dados_nutricionais) " g" (p_carboidratos p);
    linha "Proteínas" (proteina dados_nutricionais) " g" (p_proteina p);
    linha "Gorduras Totais" (gordura dados_nutricionais) " g" (p_gordura p);
    linha "Fibra Alimentar" (fibra dados_nutricionais) " g" (p_fibra p);
    linha "Sódio" (sodio dados_nutricionais) " mg" (p_sodio p);
    [ rodape; [Texto ""]; [Texto ""] ] ].

Definition elevar {A} (r : Resultado A) : IO F A := fun w => (r, w).

(** The table style is presentation only and is left out; [doc.build]
    writes the document under [nome_arquivo]. *)
Definition gerar_tabela_nutricional (nome_arquivo : string)
    (dados_nutricionais : Totais F) (peso_porcao : F) : IO F unit :=
  (vd <- ValoresDiarios.carregar ;;
   p <- elevar (porcentagens dados_nutricionais vd) ;;
   rodape <- elevar (texto_rodape vd) ;;
   construir_documento nome_arquivo
     (tabela_dados dados_nutricionais peso_porcao p rodape))%io.

End GeradorPDF.
End GeradorPDF.

(** ** [class NutritionApp]: the ingredient delete handler *)

Module NutritionApp.

(** The attributes of the window that [_deletar_ingrediente] reads or
    writes.  A recipe holds references to the ingredient objects of
    [ingredientes]; the handler compares them by name only and changes no
    ingredient object, so the objects are modelled by their values. *)
Record t (F : Type) := mk {
  ingredientes : list (Ingrediente.t F);
  receitas : list (Receita.t F);
  ingrediente_selecionado : option (Ingrediente.t F);
  combo_ingredientes_exist : string;               (* text shown *)
  combo_ingredientes_exist_valores : list string;  (* drop-down values *)
  combo_ingredientes_valores : list string;
  entradas : list string   (* entry_nome, entry_carb, ..., entry_sodio *)
}.

Section NutritionApp.
  Context {F : Type} `{Aritmetica F}.

Definition nome_e (nome : string) (i : Ingrediente.t F) : bool :=
  String.eqb (Ingrediente.nome i) nome.

(** [self.ingredientes.remove(ingrediente)] for the object found by
    [next(i for i in self.ingredientes if i.nome == nome)]: objects are
    compared by identity, and the object found is the first one of that
    name, so the first element of that name goes. *)
Fixpoint remove (nome : string) (l : list (Ingrediente.t F))
    : list (Ingrediente.t F) :=
  match l with
  | [] => []
  | i :: resto => if nome_e nome i then resto else i :: remove nome resto
  end.


Definition _atualizar_combos (app : t F) : t F :=
  let valores := map (@Ingrediente.nome F) (ingredientes app) in
  mk (ingredientes app) (receitas app) (ingrediente_selecionado app)
     (combo_ingredientes_exist app) valores valores (entradas app).

Definition _novo_ingrediente (app : t F) : t F :=
  mk (ingredientes app) (receitas app) None ""
     (combo_ingredientes_exist_valores app) (combo_ingredientes_valores app)
     (map (fun _ => ""%string) (entradas app)).


End NutritionApp.
End NutritionApp.

(** ** [class NutritionApp]: settings, recipe deletion, report button

    [float(text)] on the text of an entry is a parameter of these handlers:
    [float_de texto] is [Some x] when Python reads [texto] as the number
    [x] and [None] when it raises [ValueError]. *)

Module Configuracoes.

(** The six entries of the settings tab. *)
Record Entradas := mkEntradas {
  vd_carb : string;
  vd_prot : string;
  vd_gord : string;
  vd_fibra : string;
  vd_sodio : string;
  vd_kcal : string
}.

Section Configuracoes.
Context {F : Type} `{Aritmetica F}.
Variable float_de : string -> option F.

(** The dictionary [novos_vd], built entry by entry; the first text that
    is not a number raises [ValueError]. *)
Definition novos_vd (e : Entradas) : option (JSON F) :=
  match float_de (vd_carb e) with
  | None => None
  | Some carboidratos =>
  match float_de (vd_prot e) with
  | None => None
  | Some proteinas =>
  match float_de (vd_gord e) with
  | None => None
  | Some gorduras_totais =>
  match float_de (vd_fibra e) with
  | None => None
  | Some fibras_alimentares =>
  match float_de (vd_sodio e) with
  | None => None
  | Some sodio =>
  match float_de (vd_kcal e) with
  | None => None
  | Some valor_energetico =>
      Some (JDict [ ("carboidratos", JNum carboidratos);
                    ("proteinas", JNum proteinas);
                    ("gorduras_totais", JNum gorduras_totais);
                    ("fibras_alimentares", JNum fibras_alimentares);
                    ("sodio", JNum sodio);
                    ("valor_energetico", JNum valor_energetico) ]%string)
  end end end end end end.

Definition _salvar_vds (e : Entradas) : IO F unit :=
  match novos_vd e with
  | Some dados =>
      (ValoresDiarios.salvar dados ;;
       mostrar (showinfo "Sucesso" "Valores atualizados!"))%io
  | None => mostrar (showerror "Erro" "Valores inválidos!" None)
  end.

End Configuracoes.
End Configuracoes.

Module Janela.

(** One row of the report tab: the recipe combo box (text shown and
    drop-down values) and the entry of grams. *)
Record Linha := mkLinha {
  combo : string;
  combo_valores : list string;
  entry : string
}.

(** The attributes of the window that [_deletar_receita] and [gerar_pdf]
    read or write.  [_deletar_receita] changes no recipe object, so the
    objects are modelled by their values. *)
Record t (F : Type) := mk {
  receitas : list (Receita.t F);
  receita_selecionada : option (Receita.t F);
  combo_receitas_exist : string;
  combo_receitas_exist_valores : list string;
  entry_nome_receita : string;
  lista_ingredientes : string;
  frame_receitas : list Linha
}.

(** How a button handler ends: it returns, or an exception leaves it. *)
Inductive Desfecho :=
| Terminou
| Escapou (e : Excecao)
| EscapouStopIteration.

Section Janela.
Context {F : Type} `{Aritmetica F}.
Variable float_de : string -> option F.

Definition nome_e (nome : string) (r : Receita.t F) : bool :=
  String.eqb (Receita.nome r) nome.

(** [self.receitas.remove(receita)] for the object found by [next]: the
    first recipe of that name goes. *)
Fixpoint remove (nome : string) (l : list (Receita.t F)) : list (Receita.t F) :=
  match l with
  | [] => []
  | r :: resto => if nome_e nome r then resto else r :: remove nome resto
  end.

(** Every combo box gets the recipe names as values; a row keeps the text
    it shows. *)
Definition _atualizar_combos_receitas (j : t F) : t F :=
  let valores := map (@Receita.nome F) (receitas j) in
  mk (receitas j) (receita_selecionada j) (combo_receitas_exist j) valores
     (entry_nome_receita j) (lista_ingredientes j)
     (map (fun l => mkLinha (combo l) valores (entry l)) (frame_receitas j)).

Definition _nova_receita (j : t F) : t F :=
  mk (receitas j) None "" (combo_receitas_exist_valores j) "" ""
     (frame_receitas j).

(** [resposta] is the answer to [messagebox.askyesno]. *)
Definition _deletar_receita (resposta : bool) (j : t F) : IO F (t F) :=
  let nome := combo_receitas_exist j in
  if String.eqb nome "" then io_ret j
  else if negb resposta then io_ret j
  else
    match find (nome_e nome) (receitas j) with
    | None => io_ret j
    | Some receita =>
        let j1 :=
          mk (remove nome (receitas j)) (receita_selecionada j)
             (combo_receitas_exist j) (combo_receitas_exist_valores j)
             (entry_nome_receita j) (lista_ingredientes j)
             (frame_receitas j) in
        (DataManager.salvar_receitas (receitas j1) ;;
         let j2 := _nova_receita (_atualizar_combos_receitas j1) in
         mostrar (showinfo "Sucesso" "Receita excluída com sucesso!") ;;
         io_ret j2)%io
    end.

(** What the loop of [gerar_pdf] has collected, or how it was left. *)
Inductive Coleta :=
| Coletado (receitas_porcoes : list (Receita.t F * F)) (peso_total : F)
| SemReceita
| QuantidadeInvalida.

(** The loop over the rows: a row without recipe name or without quantity
    is skipped; [next] without default raises [StopIteration] when no
    recipe has the name, [float] raises [ValueError] on the quantity. *)
Fixpoint coletar (receitas : list (Receita.t F)) (linhas : list Linha)
    (receitas_porcoes : list (Receita.t F * F)) (peso_total : F) : Coleta :=
  match linhas with
  | [] => Coletado receitas_porcoes peso_total
  | l :: resto =>
      if String.eqb (combo l) "" || String.eqb (entry l) ""
      then coletar receitas resto receitas_porcoes peso_total
      else
        match find (nome_e (combo l)) receitas with
        | None => SemReceita
        | Some receita =>
            match float_de (entry l) with
            | None => QuantidadeInvalida
            | Some quantidade =>
                coletar receitas resto
                        (receitas_porcoes ++ [(receita, quantidade)])
                        (soma peso_total quantidade)
            end
        end
  end.

(** [agora] is [datetime.now().strftime('%Y%m%d_%H%M%S')]. *)
Definition nome_do_arquivo (agora : string) : string :=
  ("Tabela_Nutricional_" ++ agora ++ ".pdf")%string.

Definition gerar_pdf (agora : string) (j : t F) (w : Mundo F)
    : Desfecho * Mundo F :=
  match coletar (receitas j) (frame_receitas j) [] (lit 0) with
  | SemReceita => (EscapouStopIteration, w)
  | QuantidadeInvalida =>
      (Escapou (ValueError "could not convert string to float"), w)
  | Coletado [] _ =>
      (Terminou,
       snd (mostrar (showerror "Erro" "Adicione pelo menos uma receita" None) w))
  | Coletado receitas_porcoes peso_total =>
      match CalculadoraNutricional.calcular_por_porcao receitas_porcoes with
      | Levanta e => (Escapou e, w)
      | Retorna dados =>
          match GeradorPDF.gerar_tabela_nutricional
                  (nome_do_arquivo agora) dados peso_total w with
          | (Levanta e, w') => (Escapou e, w')
          | (Retorna _, w') =>
              (Terminou,
               snd (mostrar
                      (showinfo "Sucesso"
                                ("PDF gerado: " ++ nome_do_arquivo agora))
                      w'))
          end
      end
  end.

End Janela.
End Janela.

(** ** [class NutritionApp]: the ingredient form

    [salvar_ingrediente] (the second definition of that name in the class,
    the one in force) changes the selected [Ingrediente] object in place,
    and the recipes hold references to the same objects.  Here the objects
    live in a store indexed by address; the catalog and the recipes hold
    addresses. *)

Module Formulario.

(** The six entries of the ingredient tab. *)
Record Entradas := mkEntradas {
  entry_nome : string;
  entry_carb : string;
  entry_prot : string;
  entry_gord : string;
  entry_fibra : string;
  entry_sodio : string
}.

(** A [Receita] object whose pairs refer to ingredient objects. *)
Record ReceitaRef (F : Type) := mkReceita {
  nome : string;
  ingredientes_ref : list (nat * F);
  rendimento_total : F
}.

Record t (F : Type) := mk {
  objetos : nat -> Ingrediente.t F;    (* the ingredient objects *)
  proximo : nat;                       (* the next address to allocate *)
  ingredientes : list nat;             (* self.ingredientes *)
  receitas : list (ReceitaRef F);      (* self.receitas *)
  ingrediente_selecionado : option nat;
  combo_ingredientes_exist : string;
  combo_ingredientes_exist_valores : list string;
  combo_ingredientes_valores : list string;
  entradas : Entradas
}.

Section Formulario.
Context {F : Type} `{Aritmetica F}.
Variable float_de : string -> option F.

(** The ingredients and recipes as the rest of the program sees them. *)
Definition catalogo (j : t F) : list (Ingrediente.t F) :=
  map (objetos j) (ingredientes j).

Definition valor_receita (objs : nat -> Ingrediente.t F) (r : ReceitaRef F)
    : Receita.t F :=
  Receita.nova (nome r)
               (map (fun par => (objs (fst par), snd par)) (ingredientes_ref r))
               (rendimento_total r).

Definition receitas_valor (j : t F) : list (Receita.t F) :=
  map (valor_receita (objetos j)) (receitas j).

(** Assignment to the attributes of the object at [a]. *)
Definition atribuir (objs : nat -> Ingrediente.t F) (a : nat)
    (i : Ingrediente.t F) : nat -> Ingrediente.t F :=
  fun b => if Nat.eqb b a then i else objs b.

(** The five numbers of the form, read in the order of the source; [None]
    when [float] raises [ValueError]. *)
Definition ler_numeros (e : Entradas) : option (F * F * F * F * F) :=
  match float_de (entry_carb e) with
  | None => None
  | Some carb =>
  match float_de (entry_prot e) with
  | None => None
  | Some prot =>
  match float_de (entry_gord e) with
  | None => None
  | Some gord =>
  match float_de (entry_fibra e) with
  | None => None
  | Some fibra =>
  match float_de (entry_sodio e) with
  | None => None
  | Some sodio => Some (carb, prot, gord, fibra, sodio)
  end end end end end.

Definition _atualizar_combos (j : t F) : t F :=
  let valores := map (@Ingrediente.nome F) (catalogo j) in
  mk (objetos j) (proximo j) (ingredientes j) (receitas j)
     (ingrediente_selecionado j) (combo_ingredientes_exist j) valores valores
     (entradas j).

Definition _novo_ingrediente (j : t F) : t F :=
  mk (objetos j) (proximo j) (ingredientes j) (receitas j) None ""
     (combo_ingredientes_exist_valores j) (combo_ingredientes_valores j)
     (mkEntradas "" "" "" "" "" "").

(** The loops of [_atualizar_combos_ingredientes] on one recipe: a pair
    whose ingredient is named [old_name] now refers to the selected
    object. *)
Definition substituir (objs : nat -> Ingrediente.t F) (old_name : string)
    (selecionado : nat) (r : ReceitaRef F) : ReceitaRef F :=
  mkReceita (nome r)
    (map (fun par =>
            if String.eqb (Ingrediente.nome (objs (fst par))) old_name
            then (selecionado, snd par) else par)
         (ingredientes_ref r))
    (rendimento_total r).

Definition _atualizar_combos_ingredientes (old_name : string)
    (selecionado : nat) (j : t F) : IO F (t F) :=
  let j1 :=
    mk (objetos j) (proximo j) (ingredientes j)
       (map (substituir (objetos j) old_name selecionado) (receitas j))
       (ingrediente_selecionado j) (combo_ingredientes_exist j)
       (combo_ingredientes_exist_valores j) (combo_ingredientes_valores j)
       (entradas j) in
  (DataManager.salvar_receitas (receitas_valor j1) ;; io_ret j1)%io.

(** The end of [salvar_ingrediente], common to both modes. *)
Definition salvar_e_atualizar (j : t F) : IO F (t F) :=
  (DataManager.salvar_ingredientes (catalogo j) ;;
   let j1 := _atualizar_combos j in
   mostrar (showinfo "Sucesso" "Ingrediente salvo com sucesso!") ;;
   io_ret (_novo_ingrediente j1))%io.

Definition salvar_ingrediente (j : t F) : IO F (t F) :=
  let nome := entry_nome (entradas j) in
  match ler_numeros (entradas j) with
  | None =>
      (mostrar (showerror "Erro" "Preencha todos os campos corretamente" None) ;;
       io_ret j)%io
  | Some (carb, prot, gord, fibra, sodio) =>
      match ingrediente_selecionado j with
      | Some a =>
          let old_name := Ingrediente.nome (objetos j a) in
          let j1 :=
            mk (atribuir (objetos j) a
                         (Ingrediente.novo nome carb prot gord fibra sodio))
               (proximo j) (ingredientes j) (receitas j)
               (ingrediente_selecionado j) (combo_ingredientes_exist j)
               (combo_ingredientes_exist_valores j)
               (combo_ingredientes_valores j) (entradas j) in
          if String.eqb old_name nome then salvar_e_atualizar j1
          else
            (j2 <- _atualizar_combos_ingredientes old_name a j1 ;;
             salvar_e_atualizar j2)%io
      | None =>
          if existsb (fun i => String.eqb (Ingrediente.nome i) nome) (catalogo j)
          then
            (mostrar (showerror "Erro" "Já existe um ingrediente com este nome!"
                                None) ;;
             io_ret j)%io
          else
            let a := proximo j in
            salvar_e_atualizar
              (mk (atribuir (objetos j) a
                            (Ingrediente.novo nome carb prot gord fibra sodio))
                  (S a) (ingredientes j ++ [a]) (receitas j)
                  (ingrediente_selecionado j) (combo_ingredientes_exist j)
                  (combo_ingredientes_exist_valores j)
                  (combo_ingredientes_valores j) (entradas j))
      end
  end.

End Formulario.
End Formulario.

(** ** Reference data of the specification *)

Section Exemplos.
  Context {F : Type} `{Aritmetica F}.

(** The recipe "Rice" of the specification. *)
Definition ingrediente_A : Ingrediente.t F :=
  Ingrediente.novo "A" (lit 0.8) (lit 0.1) (lit 0.05) (lit 0.02) (lit 1).
Definition ingrediente_B : Ingrediente.t F :=
  Ingrediente.novo "B" (lit 0) (lit 0) (lit 0) (lit 0) (lit 0).
Definition rice : Receita.t F :=
  Receita.nova "Rice" [(ingrediente_A, lit 500); (ingrediente_B, lit 500)]
               (lit 1000).

(** One gram of an ingredient with 0.004 g of carbohydrate per gram, in a
    recipe that yields 1000 g. *)
Definition traco : Ingrediente.t F :=
  Ingrediente.novo "traco" (lit 0.004) (lit 0) (lit 0) (lit 0) (lit 0).
Definition caldo : Receita.t F :=
  Receita.nova "caldo" [(traco, lit 1)] (lit 1000).

(** An ingredient that is all carbohydrate, and three recipes of it: a
    large quantity in a yield of 3 g, and in a yield of 1 g either 10^16 g
    or twice 1 g. *)
Definition puro : Ingrediente.t F :=
  Ingrediente.novo "puro" (lit 1) (lit 0) (lit 0) (lit 0) (lit 0).
Definition concentrado : Receita.t F :=
  Receita.nova "concentrado" [(puro, lit (inject_Z (2 ^ 1000)))] (lit 3).
Definition carga : Receita.t F :=
  Receita.nova "carga" [(puro, lit (inject_Z (10 ^ 16)))] (lit 1).
Definition pitadas : Receita.t F :=
  Receita.nova "pitadas" [(puro, lit 1); (puro, lit 1)] (lit 1).

(** The smallest positive binary64 number, [5e-324]. *)
Definition porcao_minima : F := lit (1 # 2 ^ 1074).

End Exemplos.


Definition mundo_vazio : Mundo float := mkMundo None None None [] [].

(** A window with the ingredient A at address 0, the next address 1, the
    recipe Rice made of 500 g of that object, the selection [selecionado],
    and a form that describes an ingredient named [nome]. *)
Definition formulario_exemplo (nome : string) (selecionado : option nat)
    : Formulario.t float :=
  Formulario.mk (fun _ => ingrediente_A) 1 [0%nat]
                [Formulario.mkReceita "Rice" [(0%nat, lit 500)] (lit 1000)]
                selecionado "" ["A"%string] ["A"%string]
                (Formulario.mkEntradas nome "1" "1" "1" "1" "1").

(** A window with A at address 0 and B at address 1, A selected, and a
    form that names it "B". *)
Definition formulario_dois : Formulario.t float :=
  Formulario.mk (fun a => if Nat.eqb a 0 then ingrediente_A else ingrediente_B)
                2 [0%nat; 1%nat] [] (Some 0%nat) "A" ["A"; "B"]%string
                ["A"; "B"]%string
                (Formulario.mkEntradas "B" "1" "1" "1" "1" "1").






(** "Rice" as the recipe form builds it: quantities read with [int]. *)
Definition rice_do_formulario : Receita.t Numero.t :=
  Receita.nova "Rice"
    [ (Ingrediente.novo "A" (Numero.Float (lit 0.8)) (Numero.Float (lit 0.1))
                        (Numero.Float (lit 0.05)) (Numero.Float (lit 0.02))
                        (Numero.Float (lit 1)),
       Numero.Int 500);
      (Ingrediente.novo "B" (Numero.Float (lit 0)) (Numero.Float (lit 0))
                        (Numero.Float (lit 0)) (Numero.Float (lit 0))
                        (Numero.Float (lit 0)),
       Numero.Int 500) ]
    (Numero.Float (lit 1000)).

(** A recipe of yield 1000.0 g whose form holds a quantity of [10^400]
    grams. *)
Definition enorme : Receita.t Numero.t :=
  Receita.nova "enorme"
    [ (Ingrediente.novo "puro" (Numero.Float (lit 1)) (Numero.Float (lit 0))
                        (Numero.Float (lit 0)) (Numero.Float (lit 0))
                        (Numero.Float (lit 0)),
       Numero.Int (10 ^ 400)) ]
    (Numero.Float (lit 1000)).

(** ** The accumulated sums, as the specification words them

  For each nutrient, every (ingredient, quantity) pair of every recipe
  contributes [quantity * (portion / yield) * coefficient]; energy
  contributes 4, 4 and 9 kcal per gram of carbohydrate, protein and fat.
  The contributions are added in the order of the lists, from zero. *)

Section SomasAcumuladas.
  Context {F : Type} `{Aritmetica F}.

Definition quantidade_escalada (receita : Receita.t F) (porcao : F)
    (par : Ingrediente.t F * F) : F :=
  mult (snd par) (quoc porcao (Receita.rendimento_total receita)).

(** The contributions of one nutrient, [coef] being its coefficient. *)
Definition contribuicoes (coef : Ingrediente.t F -> F)
    (receitas_porcoes : list (Receita.t F * F)) : list F :=
  flat_map
    (fun rp =>
       map (fun par =>
              mult (quantidade_escalada (fst rp) (snd rp) par) (coef (fst par)))
           (Receita.ingredientes (fst rp)))
    receitas_porcoes.

Definition contribuicoes_energia
    (receitas_porcoes : list (Receita.t F * F)) : list F :=
  flat_map
    (fun rp =>
       map (fun par =>
              let q := quantidade_escalada (fst rp) (snd rp) par in
              soma (soma (mult (mult q (Ingrediente.carboidrato_por_g (fst par))) (lit 4))
                         (mult (mult q (Ingrediente.proteina_por_g (fst par))) (lit 4)))
                   (mult (mult q (Ingrediente.gordura_por_g (fst par))) (lit 9)))
           (Receita.ingredientes (fst rp)))
    receitas_porcoes.

Definition somatorio (l : list F) : F := fold_left soma l (lit 0).

Definition somas_acumuladas (receitas_porcoes : list (Receita.t F * F))
    : Totais F :=
  {| carboidratos :=
       somatorio (contribuicoes (@Ingrediente.carboidrato_por_g F) receitas_porcoes);
     proteina :=
       somatorio (contribuicoes (@Ingrediente.proteina_por_g F) receitas_porcoes);
     gordura :=
       somatorio (contribuicoes (@Ingrediente.gordura_por_g F) receitas_porcoes);
     fibra :=
       somatorio (contribuicoes (@Ingrediente.fibra_por_g F) receitas_porcoes);
     sodio :=
       somatorio (contribuicoes (@Ingrediente.sodio_por_g F) receitas_porcoes);
     calorias := somatorio (contribuicoes_energia receitas_porcoes) |}.

(** Field-wise operations on a dictionary of totals. *)
Definition escalar (k : F) (t : Totais F) : Totais F :=
  {| carboidratos := mult k (carboidratos t);
     proteina := mult k (proteina t);
     gordura := mult k (gordura t);
     fibra := mult k (fibra t);
     sodio := mult k (sodio t);
     calorias := mult k (calorias t) |}.

Definition somar_totais (a b : Totais F) : Totais F :=
  {| carboidratos := soma (carboidratos a) (carboidratos b);
     proteina := soma (proteina a) (proteina b);
     gordura := soma (gordura a) (gordura b);
     fibra := soma (fibra a) (fibra b);
     sodio := soma (sodio a) (sodio b);
     calorias := soma (calorias a) (calorias b) |}.

Definition rendimento_invalido (rp : Receita.t F * F) : Prop :=
  menor_igual (Receita.rendimento_total (fst rp)) (lit 0) = true.

Definition rendimento_valido (rp : Receita.t F * F) : Prop :=
  menor_igual (Receita.rendimento_total (fst rp)) (lit 0) = false.

(** One nutrient's share of the inner loop. *)
Definition parcela (fator : F) (coef : Ingrediente.t F -> F)
    (par : Ingrediente.t F * F) : F :=
  mult (mult (snd par) fator) (coef (fst par)).

Definition parcela_energia (fator : F) (par : Ingrediente.t F * F) : F :=
  soma (soma (mult (parcela fator (@Ingrediente.carboidrato_por_g F) par) (lit 4))
             (mult (parcela fator (@Ingrediente.proteina_por_g F) par) (lit 4)))
       (mult (parcela fator (@Ingrediente.gordura_por_g F) par) (lit 9)).

End SomasAcumuladas.

(** ** Words of the claims about the catalog and the stores *)

(** A recipe record as the store holds it: a name, (ingredient name,
    quantity) pairs and the total yield. *)
Record RegistroReceita (F : Type) := mkRegistro {
  reg_nome : string;
  reg_ingredientes : list (string * F);
  reg_rendimento_total : F
}.

Definition par_json {F} (p : string * F) : JSON F :=
  JList [JStr (fst p); JNum (snd p)].

Definition registro_json {F} (reg : RegistroReceita F) : JSON F :=
  JDict [ ("nome", JStr (reg_nome reg));
          ("ingredientes", JList (map par_json (reg_ingredientes reg)));
          ("rendimento_total", JNum (reg_rendimento_total reg)) ]%string.

(** The record that [salvar_receitas] writes for a recipe. *)
Definition registro_de {F} (r : Receita.t F) : RegistroReceita F :=
  mkRegistro (Receita.nome r)
             (map (fun par => (Ingrediente.nome (fst par), snd par))
                  (Receita.ingredientes r))
             (Receita.rendimento_total r).

Section Vocabulario.
Context {F : Type}.

Definition outro_nome (n : string) (i : Ingrediente.t F) : bool :=
  negb (String.eqb (Ingrediente.nome i) n).


(** Is the name one of the catalog? *)
Definition no_catalogo (ingredientes : list (Ingrediente.t F)) (nome : string)
    : bool :=
  existsb (fun i => String.eqb (Ingrediente.nome i) nome) ingredientes.

(** Resolution of stored pairs as the specification words it: a pair whose
    name is in the catalog becomes (ingredient of that name, quantity), any
    other pair is left out. *)
Fixpoint resolvidos (ingredientes : list (Ingrediente.t F))
    (pares : list (string * F)) : list (Ingrediente.t F * F) :=
  match pares with
  | [] => []
  | (nome, qtd) :: resto =>
      match find (fun i => String.eqb (Ingrediente.nome i) nome) ingredientes with
      | Some i => (i, qtd) :: resolvidos ingredientes resto
      | None => resolvidos ingredientes resto
      end
  end.

Definition receita_resolvida (ingredientes : list (Ingrediente.t F))
    (reg : RegistroReceita F) : Receita.t F :=
  Receita.nova (reg_nome reg)
               (resolvidos ingredientes (reg_ingredientes reg))
               (reg_rendimento_total reg).

End Vocabulario.

(** The dictionary [dados_nutricionais] with another value under
    ['calorias']. *)
Definition com_calorias {F} (c : F) (d : Totais F) : Totais F :=
  mkTotais (carboidratos d) (proteina d) (gordura d) (fibra d) (sodio d) c.

(** The row "Valor Energético" of a table showing [kcal] kilocalories. *)
Definition linha_de_energia {F} `{Aritmetica F} (kcal : F) (vd : Celula F)
    : list (Celula F) :=
  [ [Texto "Valor Energético"];
    [Fixo 1 kcal; Texto " kcal = "; Fixo 0 (mult kcal (lit 4.184)); Texto " kJ"];
    vd ].

(** ** Words of the further properties *)

(** [b] lies within [tol] of [a]. *)
Definition perto (tol a b : Qc) : Prop :=
  (a - tol <= b)%Qc /\ (b <= a + tol)%Qc.

(** All six entries of a dictionary of totals satisfy [P]. *)
Definition todos_os_totais {F} (P : F -> Prop) (t : Totais F) : Prop :=
  P (carboidratos t) /\ P (proteina t) /\ P (gordura t)
  /\ P (fibra t) /\ P (sodio t) /\ P (calorias t).

(** Entry by entry, [b] lies within [tol] of [a]. *)
Definition totais_perto (tol : Qc) (a b : Totais Qc) : Prop :=
  perto tol (carboidratos a) (carboidratos b)
  /\ perto tol (proteina a) (proteina b)
  /\ perto tol (gordura a) (gordura b)
  /\ perto tol (fibra a) (fibra b)
  /\ perto tol (sodio a) (sodio b)
  /\ perto tol (calorias a) (calorias b).

Definition nao_negativos (t : Totais Qc) : Prop :=
  todos_os_totais (fun x => (0 <= x)%Qc) t.

(** Nothing in the input is negative: portions, quantities, coefficients. *)
Definition ingrediente_nao_negativo (i : Ingrediente.t Qc) : Prop :=
  (0 <= Ingrediente.carboidrato_por_g i)%Qc
  /\ (0 <= Ingrediente.proteina_por_g i)%Qc
  /\ (0 <= Ingrediente.gordura_por_g i)%Qc
  /\ (0 <= Ingrediente.fibra_por_g i)%Qc
  /\ (0 <= Ingrediente.sodio_por_g i)%Qc.

Definition entrada_nao_negativa (rp : Receita.t Qc * Qc) : Prop :=
  (0 <= snd rp)%Qc
  /\ Forall (fun par => ingrediente_nao_negativo (fst par) /\ (0 <= snd par)%Qc)
            (Receita.ingredientes (fst rp)).

(** The six keys of an ingredient record. *)
Definition chaves_ingrediente : list string :=
  [ "nome"; "carboidrato_por_g"; "proteina_por_g"; "gordura_por_g";
    "fibra_por_g"; "sodio_por_g" ]%string.

(** A record without the key [chave]. *)
Definition sem_chave {F} (chave : string) (j : JSON F) : JSON F :=
  match j with
  | JDict d => JDict (filter (fun kv => negb (String.eqb (fst kv) chave)) d)
  | _ => j
  end.

(** A recipe record of a store written without ['rendimento_total']. *)
Definition registro_legado_json {F} (nome : string) (pares : list (string * F))
    : JSON F :=
  JDict [ ("nome", JStr nome);
          ("ingredientes", JList (map par_json pares)) ]%string.

(** The error box of [carregar_receitas] for the exception [e]. *)
Definition falha_ao_carregar (e : Excecao) : Mensagem :=
  showerror "Erro" "Falha ao carregar receitas: " (Some e).

(** A daily-value table with its six keys and numeric values, in the key
    order of the built-in table. *)
Definition vd_json {F} (carboidratos proteinas gorduras_totais valor_energetico
                        fibras sodio : F) : JSON F :=
  JDict [ ("carboidratos", JNum carboidratos);
          ("proteinas", JNum proteinas);
          ("gorduras_totais", JNum gorduras_totais);
          ("valor_energetico", JNum valor_energetico);
          ("fibras", JNum fibras);
          ("sodio", JNum sodio) ]%string.

(** [(total / referencia) * 100] *)
Definition porcento {F} `{Aritmetica F} (total referencia : F) : F :=
  mult (quoc total referencia) (lit 100).

(** The percentages of the totals [d] against six references. *)
Definition porcentagens_de {F} `{Aritmetica F} (d : Totais F)
    (c p g e f s : F) : GeradorPDF.Porcentagens :=
  GeradorPDF.mkPorcentagens
    (porcento (carboidratos d) c) (porcento (proteina d) p)
    (porcento (gordura d) g) (porcento (GeradorPDF.kcal d) e)
    (porcento (fibra d) f) (porcento (sodio d) s).

(** A footnote that shows the reference energy [e] and [z] kJ. *)
Definition rodape_mostra {F} (e : F) (z : Z) (rodape : Celula F) : Prop :=
  exists antes meio depois,
    rodape = [Texto antes; Str e; Texto meio; Inteiro z; Texto depois].

(** A row that [gerar_pdf] skips: no recipe name or no quantity. *)
Definition linha_vazia (l : Janela.Linha) : Prop :=
  Janela.combo l = ""%string \/ Janela.entry l = ""%string.

(** A row that [gerar_pdf] uses, and what it reads from it: the first
    recipe of the name shown and the number in the entry. *)
Definition linha_le {F} (float_de : string -> option F)
    (receitas : list (Receita.t F)) (l : Janela.Linha)
    (rp : Receita.t F * F) : Prop :=
  Janela.combo l <> ""%string
  /\ Janela.entry l <> ""%string
  /\ find (Janela.nome_e (Janela.combo l)) receitas = Some (fst rp)
  /\ float_de (Janela.entry l) = Some (snd rp).

(** A row that [gerar_pdf] uses and cannot read: no recipe has the name
    shown, or the entry is not a number. *)
Definition linha_ilegivel {F} (float_de : string -> option F)
    (receitas : list (Receita.t F)) (l : Janela.Linha) : Prop :=
  Janela.combo l <> ""%string
  /\ Janela.entry l <> ""%string
  /\ (find (Janela.nome_e (Janela.combo l)) receitas = None
      \/ float_de (Janela.entry l) = None).

(** [peso_total]: the quantities added up from [0.0], in row order. *)
Definition peso_das_porcoes {F} `{Aritmetica F}
    (receitas_porcoes : list (Receita.t F * F)) : F :=
  fold_left soma (map snd receitas_porcoes) (lit 0).

(** The ingredient that the form describes once its numbers are read. *)
Definition ingrediente_do_formulario {F} (e : Formulario.Entradas)
    (numeros : F * F * F * F * F) : Ingrediente.t F :=
  let '(carb, prot, gord, fibra, sodio) := numeros in
  Ingrediente.novo (Formulario.entry_nome e) carb prot gord fibra sodio.

(** Every pair of every recipe refers to an object of the catalog. *)
Definition receitas_do_catalogo {F} (j : Formulario.t F) : Prop :=
  Forall (fun r =>
            Forall (fun par => In (fst par) (Formulario.ingredientes j))
                   (Formulario.ingredientes_ref r))
         (Formulario.receitas j).

(** The address to allocate next is not in use. *)
Definition proximo_livre {F} (j : Formulario.t F) : Prop :=
  Forall (fun a => a < Formulario.proximo j)%nat (Formulario.ingredientes j)
  /\ Forall (fun r =>
               Forall (fun par => (fst par < Formulario.proximo j)%nat)
                      (Formulario.ingredientes_ref r))
            (Formulario.receitas j).

(** ** Words of the claims about numbers *)

(** A Python number that converts to a float: a float, or an int below
    the range limit. *)
Definition converte (n : Numero.t) : bool :=
  match n with
  | Numero.Int z => Z.abs z <? Numero.limite
  | Numero.Float _ => true
  end.

Definition ingrediente_converte (i : Ingrediente.t Numero.t) : bool :=
  converte (Ingrediente.carboidrato_por_g i)
  && converte (Ingrediente.proteina_por_g i)
  && converte (Ingrediente.gordura_por_g i)
  && converte (Ingrediente.fibra_por_g i)
  && converte (Ingrediente.sodio_por_g i).

(** Every number of the entry converts: the portion, the yield, and every
    quantity and coefficient of the recipe. *)
Definition entrada_converte (rp : Receita.t Numero.t * Numero.t) : bool :=
  converte (snd rp)
  && converte (Receita.rendimento_total (fst rp))
  && forallb (fun par => ingrediente_converte (fst par) && converte (snd par))
             (Receita.ingredientes (fst rp)).

Definition rendimento_nao_positivo (rp : Receita.t Numero.t * Numero.t) : Prop :=
  Numero.nao_positivo (Receita.rendimento_total (fst rp)) = true.

(** An input of floats, as an input of Python numbers. *)
Definition ingrediente_float (i : Ingrediente.t float) : Ingrediente.t Numero.t :=
  Ingrediente.novo (Ingrediente.nome i)
    (Numero.Float (Ingrediente.carboidrato_por_g i))
    (Numero.Float (Ingrediente.proteina_por_g i))
    (Numero.Float (Ingrediente.gordura_por_g i))
    (Numero.Float (Ingrediente.fibra_por_g i))
    (Numero.Float (Ingrediente.sodio_por_g i)).

Definition receita_float (r : Receita.t float) : Receita.t Numero.t :=
  Receita.nova (Receita.nome r)
    (map (fun par => (ingrediente_float (fst par), Numero.Float (snd par)))
         (Receita.ingredientes r))
    (Numero.Float (Receita.rendimento_total r)).

Definition entrada_float (rp : Receita.t float * float)
    : Receita.t Numero.t * Numero.t :=
  (receita_float (fst rp), Numero.Float (snd rp)).

(** The float that an operation with a float operand takes for a number:
    the number itself, or the double nearest to an int. *)
Definition como_float (n : Numero.t) : float :=
  match n with
  | Numero.Int z => Binary64.de_Q (inject_Z z)
  | Numero.Float x => x
  end.

Definition ingrediente_como_float (i : Ingrediente.t Numero.t)
    : Ingrediente.t float :=
  Ingrediente.novo (Ingrediente.nome i)
    (como_float (Ingrediente.carboidrato_por_g i))
    (como_float (Ingrediente.proteina_por_g i))
    (como_float (Ingrediente.gordura_por_g i))
    (como_float (Ingrediente.fibra_por_g i))
    (como_float (Ingrediente.sodio_por_g i)).

Definition receita_como_float (r : Receita.t Numero.t) : Receita.t float :=
  Receita.nova (Receita.nome r)
    (map (fun par => (ingrediente_como_float (fst par), como_float (snd par)))
         (Receita.ingredientes r))
    (como_float (Receita.rendimento_total r)).

Definition entrada_como_float (rp : Receita.t Numero.t * Numero.t)
    : Receita.t float * float :=
  (receita_como_float (fst rp), como_float (snd rp)).

(** The portion or the yield is a float, as the forms read them: the
    factor is then a quotient of floats. *)
Definition algum_float (x y : Numero.t) : bool :=
  match x, y with
  | Numero.Int _, Numero.Int _ => false
  | _, _ => true
  end.

Definition fator_de_floats (rp : Receita.t Numero.t * Numero.t) : bool :=
  algum_float (snd rp) (Receita.rendimento_total (fst rp)).

(** ** Words of the claims about rounding *)

(** [n] is the integer nearest to [q], the even one of the two when [q]
    lies halfway. *)
Definition inteiro_mais_proximo (q : Q) (n : Z) : Prop :=
  (q - (1 # 2) <= inject_Z n)%Q
  /\ (inject_Z n <= q + (1 # 2))%Q
  /\ ((inject_Z n == q + (1 # 2))%Q \/ (inject_Z n == q - (1 # 2))%Q ->
      Z.even n = true).

(** [r] is [q] rounded to two decimal places, in exact arithmetic: the
    nearest multiple of 1/100. *)
Definition duas_casas_exata (q r : Qc) : Prop :=
  exists n : Z,
    inteiro_mais_proximo (q * inject_Z 100) n /\ r = Q2Qc (n # 100).

(** [r] is the binary64 number [v] rounded to two decimal places: the
    double nearest to the decimal of two places nearest to the exact value
    of [v], with the sign of [v]; a double without fraction bits, an
    infinity, NaN or a zero is its own rounding. *)
Definition duas_casas_binary64 (v r : float) : Prop :=
  match Prim2SF v with
  | S754_finite s m e =>
      if e <? 0
      then exists n : Z,
             inteiro_mais_proximo (Binary64.magnitude m e * inject_Z 100) n
             /\ r = (if s then PrimFloat.opp (lit (n # 100)) else lit (n # 100))
      else r = v
  | _ => r = v
  end.

(** Entry by entry, the totals [b] are related to the totals [a]. *)
Definition totais_relacionados {F} (R : F -> F -> Prop) (a b : Totais F) : Prop :=
  R (carboidratos a) (carboidratos b)
  /\ R (proteina a) (proteina b)
  /\ R (gordura a) (gordura b)
  /\ R (fibra a) (fibra b)
  /\ R (sodio a) (sodio b)
  /\ R (calorias a) (calorias b).

(** ** Words of the claims about the range of a binary64 computation

    Doubling is exact in binary64 as long as nothing underflows or
    overflows.  A result is within range when it is a normal number of
    magnitude from [2^-1020] up to, not including, [2^1023] (its mantissa
    of 53 bits has an exponent above -1073 and below 971), or a zero that
    is not an underflow. *)

(** A number of twice the magnitude, where the exponent allows it. *)
Definition dobro_sf (x : spec_float) : spec_float :=
  match x with
  | S754_finite s m e => S754_finite s m (e + 1)
  | _ => x
  end.

Definition folga_sf (zero_ok : bool) (r : spec_float) : bool :=
  match r with
  | S754_zero _ => zero_ok
  | S754_finite _ _ e => (-1073 <? e) && (e <? 971)
  | _ => false
  end.

Definition nulo_sf (x : spec_float) : bool :=
  match x with
  | S754_zero _ => true
  | _ => false
  end.

(** [r] is within range; a zero counts when [zero_ok]. *)
Definition dentro (zero_ok : bool) (r : float) : bool :=
  folga_sf zero_ok (Prim2SF r).

(** [x] is [0.0] or [-0.0]. *)
Definition nulo (x : float) : bool := nulo_sf (Prim2SF x).

(** A product is within range: a zero product needs a zero factor. *)
Definition produto_na_faixa (x y : float) : bool :=
  dentro (nulo x || nulo y) (mult x y).

(** A quotient is within range: a zero quotient needs a zero dividend. *)
Definition quociente_na_faixa (x y : float) : bool :=
  dentro (nulo x) (quoc x y).

(** A sum is within range: a zero sum is an exact cancellation. *)
Definition soma_na_faixa (a b : float) : bool :=
  dentro true (soma a b).

(** Every product and sum of one pass of the inner loop is within range. *)
Definition passo_na_faixa (fator : float) (totais : Totais float)
    (par : Ingrediente.t float * float) : bool :=
  let '(ingrediente, qtd) := par in
  let quantidade_efetiva := mult qtd fator in
  let carb := mult quantidade_efetiva (Ingrediente.carboidrato_por_g ingrediente) in
  let prot := mult quantidade_efetiva (Ingrediente.proteina_por_g ingrediente) in
  let gord := mult quantidade_efetiva (Ingrediente.gordura_por_g ingrediente) in
  produto_na_faixa qtd fator
  && produto_na_faixa quantidade_efetiva (Ingrediente.carboidrato_por_g ingrediente)
  && produto_na_faixa quantidade_efetiva (Ingrediente.proteina_por_g ingrediente)
  && produto_na_faixa quantidade_efetiva (Ingrediente.gordura_por_g ingrediente)
  && produto_na_faixa quantidade_efetiva (Ingrediente.fibra_por_g ingrediente)
  && produto_na_faixa quantidade_efetiva (Ingrediente.sodio_por_g ingrediente)
  && produto_na_faixa carb (lit 4)
  && produto_na_faixa prot (lit 4)
  && produto_na_faixa gord (lit 9)
  && soma_na_faixa (mult carb (lit 4)) (mult prot (lit 4))
  && soma_na_faixa (soma (mult carb (lit 4)) (mult prot (lit 4))) (mult gord (lit 9))
  && soma_na_faixa (carboidratos totais) carb
  && soma_na_faixa (proteina totais) prot
  && soma_na_faixa (gordura totais) gord
  && soma_na_faixa (calorias totais)
       (soma (soma (mult carb (lit 4)) (mult prot (lit 4))) (mult gord (lit 9)))
  && soma_na_faixa (fibra totais)
       (mult quantidade_efetiva (Ingrediente.fibra_por_g ingrediente))
  && soma_na_faixa (sodio totais)
       (mult quantidade_efetiva (Ingrediente.sodio_por_g ingrediente)).

(** Every pass of the inner loop is within range, from the totals
    accumulated so far. *)
Fixpoint laco_na_faixa (fator : float) (ings : list (Ingrediente.t float * float))
    (totais : Totais float) : bool :=
  match ings with
  | [] => true
  | par :: resto =>
      passo_na_faixa fator totais par
      && laco_na_faixa fator resto
           (CalculadoraNutricional.acumular_ingrediente fator totais par)
  end.

(** The computation for one recipe at the portion [porcao] stays within
    range: the portion, the factor, and every product and sum. *)
Definition porcao_na_faixa (receita : Receita.t float) (porcao : float) : bool :=
  dentro true porcao
  && quociente_na_faixa porcao (Receita.rendimento_total receita)
  && laco_na_faixa (quoc porcao (Receita.rendimento_total receita))
                   (Receita.ingredientes receita)
                   CalculadoraNutricional.totais_iniciais.

Definition totais_dentro (t : Totais float) : Prop :=
  todos_os_totais (fun x => dentro true x = true) t.

(** A legacy record without its dangling pairs: only the pairs whose name
    is in the catalog are left. *)
Definition sem_pendentes {F} (ingredientes : list (Ingrediente.t F))
    (np : string * list (string * F)) : string * list (string * F) :=
  (fst np, filter (fun p => no_catalogo ingredientes (fst p)) (snd np)).

(** The sum of the quantities of a pair list, in exact arithmetic. *)
Definition soma_exata (pares : list (Ingrediente.t Qc * Qc)) : Qc :=
  fold_right (fun par acc => (snd par + acc)%Qc) (Q2Qc 0) pares.

(** * Properties *)

Import CalculadoraNutricional.

(** ** Calculator: general facts *)

Section FatosCalculadora.
  Context {F : Type} `{Aritmetica F}.

Lemma divisao_rendimento_valido (x y : F) :
  menor_igual y (lit 0) = false -> divisao x y = Retorna (quoc x y).
Proof.
  intros Hy. unfold divisao.
  now rewrite (positivo_nao_zero y Hy).
Qed.

(** The loop raises exactly when some recipe fails the guard, and then it
    raises the [ValueError] of the guard. *)
Lemma acumular_levanta (l : list (Receita.t F * F)) (t : Totais F) (e : Excecao) :
  acumular l t = Levanta e ->
  exists rp, In rp l /\ rendimento_invalido rp
             /\ e = ValueError (mensagem_rendimento (fst rp)).
Proof.
  revert t. induction l as [ | [r p] l IH]; intros t; simpl.
  - discriminate.
  - destruct (menor_igual (Receita.rendimento_total r) (lit 0)) eqn:G.
    + intros [= <-]. exists (r, p). unfold rendimento_invalido. simpl. auto.
    + rewrite (divisao_rendimento_valido p _ G). simpl. intros E.
      destruct (IH _ E) as (rp & Hin & Hrp). exists rp. auto.
Qed.

Lemma acumular_retorna (l : list (Receita.t F * F)) (t t' : Totais F) :
  acumular l t = Retorna t' -> Forall (fun rp => ~ rendimento_invalido rp) l.
Proof.
  revert t. induction l as [ | [r p] l IH]; intros t; simpl.
  - constructor.
  - destruct (menor_igual (Receita.rendimento_total r) (lit 0)) eqn:G;
      [ discriminate | ].
    rewrite (divisao_rendimento_valido p _ G). simpl. intros E.
    constructor.
    + unfold rendimento_invalido. simpl. congruence.
    + eapply IH, E.
Qed.

Lemma acumular_validos (l : list (Receita.t F * F)) (t : Totais F) :
  Forall (fun rp => menor_igual (Receita.rendimento_total (fst rp)) (lit 0) = false) l ->
  acumular l t =
  Retorna
    (fold_left
       (fun tot rp =>
          fold_left
            (acumular_ingrediente (quoc (snd rp) (Receita.rendimento_total (fst rp))))
            (Receita.ingredientes (fst rp)) tot)
       l t).
Proof.
  intros Hl. revert t. induction Hl as [ | [r p] l G Hl IH]; intros t; simpl.
  - reflexivity.
  - simpl in G. rewrite G, (divisao_rendimento_valido p _ G). simpl. apply IH.
Qed.

End FatosCalculadora.

Section FatosSomas.
Context {F : Type} `{Aritmetica F}.

Lemma acumular_invalido (l : list (Receita.t F * F)) (t : Totais F) :
  Exists rendimento_invalido l -> exists e, acumular l t = Levanta e.
Proof.
  intros Hl. revert t. induction l as [ | [r p] l IH]; intros t.
  - inversion Hl.
  - simpl. destruct (menor_igual (Receita.rendimento_total r) (lit 0)) eqn:G.
    + eexists. reflexivity.
    + rewrite (divisao_rendimento_valido p _ G). simpl.
      apply IH. inversion Hl as [? ? Hbad | ? ? Hrest]; subst.
      * unfold rendimento_invalido in Hbad. simpl in Hbad. congruence.
      * exact Hrest.
Qed.

Lemma laco_interno (fator : F) (ings : list (Ingrediente.t F * F)) (t : Totais F) :
  fold_left (acumular_ingrediente fator) ings t =
  {| carboidratos :=
       fold_left soma (map (parcela fator (@Ingrediente.carboidrato_por_g F)) ings)
                 (carboidratos t);
     proteina :=
       fold_left soma (map (parcela fator (@Ingrediente.proteina_por_g F)) ings)
                 (proteina t);
     gordura :=
       fold_left soma (map (parcela fator (@Ingrediente.gordura_por_g F)) ings)
                 (gordura t);
     fibra :=
       fold_left soma (map (parcela fator (@Ingrediente.fibra_por_g F)) ings)
                 (fibra t);
     sodio :=
       fold_left soma (map (parcela fator (@Ingrediente.sodio_por_g F)) ings)
                 (sodio t);
     calorias := fold_left soma (map (parcela_energia fator) ings) (calorias t) |}.
Proof.
  revert t. induction ings as [ | [i q] ings IH]; intros t.
  - destruct t; reflexivity.
  - simpl fold_left at 1. rewrite IH. reflexivity.
Qed.

Lemma laco_externo (l : list (Receita.t F * F)) (t : Totais F) :
  fold_left
    (fun tot rp =>
       fold_left
         (acumular_ingrediente (quoc (snd rp) (Receita.rendimento_total (fst rp))))
         (Receita.ingredientes (fst rp)) tot)
    l t =
  {| carboidratos :=
       fold_left soma (contribuicoes (@Ingrediente.carboidrato_por_g F) l) (carboidratos t);
     proteina :=
       fold_left soma (contribuicoes (@Ingrediente.proteina_por_g F) l) (proteina t);
     gordura :=
       fold_left soma (contribuicoes (@Ingrediente.gordura_por_g F) l) (gordura t);
     fibra :=
       fold_left soma (contribuicoes (@Ingrediente.fibra_por_g F) l) (fibra t);
     sodio :=
       fold_left soma (contribuicoes (@Ingrediente.sodio_por_g F) l) (sodio t);
     calorias := fold_left soma (contribuicoes_energia l) (calorias t) |}.
Proof.
  revert t. induction l as [ | [r p] l IH]; intros t.
  - destruct t; reflexivity.
  - simpl fold_left at 1. rewrite IH, laco_interno.
    unfold contribuicoes, contribuicoes_energia. simpl flat_map.
    rewrite !fold_left_app. reflexivity.
Qed.

Lemma acumular_somas (l : list (Receita.t F * F)) (t : Totais F) :
  acumular l totais_iniciais = Retorna t -> t = somas_acumuladas l.
Proof.
  intros E. pose proof (acumular_retorna _ _ E) as V.
  rewrite acumular_validos, laco_externo in E.
  - injection E as <-. reflexivity.
  - eapply Forall_impl; [ | exact V]. intros rp Hrp.
    unfold rendimento_invalido in Hrp.
    destruct (menor_igual (Receita.rendimento_total (fst rp)) (lit 0)); congruence.
Qed.

End FatosSomas.

(** Equality of exact numbers is equality of their reduced fractions. *)
Ltac exato := apply Qc_is_canon; reflexivity.

Lemma Totais_ext {F} (a b : Totais F) :
  carboidratos a = carboidratos b -> proteina a = proteina b ->
  gordura a = gordura b -> fibra a = fibra b -> sodio a = sodio b ->
  calorias a = calorias b -> a = b.
Proof. destruct a, b; simpl; congruence. Qed.

Ltac totais_exatos :=
  vm_compute; apply (f_equal (@Retorna _)), Totais_ext; exato.

Section FatosValidos.
Context {F : Type} `{Aritmetica F}.

Lemma acumular_validos_somas (l : list (Receita.t F * F)) :
  Forall rendimento_valido l ->
  acumular l totais_iniciais = Retorna (somas_acumuladas l).
Proof.
  intros V. rewrite (acumular_validos _ V), laco_externo. reflexivity.
Qed.

Lemma calcular_validos (l : list (Receita.t F * F)) :
  Forall rendimento_valido l ->
  calcular_por_porcao l = Retorna (arredondar (somas_acumuladas l)).
Proof.
  intros V. unfold calcular_por_porcao.
  rewrite (acumular_validos_somas V). reflexivity.
Qed.

End FatosValidos.

(** ** Exact arithmetic: the sums are linear and additive *)

Section ArithmeticaExata.
Local Open Scope Qc_scope.

Lemma somatorio_desde (l : list Qc) (a : Qc) :
  fold_left Qcplus l a = a + fold_left Qcplus l 0.
Proof.
  revert a. induction l as [ | x l IH]; intros a; simpl.
  - ring.
  - rewrite (IH (a + x)), (IH (0 + x)). ring.
Qed.

Lemma somatorio_app (l1 l2 : list Qc) :
  fold_left Qcplus (l1 ++ l2) 0
  = fold_left Qcplus l1 0 + fold_left Qcplus l2 0.
Proof.
  rewrite fold_left_app. apply somatorio_desde.
Qed.

Lemma somatorio_escala (k : Qc) (l : list Qc) :
  fold_left Qcplus (map (Qcmult k) l) 0 = k * fold_left Qcplus l 0.
Proof.
  induction l as [ | x l IH]; simpl.
  - ring.
  - rewrite (somatorio_desde _ (0 + k * x)), (somatorio_desde _ (0 + x)), IH.
    ring.
Qed.

Lemma fator_dobrado (p y : Qc) : (Q2Qc 2 * p) / y = Q2Qc 2 * (p / y).
Proof. unfold Qcdiv. ring. Qed.

Lemma contribuicoes_dobradas (coef : Ingrediente.t Qc -> Qc)
    (r : Receita.t Qc) (p : Qc) :
  contribuicoes coef [(r, mult (lit 2) p)]
  = map (Qcmult (Q2Qc 2)) (contribuicoes coef [(r, p)]).
Proof.
  unfold contribuicoes. simpl. rewrite !app_nil_r, map_map.
  apply map_ext. intros par. unfold quantidade_escalada. simpl.
  rewrite fator_dobrado. ring.
Qed.

Lemma contribuicoes_energia_dobradas (r : Receita.t Qc) (p : Qc) :
  contribuicoes_energia [(r, mult (lit 2) p)]
  = map (Qcmult (Q2Qc 2)) (contribuicoes_energia [(r, p)]).
Proof.
  unfold contribuicoes_energia. simpl. rewrite !app_nil_r, map_map.
  apply map_ext. intros par. unfold quantidade_escalada. simpl.
  rewrite fator_dobrado. ring.
Qed.

Lemma somas_dobradas (r : Receita.t Qc) (p : Qc) :
  somas_acumuladas [(r, mult (lit 2) p)]
  = escalar (lit 2) (somas_acumuladas [(r, p)]).
Proof.
  unfold somas_acumuladas, escalar, somatorio. simpl carboidratos.
  rewrite !contribuicoes_dobradas, contribuicoes_energia_dobradas.
  apply Totais_ext; simpl; apply somatorio_escala.
Qed.

Lemma somas_app (l1 l2 : list (Receita.t Qc * Qc)) :
  somas_acumuladas (l1 ++ l2)
  = somar_totais (somas_acumuladas l1) (somas_acumuladas l2).
Proof.
  unfold somas_acumuladas, somar_totais, somatorio, contribuicoes,
    contribuicoes_energia.
  rewrite !flat_map_app.
  apply Totais_ext; simpl; apply somatorio_app.
Qed.

End ArithmeticaExata.

(** ** binary64: doubling is exact within range

    The operations of binary64 are the ones of [SpecFloat]: the exact
    result, rounded to 53 bits at an exponent that does not go below
    -1074.  Rounding commutes with a shift of the exponent as long as the
    result stays clear of the two ends of the range. *)

Unset Implicit Arguments.

(** The number of binary digits of a positive integer. *)
Lemma digits2_log2 (p : positive) :
  Zpos (digits2_pos p) = Z.log2 (Zpos p) + 1.
Proof.
  induction p as [p IH | p IH | ].
  - change (Zpos (digits2_pos p~1)) with (Zpos (Pos.succ (digits2_pos p))).
    rewrite Pos2Z.inj_succ, IH.
    change (Zpos p~1) with (2 * Zpos p + 1).
    rewrite Z.log2_succ_double by lia. lia.
  - change (Zpos (digits2_pos p~0)) with (Zpos (Pos.succ (digits2_pos p))).
    rewrite Pos2Z.inj_succ, IH.
    change (Zpos p~0) with (2 * Zpos p).
    rewrite Z.log2_double by lia. lia.
  - reflexivity.
Qed.

Lemma Zdigits2_limites (m : Z) :
  0 < m -> 2 ^ (Zdigits2 m - 1) <= m < 2 ^ Zdigits2 m.
Proof.
  intros Hm. destruct m as [ | p | p]; try lia.
  unfold Zdigits2. rewrite digits2_log2.
  pose proof (Z.log2_spec (Zpos p) Hm) as L.
  replace (Z.log2 (Zpos p) + 1 - 1) with (Z.log2 (Zpos p)) by lia.
  replace (Z.log2 (Zpos p) + 1) with (Z.succ (Z.log2 (Zpos p))) by lia.
  exact L.
Qed.

Lemma Zdigits2_nao_negativo (m : Z) : 0 <= Zdigits2 m.
Proof. destruct m; simpl; lia. Qed.

Lemma Zdigits2_ate (m k : Z) : 0 <= m < 2 ^ k -> 0 <= k -> Zdigits2 m <= k.
Proof.
  intros [Hm Hk] Hk0.
  destruct (Z.eq_dec m 0) as [-> | Hn]; [ simpl; lia | ].
  assert (Hp : 0 < m) by lia.
  pose proof (Zdigits2_limites m Hp) as [Hlo _].
  pose proof (Zdigits2_nao_negativo m).
  destruct (Z_lt_le_dec k (Zdigits2 m)) as [Hlt | ]; [ | lia ].
  exfalso.
  assert (2 ^ k <= 2 ^ (Zdigits2 m - 1)) by (apply Z.pow_le_mono_r; lia).
  lia.
Qed.

(** shr_1 halves the mantissa. *)
Lemma shr_1_m (mrs : shr_record) :
  0 <= shr_m mrs -> shr_m (shr_1 mrs) = shr_m mrs / 2.
Proof.
  destruct mrs as [m r s]. simpl. intros Hm.
  destruct m as [ | [p | p | ] | p]; simpl shr_m; try lia; try reflexivity.
  - rewrite (Pos2Z.inj_xI p). apply Z.div_unique with (r := 1); lia.
  - rewrite (Pos2Z.inj_xO p). apply Z.div_unique with (r := 0); lia.
Qed.

Lemma shr_1_nn (mrs : shr_record) : 0 <= shr_m mrs -> 0 <= shr_m (shr_1 mrs).
Proof.
  intros H. rewrite shr_1_m by exact H. apply Z.div_pos; lia.
Qed.

(** Shifting right [p] times divides the mantissa by [2^p]. *)
Lemma iter_pos_shr_1_m (p : positive) (mrs : shr_record) :
  0 <= shr_m mrs ->
  shr_m (iter_pos shr_1 p mrs) = shr_m mrs / 2 ^ Zpos p
  /\ 0 <= shr_m (iter_pos shr_1 p mrs).
Proof.
  revert mrs. induction p as [p IH | p IH | ]; intros mrs Hm.
  - simpl iter_pos.
    pose proof (shr_1_nn mrs Hm) as H1.
    destruct (IH _ H1) as [E1 N1]. destruct (IH _ N1) as [E2 N2].
    split; [ | exact N2 ].
    rewrite E2, E1, shr_1_m by exact Hm.
    rewrite !Z.div_div by (try lia; apply Z.pow_pos_nonneg; lia).
    f_equal. rewrite (Pos2Z.inj_xI p).
    replace (2 * Zpos p + 1) with (1 + Zpos p + Zpos p) by lia.
    rewrite !Z.pow_add_r by lia. change (2 ^ 1) with 2. ring.
  - simpl iter_pos.
    destruct (IH _ Hm) as [E1 N1]. destruct (IH _ N1) as [E2 N2].
    split; [ | exact N2 ].
    rewrite E2, E1.
    rewrite !Z.div_div by (try lia; apply Z.pow_pos_nonneg; lia).
    f_equal. rewrite (Pos2Z.inj_xO p).
    replace (2 * Zpos p) with (Zpos p + Zpos p) by lia.
    rewrite !Z.pow_add_r by lia. ring.
  - simpl iter_pos. split; [ apply shr_1_m, Hm | apply shr_1_nn, Hm ].
Qed.

(** The exponent at which a number of [e] digits is rounded. *)
Lemma fexp_valor (e : Z) : fexp prec emax e = Z.max (e - 53) (-1074).
Proof. reflexivity. Qed.

Lemma shr_record_of_loc_m (m : Z) (l : location) :
  shr_m (shr_record_of_loc m l) = m.
Proof. destruct l as [ | [ | | ]]; reflexivity. Qed.

(** Rounding to nearest takes the mantissa or its successor. *)
Lemma round_nearest_even_limites (m : Z) (l : location) :
  m <= round_nearest_even m l <= m + 1.
Proof.
  destruct l as [ | [ | | ]]; simpl; try lia.
  destruct (Z.even m); lia.
Qed.

(** One more unit of exponent before rounding gives the same shift, unless
    the shift is the one that brings the exponent up to [emin]. *)
Lemma shr_fexp_desloca (mx ex : Z) (lx : location) :
  0 <= mx ->
  (shr_fexp prec emax mx (ex + 1) lx
   = (fst (shr_fexp prec emax mx ex lx), snd (shr_fexp prec emax mx ex lx) + 1)
   /\ 0 <= shr_m (fst (shr_fexp prec emax mx ex lx)))
  \/ (snd (shr_fexp prec emax mx ex lx) = -1074
      /\ 0 <= shr_m (fst (shr_fexp prec emax mx ex lx)) < 2 ^ 52).
Proof.
  intros Hm. unfold shr_fexp. rewrite !fexp_valor.
  pose proof (Zdigits2_nao_negativo mx) as Hd.
  set (d := Zdigits2 mx) in *.
  destruct (Z_le_gt_dec (-1074) (d + ex - 53)) as [Hu | Hc].
  - (* not clamped *)
    left.
    replace (Z.max (d + (ex + 1) - 53) (-1074) - (ex + 1)) with (d - 53) by lia.
    replace (Z.max (d + ex - 53) (-1074) - ex) with (d - 53) by lia.
    unfold shr. destruct (d - 53) as [ | p | p]; simpl fst; simpl snd;
      rewrite ?shr_record_of_loc_m; try (split; [ reflexivity | exact Hm ]).
    split; [ f_equal; lia | ].
    apply iter_pos_shr_1_m. rewrite shr_record_of_loc_m. exact Hm.
  - replace (Z.max (d + (ex + 1) - 53) (-1074) - (ex + 1)) with (-1075 - ex) by lia.
    replace (Z.max (d + ex - 53) (-1074) - ex) with (-1074 - ex) by lia.
    destruct (Z_le_gt_dec (-1074 - ex) 0) as [Hn | Hp].
    + left. unfold shr.
      destruct (-1074 - ex) as [ | p | p] eqn:E1; try lia;
        destruct (-1075 - ex) as [ | q | q] eqn:E2; try lia;
        simpl fst; simpl snd; rewrite ?shr_record_of_loc_m;
        (split; [ reflexivity | exact Hm ]).
    + right. unfold shr.
      destruct (-1074 - ex) as [ | p | p] eqn:E1; try lia.
      simpl fst; simpl snd. split; [ lia | ].
      destruct (iter_pos_shr_1_m p (shr_record_of_loc mx lx)) as [E N];
        [ rewrite shr_record_of_loc_m; exact Hm | ].
      split; [ exact N | ].
      rewrite E, shr_record_of_loc_m.
      destruct (Z.eq_dec mx 0) as [-> | Hz].
      * rewrite Z.div_0_l by (apply Z.pow_nonzero; lia).
        apply Z.pow_pos_nonneg; lia.
      * assert (Hpos : 0 < mx) by lia.
        pose proof (Zdigits2_limites mx Hpos) as [_ Hhi]. fold d in Hhi.
        apply Z.div_lt_upper_bound; [ apply Z.pow_pos_nonneg; lia | ].
        rewrite <- Z.pow_add_r by lia.
        eapply Z.lt_le_trans; [ exact Hhi | ].
        apply Z.pow_le_mono_r; lia.
Qed.

(** Where the result of the rounding is a finite number above the lowest
    exponent, one more unit of exponent before rounding gives one more
    unit after. *)
Lemma binary_round_aux_desloca (s : bool) (mx ex : Z) (lx : location)
    (s' : bool) (m : positive) (e : Z) :
  0 <= mx ->
  binary_round_aux prec emax s mx ex lx = S754_finite s' m e ->
  -1074 < e -> e + 1 <= 971 ->
  binary_round_aux prec emax s mx (ex + 1) lx = S754_finite s' m (e + 1).
Proof.
  intros Hm R He Hmax. unfold binary_round_aux in *.
  destruct (shr_fexp_desloca mx ex lx Hm) as [[E1 N1] | [E1 [N1 B1]]].
  - rewrite E1.
    destruct (shr_fexp prec emax mx ex lx) as [mrs1 e1]. simpl fst in *; simpl snd in *.
    set (m1 := round_nearest_even (shr_m mrs1) (loc_of_shr_record mrs1)) in *.
    assert (Hm1 : 0 <= m1)
      by (pose proof (round_nearest_even_limites (shr_m mrs1) (loc_of_shr_record mrs1));
          unfold m1; lia).
    destruct (shr_fexp_desloca m1 e1 loc_Exact Hm1) as [[E2 N2] | [E2 _]].
    + rewrite E2.
      destruct (shr_fexp prec emax m1 e1 loc_Exact) as [mrs2 e2].
      simpl fst in *; simpl snd in *.
      destruct (shr_m mrs2) as [ | p | p]; try discriminate.
      change (emax - prec) with 971 in *.
      destruct (Z.leb_spec e2 971); [ | discriminate ].
      injection R as <- <- <-.
      destruct (Z.leb_spec (e2 + 1) 971); [ reflexivity | lia ].
    + destruct (shr_fexp prec emax m1 e1 loc_Exact) as [mrs2 e2].
      simpl snd in *. subst e2.
      destruct (shr_m mrs2) as [ | p | p]; try discriminate.
      change (emax - prec) with 971 in *. simpl in R.
      injection R as <- <- <-. lia.
  - destruct (shr_fexp prec emax mx ex lx) as [mrs1 e1]. simpl fst in *; simpl snd in *.
    subst e1.
    set (m1 := round_nearest_even (shr_m mrs1) (loc_of_shr_record mrs1)) in *.
    pose proof (round_nearest_even_limites (shr_m mrs1) (loc_of_shr_record mrs1)) as L.
    fold m1 in L.
    assert (Hd : Zdigits2 m1 <= 53).
    { apply Zdigits2_ate; [ | lia ]. change (2 ^ 53) with (2 * 2 ^ 52). lia. }
    exfalso. unfold shr_fexp in R. rewrite fexp_valor in R.
    replace (Z.max (Zdigits2 m1 + -1074 - 53) (-1074) - -1074) with 0 in R by lia.
    simpl in R.
    destruct m1 as [ | p | p]; try discriminate.
    injection R as <- <- <-. lia.
Qed.

(** Within range, a finite number has its exponent strictly between the
    two ends. *)
Lemma folga_finito (z : bool) (s : bool) (m : positive) (e : Z) :
  folga_sf z (S754_finite s m e) = true -> -1073 < e < 971.
Proof. simpl. intros H. apply andb_prop in H. lia. Qed.

(** Doubling a factor doubles the product, when the factor and the product
    are within range. *)
Lemma SFmul_dobro_esq (x y : spec_float) :
  folga_sf true x = true ->
  folga_sf (nulo_sf x || nulo_sf y) (SFmul prec emax x y) = true ->
  SFmul prec emax (dobro_sf x) y = dobro_sf (SFmul prec emax x y).
Proof.
  intros Hx Hr.
  destruct x as [sx | sx | | sx mx ex]; try discriminate;
    destruct y as [sy | sy | | sy my ey]; try discriminate; try reflexivity.
  simpl dobro_sf at 1. simpl SFmul in *.
  destruct (binary_round_aux prec emax (xorb sx sy) (Z.pos (mx * my)) (ex + ey) loc_Exact)
    as [ | | | s m e] eqn:R; try discriminate.
  apply folga_finito in Hr. simpl dobro_sf.
  replace (ex + 1 + ey) with (ex + ey + 1) by lia.
  apply binary_round_aux_desloca; [ lia | exact R | lia | lia ].
Qed.

Lemma SFmul_dobro_dir (x y : spec_float) :
  folga_sf true y = true ->
  folga_sf (nulo_sf x || nulo_sf y) (SFmul prec emax x y) = true ->
  SFmul prec emax x (dobro_sf y) = dobro_sf (SFmul prec emax x y).
Proof.
  intros Hy Hr.
  destruct x as [sx | sx | | sx mx ex]; try discriminate;
    destruct y as [sy | sy | | sy my ey]; try discriminate; try reflexivity.
  simpl dobro_sf at 1. simpl SFmul in *.
  destruct (binary_round_aux prec emax (xorb sx sy) (Z.pos (mx * my)) (ex + ey) loc_Exact)
    as [ | | | s m e] eqn:R; try discriminate.
  apply folga_finito in Hr. simpl dobro_sf.
  replace (ex + (ey + 1)) with (ex + ey + 1) by lia.
  apply binary_round_aux_desloca; [ lia | exact R | lia | lia ].
Qed.

(** A mantissa below [2^53] at the lowest exponent is rounded to a number
    of exponent [emin] or [emin + 1]. *)
Lemma binary_round_aux_no_chao (s : bool) (q : Z) (l : location)
    (s' : bool) (m : positive) (e : Z) :
  0 <= q < 2 ^ 53 ->
  binary_round_aux prec emax s q (-1074) l = S754_finite s' m e ->
  e <= -1073.
Proof.
  intros [Hq0 Hq] R. unfold binary_round_aux, shr_fexp in R.
  rewrite !fexp_valor in R.
  assert (Hd : Zdigits2 q <= 53) by (apply Zdigits2_ate; lia).
  pose proof (Zdigits2_nao_negativo q) as Hd0.
  replace (Z.max (Zdigits2 q + -1074 - 53) (-1074) - -1074) with 0 in R by lia.
  change (shr (shr_record_of_loc q l) (-1074) 0)
    with (shr_record_of_loc q l, -1074) in R.
  cbv iota beta in R. rewrite !fexp_valor, !shr_record_of_loc_m in R.
  set (m1 := round_nearest_even q (loc_of_shr_record (shr_record_of_loc q l))) in *.
  pose proof (round_nearest_even_limites q (loc_of_shr_record (shr_record_of_loc q l)))
    as L. fold m1 in L.
  assert (Hd1 : Zdigits2 m1 <= 54).
  { apply Zdigits2_ate; [ | lia ]. change (2 ^ 54) with (2 * 2 ^ 53). lia. }
  pose proof (Zdigits2_nao_negativo m1) as Hd10.
  destruct (Z_le_gt_dec (Zdigits2 m1) 53) as [H53 | H54].
  - replace (Z.max (Zdigits2 m1 + -1074 - 53) (-1074) - -1074) with 0 in R by lia.
    simpl in R. clearbody m1. destruct m1; try discriminate.
    injection R as <- <- <-. lia.
  - replace (Z.max (Zdigits2 m1 + -1074 - 53) (-1074) - -1074) with 1 in R by lia.
    simpl in R. clearbody m1.
    destruct m1 as [ | [p | p | ] | p]; simpl in R; try discriminate; try lia;
      injection R as <- <- <-; lia.
Qed.

(** Doubling the dividend doubles the quotient, when both are within
    range. *)
Lemma SFdiv_dobro (x y : spec_float) :
  folga_sf true x = true ->
  folga_sf (nulo_sf x) (SFdiv prec emax x y) = true ->
  SFdiv prec emax (dobro_sf x) y = dobro_sf (SFdiv prec emax x y).
Proof.
  intros Hx Hr.
  destruct x as [sx | sx | | sx mx ex]; try discriminate;
    destruct y as [sy | sy | | sy my ey]; try discriminate; try reflexivity.
  simpl dobro_sf at 1. simpl SFdiv in *.
  unfold SFdiv_core_binary in *. rewrite !fexp_valor in *.
  set (d1 := Zdigits2 (Z.pos mx)) in *. set (d2 := Zdigits2 (Z.pos my)) in *.
  assert (Hmx : 0 < Z.pos mx) by lia. assert (Hmy : 0 < Z.pos my) by lia.
  pose proof (Zdigits2_limites _ Hmx) as [_ Bx]. fold d1 in Bx.
  pose proof (Zdigits2_limites _ Hmy) as [By _]. fold d2 in By.
  pose proof (Zdigits2_nao_negativo (Z.pos mx)) as Hd1. fold d1 in Hd1.
  assert (Hd2 : 1 <= d2) by (unfold d2; simpl; lia).
  destruct (Z_le_gt_dec (-1074) (d1 + ex - (d2 + ey) - 53)) as [Hu | Hc];
    [ | destruct (Z_le_gt_dec (ex - ey + 1) (-1074)) as [Hc2 | Hc1] ].
  1, 2:
    (replace (Z.min (Z.max (d1 + (ex + 1) - (d2 + ey) - 53) (-1074)) (ex + 1 - ey))
       with (Z.min (Z.max (d1 + ex - (d2 + ey) - 53) (-1074)) (ex - ey) + 1)
       by lia;
     set (e' := Z.min (Z.max (d1 + ex - (d2 + ey) - 53) (-1074)) (ex - ey)) in *;
     replace (ex + 1 - ey - (e' + 1)) with (ex - ey - e') by lia;
     set (m' := match ex - ey - e' with
                | 0 => Z.pos mx
                | Z.pos _ => Z.shiftl (Z.pos mx) (ex - ey - e')
                | Z.neg _ => 0
                end) in *;
     assert (Hm' : 0 <= m')
       by (unfold m'; destruct (ex - ey - e'); try lia;
           apply Z.shiftl_nonneg; lia);
     pose proof (Z.div_pos m' (Z.pos my) Hm' Hmy) as Hq;
     unfold Z.div in Hq;
     destruct (Z.div_eucl m' (Z.pos my)) as [q r]; simpl fst in Hq;
     destruct (binary_round_aux prec emax (xorb sx sy) q e'
                 (new_location (Z.pos my) r))
       as [ | | | s m e] eqn:R; try discriminate;
     apply folga_finito in Hr; simpl dobro_sf;
     apply binary_round_aux_desloca; [ exact Hq | exact R | lia | lia ]).
  exfalso.
  replace (Z.min (Z.max (d1 + ex - (d2 + ey) - 53) (-1074)) (ex - ey))
    with (-1074) in Hr by lia.
  set (m' := match ex - ey - -1074 with
             | 0 => Z.pos mx
             | Z.pos _ => Z.shiftl (Z.pos mx) (ex - ey - -1074)
             | Z.neg _ => 0
             end) in *.
  assert (Hm' : 0 <= m' < 2 ^ (d1 + (ex - ey + 1074))).
  { unfold m'. replace (ex - ey - -1074) with (ex - ey + 1074) by lia.
    destruct (ex - ey + 1074) as [ | p | p] eqn:E; try lia.
    - rewrite Z.add_0_r. lia.
    - rewrite Z.shiftl_mul_pow2 by lia. rewrite Z.pow_add_r by lia.
      assert (0 < 2 ^ Z.pos p) by (apply Z.pow_pos_nonneg; lia). nia. }
  assert (Hq : 0 <= m' / Z.pos my < 2 ^ 53).
  { split; [ apply Z.div_pos; lia | ].
    apply Z.div_lt_upper_bound; [ lia | ].
    eapply Z.lt_le_trans; [ apply Hm' | ].
    replace (d1 + (ex - ey + 1074)) with ((d1 + ex - ey + 1074 - 53) + 53) by lia.
    assert (d1 + ex - ey + 1074 - 53 <= d2 - 1) by lia.
    assert (0 <= d1 + ex - ey + 1074 - 53 \/ d1 + ex - ey + 1074 - 53 < 0) as [Hn | Hn] by lia.
    - rewrite Z.pow_add_r by lia.
      assert (2 ^ (d1 + ex - ey + 1074 - 53) <= 2 ^ (d2 - 1))
        by (apply Z.pow_le_mono_r; lia).
      assert (0 < 2 ^ 53) by reflexivity. nia.
    - assert (2 ^ (d1 + ex - ey + 1074 - 53 + 53) <= 2 ^ 53)
        by (apply Z.pow_le_mono_r; lia).
      assert (0 < 2 ^ 53) by reflexivity. nia. }
  unfold Z.div in Hq.
  destruct (Z.div_eucl m' (Z.pos my)) as [q r]. simpl fst in Hq.
  destruct (binary_round_aux prec emax (xorb sx sy) q (-1074)
              (new_location (Z.pos my) r))
    as [ | | | s m e] eqn:R; try discriminate.
  apply folga_finito in Hr.
  pose proof (binary_round_aux_no_chao _ _ _ _ _ _ Hq R). lia.
Qed.

(** At an exponent that is not below [emin] nothing is lost down to zero. *)
Lemma shr_fexp_positivo (mx ex : Z) (lx : location) :
  0 < mx -> -1074 <= ex ->
  0 < shr_m (fst (shr_fexp prec emax mx ex lx))
  /\ -1074 <= snd (shr_fexp prec emax mx ex lx).
Proof.
  intros Hm He. unfold shr_fexp. rewrite fexp_valor.
  pose proof (Zdigits2_limites mx Hm) as [Blo _].
  set (d := Zdigits2 mx) in *.
  replace (Z.max (d + ex - 53) (-1074) - ex) with (Z.max (d - 53) (-1074 - ex))
    by lia.
  unfold shr.
  destruct (Z.max (d - 53) (-1074 - ex)) as [ | p | p] eqn:E;
    simpl fst; simpl snd; rewrite ?shr_record_of_loc_m; try (split; lia).
  assert (Hp : Z.pos p = d - 53) by lia.
  destruct (iter_pos_shr_1_m p (shr_record_of_loc mx lx)) as [Ev _];
    [ rewrite shr_record_of_loc_m; lia | ].
  rewrite Ev, shr_record_of_loc_m. split; [ | lia ].
  apply Z.div_str_pos. split; [ apply Z.pow_pos_nonneg; lia | ].
  eapply Z.le_trans; [ | exact Blo ]. apply Z.pow_le_mono_r; lia.
Qed.

Lemma binary_round_aux_nao_zero (s : bool) (mx ex : Z) (lx : location) (s' : bool) :
  0 < mx -> -1074 <= ex ->
  binary_round_aux prec emax s mx ex lx <> S754_zero s'.
Proof.
  intros Hm He. unfold binary_round_aux.
  destruct (shr_fexp_positivo mx ex lx Hm He) as [P1 E1].
  destruct (shr_fexp prec emax mx ex lx) as [mrs1 e1]. simpl fst in *; simpl snd in *.
  set (m1 := round_nearest_even (shr_m mrs1) (loc_of_shr_record mrs1)).
  assert (Hm1 : 0 < m1)
    by (pose proof (round_nearest_even_limites (shr_m mrs1) (loc_of_shr_record mrs1));
        unfold m1; lia).
  destruct (shr_fexp_positivo m1 e1 loc_Exact Hm1 E1) as [P2 _].
  destruct (shr_fexp prec emax m1 e1 loc_Exact) as [mrs2 e2]. simpl fst in *.
  destruct (shr_m mrs2); try lia.
  destruct (e2 <=? emax - prec); discriminate.
Qed.

Lemma binary_round_nao_zero (s : bool) (p : positive) (e : Z) (s' : bool) :
  -1074 <= e -> binary_round prec emax s p e <> S754_zero s'.
Proof.
  intros He. unfold binary_round, shl_align. rewrite fexp_valor.
  destruct (Z.max (Z.pos (digits2_pos p) + e - 53) (-1074) - e) eqn:E;
    apply binary_round_aux_nao_zero; lia.
Qed.

Lemma iter_xO_valor (p k : positive) :
  Z.pos (Pos.iter xO p k) = Z.pos p * 2 ^ Z.pos k.
Proof.
  induction k as [ | k IH] using Pos.peano_ind.
  - simpl. lia.
  - rewrite Pos.iter_succ, Pos2Z.inj_xO, IH, Pos2Z.inj_succ, Z.pow_succ_r by lia.
    ring.
Qed.

(** The same for [binary_round], which first aligns the mantissa. *)
Lemma binary_round_desloca (s : bool) (p : positive) (e : Z)
    (s' : bool) (m : positive) (e'' : Z) :
  -1074 <= e ->
  binary_round prec emax s p e = S754_finite s' m e'' ->
  -1073 < e'' -> e'' + 1 <= 971 ->
  binary_round prec emax s p (e + 1) = S754_finite s' m (e'' + 1).
Proof.
  intros He R Hlo Hhi. unfold binary_round in *. rewrite !fexp_valor in *.
  set (d := Z.pos (digits2_pos p)) in *.
  assert (Hp : 0 < Z.pos p) by lia.
  pose proof (Zdigits2_limites _ Hp) as [_ Bp]. simpl Zdigits2 in Bp. fold d in Bp.
  assert (Hd : 1 <= d) by (unfold d; lia).
  unfold shl_align in *.
  destruct (Z_le_gt_dec (-1074) (d + e - 53)) as [Hu | Hc].
  - replace (Z.max (d + (e + 1) - 53) (-1074) - (e + 1)) with (d - 53) by lia.
    replace (Z.max (d + e - 53) (-1074) - e) with (d - 53) in R by lia.
    replace (Z.max (d + (e + 1) - 53) (-1074)) with (Z.max (d + e - 53) (-1074) + 1)
      by lia.
    destruct (d - 53) as [ | k | k];
      apply binary_round_aux_desloca; try lia; exact R.
  - exfalso.
    replace (Z.max (d + e - 53) (-1074)) with (-1074) in R by lia.
    destruct (-1074 - e) as [ | k | k] eqn:E; try lia.
    + assert (e = -1074) by lia. subst e.
      assert (Hq : 0 <= Z.pos p < 2 ^ 53).
      { split; [ lia | ]. eapply Z.lt_le_trans; [ exact Bp | ].
        apply Z.pow_le_mono_r; lia. }
      pose proof (binary_round_aux_no_chao _ _ _ _ _ _ Hq R). lia.
    + assert (Hq : 0 <= Z.pos (Pos.iter xO p k) < 2 ^ 53).
      { split; [ lia | ]. rewrite iter_xO_valor.
        assert (Hk : Z.pos k = e + 1074) by lia.
        replace 53 with ((53 - Z.pos k) + Z.pos k) by lia.
        rewrite Z.pow_add_r by lia.
        assert (0 < 2 ^ Z.pos k) by (apply Z.pow_pos_nonneg; lia).
        assert (2 ^ d <= 2 ^ (53 - Z.pos k)) by (apply Z.pow_le_mono_r; lia).
        nia. }
      pose proof (binary_round_aux_no_chao _ _ _ _ _ _ Hq R). lia.
Qed.

Lemma shl_align_desloca (m : positive) (e e' : Z) :
  fst (shl_align m (e + 1) (e' + 1)) = fst (shl_align m e e').
Proof.
  unfold shl_align. replace (e' + 1 - (e + 1)) with (e' - e) by lia.
  destruct (e' - e); reflexivity.
Qed.

(** Doubling both terms doubles the sum, when the three are within range. *)
Lemma SFadd_dobro (a b : spec_float) :
  folga_sf true a = true ->
  folga_sf true b = true ->
  folga_sf true (SFadd prec emax a b) = true ->
  SFadd prec emax (dobro_sf a) (dobro_sf b) = dobro_sf (SFadd prec emax a b).
Proof.
  intros Ha Hb Hr.
  destruct a as [sa | sa | | sa ma ea]; try discriminate;
    destruct b as [sb | sb | | sb mb eb]; try discriminate;
    try (destruct sa, sb; reflexivity); try reflexivity.
  apply folga_finito in Ha. apply folga_finito in Hb.
  simpl dobro_sf at 1 2. simpl SFadd in *.
  rewrite Z.add_min_distr_r, !shl_align_desloca.
  set (M := cond_Zopp sa (Z.pos (fst (shl_align ma ea (Z.min ea eb))))
            + cond_Zopp sb (Z.pos (fst (shl_align mb eb (Z.min ea eb))))) in *.
  unfold binary_normalize in *.
  destruct M as [ | p | p]; [ reflexivity | | ];
    (destruct (binary_round prec emax _ p (Z.min ea eb)) as [ s | | | s m e] eqn:R;
     try discriminate;
     [ exfalso; revert R; apply binary_round_nao_zero; lia | ];
     apply folga_finito in Hr; simpl dobro_sf;
     apply binary_round_desloca; [ lia | exact R | lia | lia ]).
Qed.

Lemma valido_digitos (s : bool) (m : positive) (e : Z) :
  valid_binary (S754_finite s m e) = true -> -1074 < e ->
  Z.pos (digits2_pos m) = 53.
Proof.
  simpl. unfold bounded, canonical_mantissa. rewrite fexp_valor.
  intros H He. apply andb_prop in H. destruct H as [H _].
  apply Z.eqb_eq in H. lia.
Qed.

(** The product by 2.0 is the number of twice the magnitude. *)
Lemma SFmul_dois (x : spec_float) :
  valid_binary x = true ->
  folga_sf true x = true ->
  SFmul prec emax (S754_finite false 4503599627370496 (-51)) x = dobro_sf x.
Proof.
  intros V Hx. destruct x as [s | s | | s m e]; try discriminate.
  - reflexivity.
  - apply folga_finito in Hx.
    pose proof (valido_digitos s m e V ltac:(lia)) as Hd.
    unfold SFmul, dobro_sf. simpl xorb. unfold binary_round_aux, shr_fexp.
    rewrite !fexp_valor.
    assert (D : Zdigits2 (Z.pos (4503599627370496 * m)) = 105).
    { unfold Zdigits2. rewrite digits2_log2.
      rewrite Pos2Z.inj_mul, Z.mul_comm.
      change (Z.pos 4503599627370496) with (2 ^ 52).
      rewrite Z.log2_mul_pow2 by lia.
      rewrite digits2_log2 in Hd. lia. }
    rewrite D.
    replace (Z.max (105 + (-51 + e) - 53) (-1074) - (-51 + e)) with 52 by lia.
    assert (I : iter_pos shr_1 52
                  {| shr_m := Z.pos (4503599627370496 * m);
                     shr_r := false; shr_s := false |}
                = {| shr_m := Z.pos m; shr_r := false; shr_s := false |})
      by reflexivity.
    replace (shr (shr_record_of_loc (Z.pos (4503599627370496 * m)) loc_Exact)
                 (-51 + e) 52)
      with ({| shr_m := Z.pos m; shr_r := false; shr_s := false |}, e + 1)
      by (unfold shr, shr_record_of_loc; rewrite I; f_equal; lia).
    cbv iota beta. simpl shr_m. simpl loc_of_shr_record.
    simpl round_nearest_even. simpl Zdigits2. rewrite !fexp_valor, Hd.
    replace (Z.max (53 + (e + 1) - 53) (-1074) - (e + 1)) with 0 by lia.
    simpl shr. cbv iota beta. simpl shr_m.
    change (emax - prec) with 971.
    destruct (Z.leb_spec (e + 1) 971); [ reflexivity | lia ].
Qed.

Lemma folga_sf_mono (z : bool) (r : spec_float) :
  folga_sf z r = true -> folga_sf true r = true.
Proof. destruct r; simpl; auto. Qed.

(** The same facts on the primitive floats, through their specification. *)
Lemma dobro_spec (x : float) :
  dentro true x = true ->
  Prim2SF (2 * x)%float = dobro_sf (Prim2SF x).
Proof.
  intros Hx. rewrite mul_spec.
  change (Prim2SF 2) with (S754_finite false 4503599627370496 (-51)).
  apply SFmul_dois; [ apply Prim2SF_valid | exact Hx ].
Qed.

Lemma mul_dobro_esq (x y : float) :
  dentro true x = true ->
  dentro (nulo x || nulo y) (x * y)%float = true ->
  ((2 * x) * y = 2 * (x * y))%float.
Proof.
  intros Hx Hr. apply Prim2SF_inj.
  rewrite (dobro_spec (x * y)) by (eapply folga_sf_mono; exact Hr).
  rewrite mul_spec, (dobro_spec x Hx), mul_spec.
  unfold dentro, nulo in *. rewrite mul_spec in Hr.
  apply SFmul_dobro_esq; assumption.
Qed.

Lemma mul_dobro_dir (x y : float) :
  dentro true y = true ->
  dentro (nulo x || nulo y) (x * y)%float = true ->
  (x * (2 * y) = 2 * (x * y))%float.
Proof.
  intros Hy Hr. apply Prim2SF_inj.
  rewrite (dobro_spec (x * y)) by (eapply folga_sf_mono; exact Hr).
  rewrite mul_spec, (dobro_spec y Hy), mul_spec.
  unfold dentro, nulo in *. rewrite mul_spec in Hr.
  apply SFmul_dobro_dir; assumption.
Qed.

Lemma div_dobro (x y : float) :
  dentro true x = true ->
  dentro (nulo x) (x / y)%float = true ->
  ((2 * x) / y = 2 * (x / y))%float.
Proof.
  intros Hx Hr. apply Prim2SF_inj.
  rewrite (dobro_spec (x / y)) by (eapply folga_sf_mono; exact Hr).
  rewrite div_spec, (dobro_spec x Hx), div_spec.
  unfold dentro, nulo in *. rewrite div_spec in Hr.
  apply SFdiv_dobro; assumption.
Qed.

Lemma add_dobro (a b : float) :
  dentro true a = true ->
  dentro true b = true ->
  dentro true (a + b)%float = true ->
  (2 * a + 2 * b = 2 * (a + b))%float.
Proof.
  intros Ha Hb Hr. apply Prim2SF_inj.
  rewrite (dobro_spec (a + b) Hr).
  rewrite add_spec, (dobro_spec a Ha), (dobro_spec b Hb), add_spec.
  unfold dentro in *. rewrite add_spec in Hr.
  apply SFadd_dobro; assumption.
Qed.

(** The double of a positive int below the range limit: a mantissa of 53
    bits at an exponent within the range, so a finite number that is not
    zero. *)
Lemma de_fracao_inteiro (n : positive) :
  Z.pos n < Numero.limite ->
  exists (q : positive) (e : Z),
    Binary64.de_fracao n 1 = Z.ldexp (PrimFloat.of_uint63 (Uint63.of_Z (Z.pos q))) e
    /\ 2 ^ 52 <= Z.pos q <= 2 ^ 53 /\ -52 <= e <= 971
    /\ (Z.pos q = 2 ^ 53 -> e <= 970).
Proof.
  intros Hn. unfold Binary64.de_fracao.
  change (Z.log2 1) with 0.
  pose proof (Z.log2_spec (Z.pos n) ltac:(lia)) as [Llo Lhi].
  pose proof (Z.log2_nonneg (Z.pos n)) as L0.
  set (L := Z.log2 (Z.pos n)) in *.
  assert (HL : L <= 1023).
  { destruct (Z_le_gt_dec L 1023); [ assumption | exfalso ].
    assert (2 ^ 1024 <= 2 ^ L) by (apply Z.pow_le_mono_r; lia).
    unfold Numero.limite in Hn.
    assert (0 < 2 ^ 970) by reflexivity. lia. }
  replace (Z.max (L - 0 - 53) (-1074)) with (L - 53) by lia.
  cbv zeta.
  destruct (Z.ltb_spec (L - 53) 0) as [Hs | Hb].
  - (* below 2^53: the integer is exact *)
    set (k := 53 - L). replace (- (L - 53)) with k by (unfold k; lia).
    assert (Hk : 1 <= k <= 53) by (unfold k; lia).
    assert (Pk : 0 < 2 ^ k) by (apply Z.pow_pos_nonneg; lia).
    assert (B : 2 ^ 53 <= Z.pos n * 2 ^ k < 2 ^ 54).
    { replace 53 with (L + k) at 1 by (unfold k; lia).
      replace 54 with (Z.succ L + k) by (unfold k; lia).
      rewrite !Z.pow_add_r by lia. nia. }
    rewrite Z.div_1_r.
    destruct (Z.leb_spec (2 ^ 53) (Z.pos n * 2 ^ k)) as [_ | ]; [ | lia ].
    change (2 * 1) with 2.
    assert (Ek : 2 ^ k = 2 * 2 ^ (k - 1)).
    { replace k with (Z.succ (k - 1)) at 1 by lia. apply Z.pow_succ_r. lia. }
    assert (Eq : Z.pos n * 2 ^ k = (Z.pos n * 2 ^ (k - 1)) * 2) by (rewrite Ek; ring).
    rewrite Eq, Z.div_mul, Z.mod_mul by lia.
    simpl orb. cbv iota.
    assert (Hq : 2 ^ 52 <= Z.pos n * 2 ^ (k - 1) < 2 ^ 53).
    { change (2 ^ 53) with (2 * 2 ^ 52) in B. change (2 ^ 54) with (2 * 2 ^ 53) in B.
      rewrite Eq in B. lia. }
    destruct (Z.pos n * 2 ^ (k - 1)) as [ | q | q] eqn:E; try lia.
    exists q, (L - 53 + 1). repeat split; try lia; try reflexivity.
  - set (k := L - 53) in *.
    assert (Pk : 0 < 2 ^ k) by (apply Z.pow_pos_nonneg; lia).
    assert (El : 2 ^ L = 2 ^ 53 * 2 ^ k)
      by (rewrite <- Z.pow_add_r by lia; f_equal; unfold k; lia).
    assert (Esl : 2 ^ Z.succ L = 2 ^ 54 * 2 ^ k)
      by (rewrite <- Z.pow_add_r by lia; f_equal; unfold k; lia).
    rewrite Z.mul_1_l.
    assert (B : 2 ^ 53 <= Z.pos n / 2 ^ k).
    { apply Z.div_le_lower_bound; lia. }
    destruct (Z.leb_spec (2 ^ 53) (Z.pos n / 2 ^ k)) as [_ | ]; [ | lia ].
    set (den := 2 * 2 ^ k). assert (Pd : 0 < den) by (unfold den; lia).
    pose proof (Z.div_mod (Z.pos n) den ltac:(lia)) as Edm.
    pose proof (Z.mod_pos_bound (Z.pos n) den Pd) as Br.
    set (q := Z.pos n / den) in *. set (r := Z.pos n mod den) in *.
    assert (Hq : 2 ^ 52 <= q < 2 ^ 53).
    { change (2 ^ 53) with (2 * 2 ^ 52) in El. change (2 ^ 54) with (2 * 2 ^ 53) in Esl.
      unfold den in *. split; nia. }
    assert (Hmax : q = 2 ^ 53 - 1 -> den <= 2 * r -> L <= 1022).
    { intros Eq Hr. destruct (Z_le_gt_dec L 1022); [ assumption | exfalso ].
      assert (L = 1023) by lia.
      assert (k = 970) by (unfold k; lia).
      unfold Numero.limite in Hn. unfold den in *.
      replace (2 ^ k) with (2 ^ 970) in * by (f_equal; lia).
      change (2 ^ 1024) with (2 ^ 54 * 2 ^ 970) in Hn.
      assert (0 < 2 ^ 970) by reflexivity. nia. }
    destruct ((den <? 2 * r) || (den =? 2 * r) && Z.odd q) eqn:Eb.
    + assert (den <= 2 * r).
      { apply orb_prop in Eb. destruct Eb as [Eb | Eb].
        - apply Z.ltb_lt in Eb. lia.
        - apply andb_prop in Eb. destruct Eb as [Eb _]. apply Z.eqb_eq in Eb. lia. }
      destruct (q + 1) as [ | q' | q'] eqn:E; try lia.
      exists q', (k + 1). unfold k. repeat split; try lia; try reflexivity.
    + destruct q as [ | q' | q'] eqn:E; try lia.
      exists q', (k + 1). unfold k. repeat split; try lia; try reflexivity.
Qed.

Lemma float_de_int_positivo (n : positive) :
  Z.pos n < Numero.limite ->
  exists (m : positive) (e : Z),
    Prim2SF (Binary64.de_Q (inject_Z (Z.pos n))) = S754_finite false m e.
Proof.
  intros Hn.
  change (Binary64.de_Q (inject_Z (Z.pos n))) with (Binary64.de_fracao n 1).
  destruct (de_fracao_inteiro n Hn) as (q & e & -> & Hq & He & Hmax).
  destruct (Z.eq_dec (Z.pos q) (2 ^ 53)) as [E | E].
  - exists 4503599627370496%positive, (e + 1).
    specialize (Hmax E).
    rewrite E, Z_ldexp_spec.
    change (Prim2SF (of_uint63 (Uint63.of_Z (2 ^ 53))))
      with (S754_finite false 4503599627370496 1).
    unfold SFldexp.
    assert (V : valid_binary (S754_finite false 4503599627370496 (e + 1)) = true).
    { simpl. unfold bounded, canonical_mantissa. rewrite fexp_valor.
      change (Z.pos (digits2_pos 4503599627370496)) with 53.
      apply andb_true_intro. split; [ apply Z.eqb_eq | apply Z.leb_le ];
        change (emax - prec) with 971; lia. }
    rewrite <- (Prim2SF_SF2Prim _ V). unfold SF2Prim. rewrite Z_ldexp_spec.
    change (Prim2SF (of_uint63 (Uint63.of_Z (Z.pos 4503599627370496))))
      with (S754_finite false 4503599627370496 0).
    unfold SFldexp. f_equal. lia.
  - exists q, e.
    assert (V : valid_binary (S754_finite false q e) = true).
    { simpl. unfold bounded, canonical_mantissa. rewrite fexp_valor.
      assert (D : Z.pos (digits2_pos q) = 53).
      { rewrite digits2_log2.
        rewrite (Z.log2_unique (Z.pos q) 52); [ reflexivity | lia | ].
        change (Z.succ 52) with 53. lia. }
      rewrite D.
      apply andb_true_intro. split; [ apply Z.eqb_eq | apply Z.leb_le ];
        change (emax - prec) with 971; lia. }
    transitivity (Prim2SF (SF2Prim (S754_finite false q e)));
      [ reflexivity | apply Prim2SF_SF2Prim, V ].
Qed.

Lemma dentro_mono (z : bool) (r : float) : dentro z r = true -> dentro true r = true.
Proof. apply folga_sf_mono. Qed.

(** One pass of the inner loop with twice the factor, from twice the
    totals, gives twice the totals of the pass; and these are within
    range. *)
Lemma passo_dobro (fator : float) (t : Totais float)
    (par : Ingrediente.t float * float) :
  dentro true fator = true ->
  totais_dentro t ->
  passo_na_faixa fator t par = true ->
  acumular_ingrediente (mult (lit 2) fator) (escalar (lit 2) t) par
  = escalar (lit 2) (acumular_ingrediente fator t par)
  /\ totais_dentro (acumular_ingrediente fator t par).
Proof.
  intros Hf (Tc & Tp & Tg & Tf & Ts & Te) H.
  destruct par as [i q]. unfold passo_na_faixa in H.
  repeat match type of H with
         | (_ && _)%bool = true =>
             let H1 := fresh "K" in
             apply andb_prop in H; destruct H as [H H1]
         end.
  unfold produto_na_faixa, soma_na_faixa in *.
  change (@mult float binary64) with PrimFloat.mul in *.
  change (@soma float binary64) with PrimFloat.add in *.
  change (@lit float binary64 2) with 2%float in *.
  unfold acumular_ingrediente, escalar. cbn [carboidratos proteina gordura fibra sodio calorias].
  change (@mult float binary64) with PrimFloat.mul in *.
  change (@soma float binary64) with PrimFloat.add in *.
  change (@lit float binary64 2) with 2%float in *.
  set (qe := (q * fator)%float) in *.
  assert (Eq : (q * (2 * fator) = 2 * qe)%float)
    by (apply mul_dobro_dir; assumption).
  rewrite Eq.
  assert (Dq : dentro true qe = true) by (eapply dentro_mono; eassumption).
  rewrite !(mul_dobro_esq qe) by assumption.
  set (c := (qe * Ingrediente.carboidrato_por_g i)%float) in *.
  set (p := (qe * Ingrediente.proteina_por_g i)%float) in *.
  set (g := (qe * Ingrediente.gordura_por_g i)%float) in *.
  set (f := (qe * Ingrediente.fibra_por_g i)%float) in *.
  set (s := (qe * Ingrediente.sodio_por_g i)%float) in *.
  assert (Dc : dentro true c = true) by (eapply dentro_mono; eassumption).
  assert (Dp : dentro true p = true) by (eapply dentro_mono; eassumption).
  assert (Dg : dentro true g = true) by (eapply dentro_mono; eassumption).
  assert (Df : dentro true f = true) by (eapply dentro_mono; eassumption).
  assert (Ds : dentro true s = true) by (eapply dentro_mono; eassumption).
  rewrite !(mul_dobro_esq c), !(mul_dobro_esq p), !(mul_dobro_esq g) by assumption.
  set (c4 := (c * lit 4)%float) in *.
  set (p4 := (p * lit 4)%float) in *.
  set (g9 := (g * lit 9)%float) in *.
  assert (Dc4 : dentro true c4 = true) by (eapply dentro_mono; eassumption).
  assert (Dp4 : dentro true p4 = true) by (eapply dentro_mono; eassumption).
  assert (Dg9 : dentro true g9 = true) by (eapply dentro_mono; eassumption).
  rewrite (add_dobro c4 p4) by assumption.
  rewrite (add_dobro (c4 + p4) g9) by assumption.
  rewrite !add_dobro by assumption.
  split; [ reflexivity | ].
  repeat split; assumption.
Qed.

Lemma laco_dobro (fator : float) (ings : list (Ingrediente.t float * float))
    (t : Totais float) :
  dentro true fator = true ->
  totais_dentro t ->
  laco_na_faixa fator ings t = true ->
  fold_left (acumular_ingrediente (mult (lit 2) fator)) ings (escalar (lit 2) t)
  = escalar (lit 2) (fold_left (acumular_ingrediente fator) ings t).
Proof.
  intros Hf. revert t. induction ings as [ | par ings IH]; intros t Ht H.
  - reflexivity.
  - cbn [laco_na_faixa] in H. apply andb_prop in H. destruct H as [H1 H2].
    destruct (passo_dobro fator t par Hf Ht H1) as [E D].
    cbn [fold_left]. rewrite E. apply IH; assumption.
Qed.

(** In binary64, twice the portion gives twice each accumulated sum when
    the computation at the portion stays within range. *)
Lemma somas_dobradas_binary64 (R : Receita.t float) (P : float) :
  menor_igual (Receita.rendimento_total R) (lit 0) = false ->
  porcao_na_faixa R P = true ->
  acumular [(R, mult (lit 2) P)] totais_iniciais
  = Retorna (escalar (lit 2) (somas_acumuladas [(R, P)])).
Proof.
  intros G H. unfold porcao_na_faixa in H.
  apply andb_prop in H. destruct H as [H H3].
  apply andb_prop in H. destruct H as [H1 H2].
  unfold quociente_na_faixa in H2.
  assert (V : forall p, Forall rendimento_valido [(R, p)])
    by (intros p; repeat constructor; exact G).
  pose proof (acumular_validos_somas (V P)) as E1.
  rewrite (acumular_validos _ (V P)) in E1. injection E1 as E1.
  rewrite (acumular_validos _ (V (mult (lit 2) P))). f_equal.
  rewrite <- E1. cbn [fold_left fst snd].
  assert (Ef : quoc (mult (lit 2) P) (Receita.rendimento_total R)
               = mult (lit 2) (quoc P (Receita.rendimento_total R)))
    by (apply div_dobro; assumption).
  rewrite Ef.
  change (totais_iniciais (F := float))
    with (escalar (lit 2) (totais_iniciais (F := float))) at 1.
  apply laco_dobro.
  - eapply dentro_mono. exact H2.
  - repeat split; reflexivity.
  - exact H3.
Qed.

Set Implicit Arguments.

(** ** The calculator on Python numbers: general facts *)

Section FatosNumeros.

(** A number that converts is converted. *)
Lemma para_float_converte (n : Numero.t) :
  converte n = true -> exists x, Numero.para_float n = Retorna x.
Proof.
  destruct n as [z | x]; cbn [converte Numero.para_float]; intros H.
  - unfold Numero.float_de_int. rewrite H. eexists. reflexivity.
  - eexists. reflexivity.
Qed.

(** The float of a positive int is not zero. *)
Lemma inteiro_positivo_nao_zero (z : Z) (x : float) :
  0 < z -> Numero.float_de_int z = Retorna x -> igual x (lit 0) = false.
Proof.
  intros Hz. unfold Numero.float_de_int.
  destruct (Z.ltb_spec (Z.abs z) Numero.limite) as [Hl | ]; [ | discriminate ].
  intros [= <-]. destruct z as [ | n | n]; try lia.
  destruct (float_de_int_positivo n) as (m & e & E); [ lia | ].
  change (igual (F := float)) with PrimFloat.eqb.
  rewrite eqb_spec, E. reflexivity.
Qed.

(** Past the guard the factor is computed: the division raises neither
    [ZeroDivisionError] nor [OverflowError]. *)
Lemma dividir_retorna (p y : Numero.t) :
  converte p = true -> converte y = true ->
  Numero.nao_positivo y = false ->
  exists f, Numero.dividir p y = Retorna f.
Proof.
  intros Hp Hy G.
  destruct p as [a | x], y as [b | v];
    cbn [Numero.dividir converte Numero.nao_positivo Numero.para_float] in *.
  - apply Z.leb_gt in G. apply Z.ltb_lt in Hp.
    destruct (Z.eqb_spec b 0); [ lia | ].
    destruct (Z.leb_spec (Numero.limite * Z.abs b) (Z.abs a)) as [Ho | ].
    + exfalso. assert (0 < Numero.limite) by reflexivity. nia.
    + eexists. reflexivity.
  - unfold Numero.float_de_int. rewrite Hp. cbn [ligar].
    rewrite (@divisao_rendimento_valido float binary64 _ v G). eexists. reflexivity.
  - apply Z.leb_gt in G.
    destruct (Numero.float_de_int b) as [fb | ] eqn:E.
    + cbn [ligar]. unfold divisao.
      rewrite (inteiro_positivo_nao_zero G E). eexists. reflexivity.
    + unfold Numero.float_de_int in E. rewrite Hy in E. discriminate.
  - cbn [ligar]. rewrite (@divisao_rendimento_valido float binary64 _ v G).
    eexists. reflexivity.
Qed.

(** With numbers that convert, the inner loop raises nothing. *)
Lemma passo_retorna (fator : float) (t : Totais float)
    (par : Ingrediente.t Numero.t * Numero.t) :
  ingrediente_converte (fst par) && converte (snd par) = true ->
  exists t', CalculadoraNumeros.acumular_ingrediente fator t par = Retorna t'.
Proof.
  destruct par as [i q]. cbn [fst snd]. intros H.
  apply andb_prop in H. destruct H as [H Hq].
  unfold ingrediente_converte in H.
  repeat match type of H with
         | (_ && _)%bool = true =>
             let K := fresh "K" in apply andb_prop in H; destruct H as [H K]
         end.
  destruct (para_float_converte _ Hq) as [fq Eq].
  destruct (para_float_converte _ H) as [f1 E1].
  destruct (para_float_converte _ K2) as [f2 E2].
  destruct (para_float_converte _ K1) as [f3 E3].
  destruct (para_float_converte _ K0) as [f4 E4].
  destruct (para_float_converte _ K) as [f5 E5].
  unfold CalculadoraNumeros.acumular_ingrediente, Numero.vezes, Numero.vezes_por.
  rewrite Eq. cbn [ligar]. rewrite E1. cbn [ligar]. rewrite E2. cbn [ligar].
  rewrite E3. cbn [ligar]. rewrite E4. cbn [ligar]. rewrite E5. cbn [ligar].
  eexists. reflexivity.
Qed.

Lemma laco_retorna (fator : float)
    (ings : list (Ingrediente.t Numero.t * Numero.t)) (t : Totais float) :
  forallb (fun par => ingrediente_converte (fst par) && converte (snd par)) ings
  = true ->
  exists t', CalculadoraNumeros.laco_ingredientes fator ings t = Retorna t'.
Proof.
  revert t. induction ings as [ | par ings IH]; intros t H.
  - eexists. reflexivity.
  - cbn [forallb] in H. apply andb_prop in H. destruct H as [H1 H2].
    destruct (passo_retorna fator t par H1) as [t1 E1].
    cbn [CalculadoraNumeros.laco_ingredientes]. rewrite E1. cbn [ligar]. apply IH, H2.
Qed.

(** With numbers that convert, the only exception is the one of the
    guard. *)
Lemma acumular_numeros_levanta
    (rps : list (Receita.t Numero.t * Numero.t)) (t : Totais float) (e : Excecao) :
  forallb entrada_converte rps = true ->
  CalculadoraNumeros.acumular rps t = Levanta e ->
  exists rp, In rp rps /\ rendimento_nao_positivo rp
             /\ e = ValueError (CalculadoraNutricional.mensagem_rendimento (fst rp)).
Proof.
  revert t. induction rps as [ | [r p] rps IH]; intros t H; cbn [CalculadoraNumeros.acumular].
  - discriminate.
  - cbn [forallb] in H. apply andb_prop in H. destruct H as [H1 H2].
    unfold entrada_converte in H1. cbn [fst snd] in H1.
    apply andb_prop in H1. destruct H1 as [H1 Hi].
    apply andb_prop in H1. destruct H1 as [Hp Hy].
    destruct (Numero.nao_positivo (Receita.rendimento_total r)) eqn:G.
    + intros [= <-]. exists (r, p). split; [ left; reflexivity | ].
      split; [ exact G | reflexivity ].
    + destruct (dividir_retorna _ _ Hp Hy G) as [f Ef]. rewrite Ef. cbn [ligar].
      destruct (laco_retorna f _ t Hi) as [t1 E1]. rewrite E1. cbn [ligar].
      intros E. destruct (IH _ H2 E) as (rp & Hin & Hrp).
      exists rp. split; [ right; exact Hin | exact Hrp ].
Qed.

(** A yield that fails the guard makes the loop raise, at the guard or
    before it. *)
Lemma acumular_numeros_invalido
    (rps : list (Receita.t Numero.t * Numero.t)) (t : Totais float) :
  Exists rendimento_nao_positivo rps ->
  exists e, CalculadoraNumeros.acumular rps t = Levanta e.
Proof.
  intros H. revert t. induction rps as [ | [r p] rps IH]; intros t.
  - inversion H.
  - cbn [CalculadoraNumeros.acumular].
    destruct (Numero.nao_positivo (Receita.rendimento_total r)) eqn:G.
    + eexists. reflexivity.
    + destruct (Numero.dividir p (Receita.rendimento_total r)) as [f | e];
        [ | eexists; reflexivity ].
      cbn [ligar].
      destruct (CalculadoraNumeros.laco_ingredientes f (Receita.ingredientes r) t)
        as [t1 | e]; [ | eexists; reflexivity ].
      cbn [ligar]. apply IH.
      inversion H as [? ? Hbad | ? ? Hrest]; subst.
      * unfold rendimento_nao_positivo in Hbad. cbn [fst] in Hbad. congruence.
      * exact Hrest.
Qed.

(** On floats the calculator on Python numbers is the calculator over
    binary64. *)
Lemma laco_float (fator : float) (ings : list (Ingrediente.t float * float))
    (t : Totais float) :
  CalculadoraNumeros.laco_ingredientes fator
    (map (fun par => (ingrediente_float (fst par), Numero.Float (snd par))) ings) t
  = Retorna (fold_left (CalculadoraNutricional.acumular_ingrediente fator) ings t).
Proof.
  revert t. induction ings as [ | [i q] ings IH]; intros t.
  - reflexivity.
  - cbn [map CalculadoraNumeros.laco_ingredientes fold_left fst snd].
    rewrite <- IH. reflexivity.
Qed.

Lemma acumular_float (rps : list (Receita.t float * float)) (t : Totais float) :
  CalculadoraNumeros.acumular (map entrada_float rps) t
  = CalculadoraNutricional.acumular rps t.
Proof.
  revert t. induction rps as [ | [r p] rps IH]; intros t.
  - reflexivity.
  - cbn [map]. unfold entrada_float at 1. cbn [fst snd].
    cbn [CalculadoraNumeros.acumular CalculadoraNutricional.acumular].
    cbn [receita_float Receita.rendimento_total Receita.ingredientes
         Numero.nao_positivo].
    change (PrimFloat.leb (Receita.rendimento_total r) (Binary64.de_Q 0))
      with (menor_igual (Receita.rendimento_total r) (lit 0)).
    destruct (menor_igual (Receita.rendimento_total r) (lit 0)); [ reflexivity | ].
    cbn [Numero.dividir Numero.para_float ligar].
    destruct (divisao p (Receita.rendimento_total r)) as [f | e]; [ | reflexivity ].
    cbn [ligar]. rewrite laco_float. cbn [ligar]. apply IH.
Qed.

Lemma para_float_como_float (n : Numero.t) :
  converte n = true -> Numero.para_float n = Retorna (como_float n).
Proof.
  destruct n as [z | x]; cbn [converte Numero.para_float como_float]; intros H.
  - unfold Numero.float_de_int. rewrite H. reflexivity.
  - reflexivity.
Qed.

(** The guard reads an int as it reads its float. *)
Lemma nao_positivo_como_float (n : Numero.t) :
  converte n = true ->
  Numero.nao_positivo n = menor_igual (como_float n) (lit 0).
Proof.
  destruct n as [z | x]; cbn [converte Numero.nao_positivo como_float];
    [ | reflexivity ].
  intros H. apply Z.ltb_lt in H.
  change (menor_igual (F := float)) with PrimFloat.leb.
  destruct z as [ | n | n].
  - reflexivity.
  - destruct (float_de_int_positivo n) as (m & e & E); [ lia | ].
    rewrite leb_spec, E. reflexivity.
  - destruct (float_de_int_positivo n) as (m & e & E); [ lia | ].
    change (Binary64.de_Q (inject_Z (Z.neg n)))
      with (PrimFloat.opp (Binary64.de_Q (inject_Z (Z.pos n)))).
    rewrite leb_spec, opp_spec, E. reflexivity.
Qed.

Lemma passo_como_float (fator : float) (t : Totais float)
    (par : Ingrediente.t Numero.t * Numero.t) :
  ingrediente_converte (fst par) && converte (snd par) = true ->
  CalculadoraNumeros.acumular_ingrediente fator t par
  = Retorna (acumular_ingrediente fator t
               (ingrediente_como_float (fst par), como_float (snd par))).
Proof.
  destruct par as [i q]. cbn [fst snd]. intros H.
  apply andb_prop in H. destruct H as [H Hq].
  unfold ingrediente_converte in H.
  repeat match type of H with
         | (_ && _)%bool = true =>
             let K := fresh "K" in apply andb_prop in H; destruct H as [H K]
         end.
  unfold CalculadoraNumeros.acumular_ingrediente, Numero.vezes, Numero.vezes_por.
  rewrite (para_float_como_float _ Hq). cbn [ligar].
  rewrite (para_float_como_float _ H). cbn [ligar].
  rewrite (para_float_como_float _ K2). cbn [ligar].
  rewrite (para_float_como_float _ K1). cbn [ligar].
  rewrite (para_float_como_float _ K0). cbn [ligar].
  rewrite (para_float_como_float _ K). cbn [ligar].
  reflexivity.
Qed.

Lemma laco_como_float (fator : float)
    (ings : list (Ingrediente.t Numero.t * Numero.t)) (t : Totais float) :
  forallb (fun par => ingrediente_converte (fst par) && converte (snd par)) ings
  = true ->
  CalculadoraNumeros.laco_ingredientes fator ings t
  = Retorna (fold_left (acumular_ingrediente fator)
               (map (fun par => (ingrediente_como_float (fst par),
                                 como_float (snd par))) ings) t).
Proof.
  revert t. induction ings as [ | par ings IH]; intros t H.
  - reflexivity.
  - cbn [forallb] in H. apply andb_prop in H. destruct H as [H1 H2].
    cbn [CalculadoraNumeros.laco_ingredientes map fold_left].
    rewrite (passo_como_float fator t par H1). cbn [ligar]. apply IH, H2.
Qed.

Lemma dividir_como_float (p y : Numero.t) :
  converte p = true -> converte y = true ->
  algum_float p y = true ->
  Numero.dividir p y = divisao (como_float p) (como_float y).
Proof.
  intros Hp Hy Hf.
  destruct p as [a | x], y as [b | v]; try discriminate;
    cbn [Numero.dividir].
  - rewrite (para_float_como_float _ Hp), (para_float_como_float _ Hy).
    reflexivity.
  - rewrite (para_float_como_float _ Hp), (para_float_como_float _ Hy).
    reflexivity.
  - reflexivity.
Qed.

(** On numbers that convert, with a float for the portion or the yield,
    the calculator on Python numbers is the calculator over binary64 on
    the floats of the numbers. *)
Lemma acumular_como_float
    (rps : list (Receita.t Numero.t * Numero.t)) (t : Totais float) :
  forallb entrada_converte rps = true ->
  forallb fator_de_floats rps = true ->
  CalculadoraNumeros.acumular rps t = acumular (map entrada_como_float rps) t.
Proof.
  revert t. induction rps as [ | [r p] rps IH]; intros t H G.
  - reflexivity.
  - cbn [forallb] in H, G.
    apply andb_prop in H. destruct H as [H1 H2].
    apply andb_prop in G. destruct G as [G1 G2].
    unfold entrada_converte in H1. cbn [fst snd] in H1.
    apply andb_prop in H1. destruct H1 as [H1 Hi].
    apply andb_prop in H1. destruct H1 as [Hp Hy].
    cbn [map]. unfold entrada_como_float at 1. cbn [fst snd].
    cbn [CalculadoraNumeros.acumular acumular].
    cbn [receita_como_float Receita.rendimento_total Receita.ingredientes].
    rewrite (nao_positivo_como_float _ Hy).
    destruct (menor_igual (como_float (Receita.rendimento_total r)) (lit 0));
      [ reflexivity | ].
    rewrite (@dividir_como_float p (Receita.rendimento_total r) Hp Hy G1).
    destruct (divisao (como_float p) (como_float (Receita.rendimento_total r)))
        as [f | e]; [ | reflexivity ].
    cbn [ligar]. rewrite (laco_como_float f _ t Hi). cbn [ligar].
    apply IH; assumption.
Qed.

End FatosNumeros.

(** ** Rounding to two decimal places *)

Section Arredondamento.
Local Open Scope Q_scope.

Lemma round_half_even_perto (q : Q) :
  q - (1 # 2) <= inject_Z (round_half_even q)
  /\ inject_Z (round_half_even q) <= q + (1 # 2).
Proof.
  unfold round_half_even.
  pose proof (Qfloor_le q) as Hlo. pose proof (Qlt_floor q) as Hhi.
  rewrite inject_Z_plus in Hhi. change (inject_Z 1) with 1 in Hhi.
  destruct (Qcompare (q - inject_Z (Qfloor q)) (1 # 2)) eqn:C.
  - apply Qeq_alt in C. destruct (Z.even (Qfloor q)).
    + split; lra.
    + rewrite inject_Z_plus. change (inject_Z 1) with 1. split; lra.
  - apply Qlt_alt in C. split; lra.
  - apply Qgt_alt in C. rewrite inject_Z_plus. change (inject_Z 1) with 1.
    split; lra.
Qed.

Lemma Qround2_perto (q : Q) :
  q - 0.005 <= Qround2 q /\ Qround2 q <= q + 0.005.
Proof.
  assert (E : Qround2 q
              == inject_Z (round_half_even (q * inject_Z 100)) * (1 # 100)).
  { unfold Qround2, Qeq. simpl. ring. }
  rewrite E.
  destruct (round_half_even_perto (q * inject_Z 100)) as [Hlo Hhi].
  change (inject_Z 100) with (100 # 1) in *.
  split; lra.
Qed.

Lemma round_half_even_nao_negativo (q : Q) :
  0 <= q -> (0 <= round_half_even q)%Z.
Proof.
  intros Hq. unfold round_half_even.
  pose proof (Qfloor_resp_le _ _ Hq) as Hf. change (Qfloor 0) with 0%Z in Hf.
  destruct (Qcompare (q - inject_Z (Qfloor q)) (1 # 2));
    [ destruct (Z.even (Qfloor q)) | | ]; lia.
Qed.

Lemma Qround2_nao_negativo (q : Q) : 0 <= q -> 0 <= Qround2 q.
Proof.
  intros Hq. unfold Qround2, Qle. simpl.
  assert (0 <= q * inject_Z 100) as H100
    by (change (inject_Z 100) with (100 # 1); lra).
  pose proof (round_half_even_nao_negativo H100). lia.
Qed.

(** [round_half_even] gives the nearest integer, the even one at a tie. *)
Lemma round_half_even_mais_proximo (q : Q) :
  inteiro_mais_proximo q (round_half_even q).
Proof.
  unfold inteiro_mais_proximo, round_half_even.
  pose proof (Qfloor_le q) as Hlo. pose proof (Qlt_floor q) as Hhi.
  rewrite inject_Z_plus in Hhi. change (inject_Z 1) with 1 in Hhi.
  cbv zeta.
  destruct (Qcompare (q - inject_Z (Qfloor q)) (1 # 2)) eqn:C.
  - apply Qeq_alt in C. destruct (Z.even (Qfloor q)) eqn:Ev.
    + split; [ lra | split; [ lra | ] ]. intros _. exact Ev.
    + rewrite inject_Z_plus. change (inject_Z 1) with 1.
      split; [ lra | split; [ lra | ] ]. intros _.
      rewrite Z.add_1_r, Z.even_succ, <- Z.negb_even, Ev. reflexivity.
  - apply Qlt_alt in C. split; [ lra | split; [ lra | ] ]. intros [E | E]; lra.
  - apply Qgt_alt in C. rewrite inject_Z_plus. change (inject_Z 1) with 1.
    split; [ lra | split; [ lra | ] ]. intros [E | E]; lra.
Qed.

Lemma magnitude_nao_negativa (m : positive) (e : Z) :
  0 <= Binary64.magnitude m e * inject_Z 100.
Proof.
  unfold Binary64.magnitude. destruct (e <? 0)%Z.
  - unfold Qle. simpl. apply Pos2Z.is_nonneg.
  - assert (0 <= 2 ^ e)%Z by (apply Z.pow_nonneg; lia).
    unfold Qle, Qmult, inject_Z. cbn [Qnum Qden]. nia.
Qed.

(** [round2] is the rounding to two decimal places, in exact arithmetic
    and in binary64. *)
Lemma round2_duas_casas_exata (q : Qc) : duas_casas_exata q (round2 q).
Proof.
  exists (round_half_even (q * inject_Z 100)). split.
  - apply round_half_even_mais_proximo.
  - reflexivity.
Qed.

Lemma round2_duas_casas_binary64 (v : float) :
  duas_casas_binary64 v (round2 v).
Proof.
  unfold duas_casas_binary64. change (round2 v) with (Binary64.round2 v).
  unfold Binary64.round2.
  destruct (Prim2SF v) as [s | s | | s m e]; try reflexivity.
  destruct (Z.ltb_spec e 0) as [He | He];
    destruct (Z.leb_spec 0 e) as [He' | He']; try lia; [ | reflexivity ].
  exists (round_half_even (Binary64.magnitude m e * inject_Z 100)). split.
  - apply round_half_even_mais_proximo.
  - pose proof (round_half_even_nao_negativo (magnitude_nao_negativa m e)) as Hn.
    destruct (round_half_even (Binary64.magnitude m e * inject_Z 100))
      as [ | p | p]; try lia; reflexivity.
Qed.

End Arredondamento.

Lemma arredondar_relacionados {F : Type} `{Aritmetica F}
    (R : F -> F -> Prop) (s : Totais F) :
  (forall x, R x (round2 x)) -> totais_relacionados R s (arredondar s).
Proof.
  intros HR. repeat split; apply HR.
Qed.

(** ** The report generator: general facts *)

Section MaisRelatorio.
Context {F : Type} `{Aritmetica F}.

Lemma porcentagem_vd (total c p g e f s x : F) (chave : string) :
  procurar chave
    [ ("carboidratos", JNum c); ("proteinas", JNum p);
      ("gorduras_totais", JNum g); ("valor_energetico", JNum e);
      ("fibras", JNum f); ("sodio", JNum s) ]%string
  = Some (JNum x) ->
  GeradorPDF.porcentagem total (vd_json c p g e f s) chave
  = if igual x (lit 0) then Levanta ZeroDivisionError
    else Retorna (porcento total x).
Proof.
  intros E. unfold GeradorPDF.porcentagem, vd_json, subscrito.
  rewrite E. cbn [ligar como_numero]. unfold divisao.
  destruct (igual x (lit 0)); reflexivity.
Qed.

(** With a table of six references none of which is zero, and a reference
    energy that [int] accepts, the report is written. *)
Lemma relatorio_escrito (nome_arquivo : string) (d : Totais F) (peso : F)
    (w : Mundo F) (c p g e f s : F) (z : Z) :
  ValoresDiarios.carregar w = (Retorna (vd_json c p g e f s), w) ->
  forallb (fun x => negb (igual x (lit 0))) [c; p; g; e; f; s] = true ->
  truncar (mult e (lit 4.184)) = Retorna z ->
  exists rodape,
    rodape_mostra e z rodape
    /\ GeradorPDF.gerar_tabela_nutricional nome_arquivo d peso w
       = construir_documento nome_arquivo
           (GeradorPDF.tabela_dados d peso (porcentagens_de d c p g e f s)
                                    rodape)
           w.
Proof.
  intros Ev Hz Ht. simpl in Hz.
  repeat (apply andb_prop in Hz; destruct Hz as [?Hn Hz]).
  repeat match goal with
         | Hx : negb _ = true |- _ => apply negb_true_iff in Hx
         end.
  eexists. split; [ do 3 eexists; reflexivity | ].
  unfold GeradorPDF.gerar_tabela_nutricional, io_ligar. rewrite Ev.
  unfold GeradorPDF.elevar, GeradorPDF.porcentagens.
  rewrite !(@porcentagem_vd _ c p g e f s c "carboidratos") by reflexivity.
  rewrite !(@porcentagem_vd _ c p g e f s p "proteinas") by reflexivity.
  rewrite !(@porcentagem_vd _ c p g e f s g "gorduras_totais") by reflexivity.
  rewrite !(@porcentagem_vd _ c p g e f s e "valor_energetico") by reflexivity.
  rewrite !(@porcentagem_vd _ c p g e f s f "fibras") by reflexivity.
  rewrite !(@porcentagem_vd _ c p g e f s s "sodio") by reflexivity.
  rewrite Hn, Hn0, Hn1, Hn2, Hn3, Hn4. cbn [ligar].
  unfold GeradorPDF.texto_rodape. simpl subscrito. cbn [ligar como_numero].
  rewrite Ht. cbn [ligar]. reflexivity.
Qed.

Lemma relatorio_divisao_por_zero (nome_arquivo : string) (d : Totais F)
    (peso : F) (w : Mundo F) (c p g e f s : F) :
  ValoresDiarios.carregar w = (Retorna (vd_json c p g e f s), w) ->
  existsb (fun x => igual x (lit 0)) [c; p; g; e; f; s] = true ->
  GeradorPDF.gerar_tabela_nutricional nome_arquivo d peso w
  = (Levanta ZeroDivisionError, w).
Proof.
  intros Ev Hz.
  unfold GeradorPDF.gerar_tabela_nutricional, io_ligar. rewrite Ev.
  unfold GeradorPDF.elevar, GeradorPDF.porcentagens.
  rewrite !(@porcentagem_vd _ c p g e f s c "carboidratos") by reflexivity.
  rewrite !(@porcentagem_vd _ c p g e f s p "proteinas") by reflexivity.
  rewrite !(@porcentagem_vd _ c p g e f s g "gorduras_totais") by reflexivity.
  rewrite !(@porcentagem_vd _ c p g e f s e "valor_energetico") by reflexivity.
  rewrite !(@porcentagem_vd _ c p g e f s f "fibras") by reflexivity.
  rewrite !(@porcentagem_vd _ c p g e f s s "sodio") by reflexivity.
  simpl in Hz.
  destruct (igual c (lit 0)); [ reflexivity | ].
  destruct (igual p (lit 0)); [ reflexivity | ].
  destruct (igual g (lit 0)); [ reflexivity | ].
  destruct (igual e (lit 0)); [ reflexivity | ].
  destruct (igual f (lit 0)); [ reflexivity | ].
  destruct (igual s (lit 0)); [ reflexivity | discriminate ].
Qed.

End MaisRelatorio.

(** ** The claims *)

(** C1 (as amended).  The recipe "Rice" (yield 1000 g; 500 g of A with
    0.8 / 0.1 / 0.05 / 0.02 / 1 per gram and 500 g of B with all
    coefficients 0), at a 200 g portion, gives carbohydrate 80.0, protein
    10.0, fat 5.0, fiber 2.0, sodium 100.0 and calories 405.0, which is
    80*4 + 10*4 + 5*9; in binary64 and in exact arithmetic. *)
Theorem rice_porcao_200g :
  calcular_por_porcao (F := float) [(rice, lit 200)]
  = Retorna (mkTotais (lit 80) (lit 10) (lit 5) (lit 2) (lit 100) (lit 405))
  /\ (lit 405 : float)
     = soma (soma (mult (lit 80) (lit 4)) (mult (lit 10) (lit 4)))
            (mult (lit 5) (lit 9))
  /\ calcular_por_porcao (F := Qc) [(rice, lit 200)]
     = Retorna (mkTotais (lit 80) (lit 10) (lit 5) (lit 2) (lit 100) (lit 405)).
Proof.
  split; [ vm_compute; reflexivity | split ].
  - vm_compute. reflexivity.
  - totais_exatos.
Qed.

(** C1, as stated, fails: the calories returned for the 200 g portion of
    "Rice" are not 725.0. *)
Lemma rice_calorias_nao_725 :
  exists t : Totais float,
    calcular_por_porcao [(rice, lit 200)] = Retorna t
    /\ igual (calorias t) (lit 725) = false.
Proof.
  eexists. split; [ vm_compute; reflexivity | vm_compute; reflexivity ].
Qed.

(** C2 (as amended).  Whatever the numbers, an input with a recipe whose
    [rendimento_total <= 0] raises and returns no totals (infinite, NaN or
    other).  For an input whose numbers are floats or ints that convert to
    a float, [calcular_por_porcao] raises if and only if some recipe has
    [rendimento_total <= 0], and what it raises is the [ValueError] of the
    guard.  On the empty list it raises nothing and returns six zeros.  On
    floats, and on ints that convert where the portion or the yield is a
    float (the forms read both with [float]), the calculator on Python
    numbers is the calculator over binary64 on the floats of the numbers;
    for the calculator over one arithmetic the same equivalence holds, in
    binary64 and in exact arithmetic. *)
Theorem calcular_por_porcao_levanta_sse :
  (forall rps : list (Receita.t Numero.t * Numero.t),
      Exists rendimento_nao_positivo rps ->
      exists e, CalculadoraNumeros.calcular_por_porcao rps = Levanta e)
  /\ (forall rps : list (Receita.t Numero.t * Numero.t),
         forallb entrada_converte rps = true ->
         ((exists e, CalculadoraNumeros.calcular_por_porcao rps = Levanta e)
          <-> Exists rendimento_nao_positivo rps)
         /\ (forall e, CalculadoraNumeros.calcular_por_porcao rps = Levanta e ->
               exists rp, In rp rps /\ rendimento_nao_positivo rp
                          /\ e = ValueError (mensagem_rendimento (fst rp))))
  /\ CalculadoraNumeros.calcular_por_porcao []
     = Retorna (mkTotais (lit 0) (lit 0) (lit 0) (lit 0) (lit 0) (lit 0))
  /\ (forall rps : list (Receita.t float * float),
         CalculadoraNumeros.calcular_por_porcao (map entrada_float rps)
         = calcular_por_porcao rps)
  /\ (forall rps : list (Receita.t Numero.t * Numero.t),
         forallb entrada_converte rps = true ->
         forallb fator_de_floats rps = true ->
         CalculadoraNumeros.calcular_por_porcao rps
         = calcular_por_porcao (map entrada_como_float rps))
  /\ (forall (F : Type) (A : Aritmetica F) (rps : list (Receita.t F * F)),
         ((exists e, calcular_por_porcao rps = Levanta e)
          <-> Exists rendimento_invalido rps)
         /\ (forall e, calcular_por_porcao rps = Levanta e ->
               exists rp, In rp rps /\ rendimento_invalido rp
                          /\ e = ValueError (mensagem_rendimento (fst rp))))
  /\ calcular_por_porcao (F := float) []
     = Retorna (mkTotais (lit 0) (lit 0) (lit 0) (lit 0) (lit 0) (lit 0))
  /\ calcular_por_porcao (F := Qc) []
     = Retorna (mkTotais (lit 0) (lit 0) (lit 0) (lit 0) (lit 0) (lit 0)).
Proof.
  assert (I : forall rps : list (Receita.t Numero.t * Numero.t),
            Exists rendimento_nao_positivo rps ->
            exists e, CalculadoraNumeros.calcular_por_porcao rps = Levanta e).
  { intros rps Hex.
    destruct (acumular_numeros_invalido totais_iniciais Hex) as [e He].
    exists e. unfold CalculadoraNumeros.calcular_por_porcao. rewrite He.
    reflexivity. }
  split; [ exact I | ].
  split; [ | split; [ vm_compute; reflexivity | ] ].
  { intros rps Hc.
    assert (L : forall e, CalculadoraNumeros.calcular_por_porcao rps = Levanta e ->
              exists rp, In rp rps /\ rendimento_nao_positivo rp
                         /\ e = ValueError (mensagem_rendimento (fst rp))).
    { intros e. unfold CalculadoraNumeros.calcular_por_porcao.
      destruct (CalculadoraNumeros.acumular rps totais_iniciais) as [t | e'] eqn:E;
        cbn [ligar]; [ discriminate | ].
      intros [= <-]. eapply acumular_numeros_levanta; eassumption. }
    split; [ split | exact L ].
    - intros [e He]. destruct (L e He) as (rp & Hin & Hbad & _).
      apply Exists_exists. eauto.
    - apply I. }
  split.
  { intros rps. unfold CalculadoraNumeros.calcular_por_porcao, calcular_por_porcao.
    rewrite acumular_float. reflexivity. }
  split.
  { intros rps Hc Hf.
    unfold CalculadoraNumeros.calcular_por_porcao, calcular_por_porcao.
    rewrite (acumular_como_float _ _ Hc Hf). reflexivity. }
  split; [ | split; [ vm_compute; reflexivity | totais_exatos ] ].
  intros F A rps.
  assert (L : forall e, calcular_por_porcao rps = Levanta e ->
            exists rp, In rp rps /\ rendimento_invalido rp
                       /\ e = ValueError (mensagem_rendimento (fst rp))).
  { intros e. unfold calcular_por_porcao.
    destruct (acumular rps totais_iniciais) as [t | e'] eqn:E; simpl;
      [ discriminate | ].
    intros [= <-]. eapply acumular_levanta, E. }
  split; [ split | exact L ].
  - intros [e He]. destruct (L e He) as (rp & Hin & Hbad & _).
    apply Exists_exists. eauto.
  - intros Hex. destruct (acumular_invalido totais_iniciais Hex) as [e He].
    exists e. unfold calcular_por_porcao. rewrite He. reflexivity.
Qed.

(** C2 on "Rice" as the form builds it, with int quantities, at 200 g:
    every number converts, no yield fails the guard, and the totals are
    returned. *)
Lemma calcular_por_porcao_levanta_sse_rice :
  forallb entrada_converte [(rice_do_formulario, Numero.Float (lit 200))] = true
  /\ ((exists e, CalculadoraNumeros.calcular_por_porcao
                   [(rice_do_formulario, Numero.Float (lit 200))] = Levanta e)
      <-> Exists rendimento_nao_positivo
                 [(rice_do_formulario, Numero.Float (lit 200))])
  /\ CalculadoraNumeros.calcular_por_porcao
       [(rice_do_formulario, Numero.Float (lit 200))]
     = Retorna (mkTotais (lit 80) (lit 10) (lit 5) (lit 2) (lit 100) (lit 405)).
Proof.
  assert (Hc : forallb entrada_converte
                 [(rice_do_formulario, Numero.Float (lit 200))] = true)
    by (vm_compute; reflexivity).
  split; [ exact Hc | split ].
  - destruct calcular_por_porcao_levanta_sse as (_ & H & _).
    exact (proj1 (H _ Hc)).
  - vm_compute. reflexivity.
Defined.

(** C2, as stated, fails: the recipe "enorme" has the positive yield
    1000.0 and a quantity of [10^400] grams, an int as the recipe form
    stores it; [qtd * fator] raises [OverflowError] at the conversion of
    the quantity, so the calculator raises although no yield is
    [<= 0]. *)
Lemma quantidade_inteira_estoura :
  Numero.nao_positivo (Receita.rendimento_total enorme) = false
  /\ exists msg,
       CalculadoraNumeros.calcular_por_porcao [(enorme, Numero.Float (lit 200))]
       = Levanta (OverflowError msg).
Proof.
  split; [ vm_compute; reflexivity | ].
  eexists. vm_compute. reflexivity.
Qed.

(** C5.  Whenever the calculator succeeds, each of the six values it returns
    is the corresponding accumulated sum rounded to two decimal places: it
    is [round(v, 2)] of the sum, which in binary64 is the double nearest to
    the two-place decimal nearest to the sum (ties to the even hundredth),
    and in exact arithmetic the nearest multiple of 1/100.  The same holds
    of the calculator on Python numbers, whose sums are doubles. *)
Theorem totais_sao_somas_arredondadas :
  (forall (F : Type) (A : Aritmetica F) (rps : list (Receita.t F * F))
          (t : Totais F),
      calcular_por_porcao rps = Retorna t ->
      carboidratos t
      = round2 (somatorio (contribuicoes (@Ingrediente.carboidrato_por_g F) rps))
      /\ proteina t
         = round2 (somatorio (contribuicoes (@Ingrediente.proteina_por_g F) rps))
      /\ gordura t
         = round2 (somatorio (contribuicoes (@Ingrediente.gordura_por_g F) rps))
      /\ fibra t
         = round2 (somatorio (contribuicoes (@Ingrediente.fibra_por_g F) rps))
      /\ sodio t
         = round2 (somatorio (contribuicoes (@Ingrediente.sodio_por_g F) rps))
      /\ calorias t = round2 (somatorio (contribuicoes_energia rps)))
  /\ (forall (rps : list (Receita.t float * float)) (t : Totais float),
         calcular_por_porcao rps = Retorna t ->
         totais_relacionados duas_casas_binary64 (somas_acumuladas rps) t)
  /\ (forall (rps : list (Receita.t Qc * Qc)) (t : Totais Qc),
         calcular_por_porcao rps = Retorna t ->
         totais_relacionados duas_casas_exata (somas_acumuladas rps) t)
  /\ (forall (rps : list (Receita.t Numero.t * Numero.t)) (t : Totais float),
         CalculadoraNumeros.calcular_por_porcao rps = Retorna t ->
         exists a : Totais float,
           CalculadoraNumeros.acumular rps totais_iniciais = Retorna a
           /\ t = arredondar a
           /\ totais_relacionados duas_casas_binary64 a t).
Proof.
  assert (G : forall (F : Type) (A : Aritmetica F) (rps : list (Receita.t F * F))
                     (t : Totais F),
            calcular_por_porcao rps = Retorna t ->
            t = arredondar (somas_acumuladas rps)).
  { intros F A rps t. unfold calcular_por_porcao.
    destruct (acumular rps totais_iniciais) as [a | e] eqn:E; simpl;
      [ | discriminate ].
    intros [= <-]. rewrite (acumular_somas _ E). reflexivity. }
  split; [ | split; [ | split ] ].
  - intros F A rps t E. rewrite (G _ _ _ _ E). simpl. repeat split.
  - intros rps t E. rewrite (G _ _ _ _ E).
    apply arredondar_relacionados, round2_duas_casas_binary64.
  - intros rps t E. rewrite (G _ _ _ _ E).
    apply arredondar_relacionados, round2_duas_casas_exata.
  - intros rps t. unfold CalculadoraNumeros.calcular_por_porcao.
    destruct (CalculadoraNumeros.acumular rps totais_iniciais) as [a | e];
      cbn [ligar]; [ | discriminate ].
    intros [= <-]. exists a. split; [ reflexivity | split; [ reflexivity | ] ].
    apply arredondar_relacionados, round2_duas_casas_binary64.
Qed.

(** C5 in binary64 at the 1000 g portion of "caldo": the carbohydrate sum
    is 0.004, and the value returned is 0.0, its rounding to two decimal
    places. *)
Lemma totais_sao_somas_arredondadas_caldo :
  exists t : Totais float,
    calcular_por_porcao [(caldo, lit 1000)] = Retorna t
    /\ carboidratos (somas_acumuladas [(@caldo float _, lit 1000)]) = lit 0.004
    /\ carboidratos t = lit 0
    /\ duas_casas_binary64 (lit 0.004) (lit 0).
Proof.
  assert (E : calcular_por_porcao (F := float) [(caldo, lit 1000)]
              = Retorna (mkTotais (lit 0) (lit 0) (lit 0) (lit 0) (lit 0)
                                  (lit 0.02)))
    by (vm_compute; reflexivity).
  eexists. split; [ exact E | ].
  destruct totais_sao_somas_arredondadas as (_ & B & _).
  destruct (B _ _ E) as (C & _).
  split; [ vm_compute; reflexivity | split; [ reflexivity | ] ].
  exact C.
Defined.

(** C9.  [DataManager.deletar_receita] raises [TypeError] at its first
    statement, the call of [carregar_receitas] without the required
    argument [ingredientes]: for every recipe name and every state of the
    stores nothing is written, shown or deleted. *)
Theorem deletar_receita_levanta_TypeError :
  forall (F : Type) (A : Aritmetica F) (nome : string) (w : Mundo F),
    exists msg,
      DataManager.deletar_receita nome w = (Levanta (TypeError msg), w).
Proof.
  intros F A nome w. eexists. reflexivity.
Qed.

(** C3 (as amended).  For a recipe with yield [Y > 0] and a portion [P], in
    binary64 as in exact arithmetic, the loop scales every ingredient
    quantity by [P / Y] and the calculator returns each accumulated sum
    rounded to two decimals.  Each of the six accumulated sums, before
    rounding, is linear in [P], portion [2 * P] giving exactly twice each
    sum of portion [P]: always in exact arithmetic, and in binary64
    whenever the computation at [P] stays within range (the portion, the
    factor and every product and sum a normal number from [2^-1020] up to
    [2^1023], or a zero that is not an underflow). *)
Theorem somas_lineares_na_porcao :
  (forall (F : Type) (A : Aritmetica F) (R : Receita.t F) (P : F),
      menor_igual (Receita.rendimento_total R) (lit 0) = false ->
      acumular [(R, P)] totais_iniciais = Retorna (somas_acumuladas [(R, P)])
      /\ (forall coef : Ingrediente.t F -> F,
            contribuicoes coef [(R, P)]
            = map (fun par =>
                     mult (mult (snd par) (quoc P (Receita.rendimento_total R)))
                          (coef (fst par)))
                  (Receita.ingredientes R))
      /\ calcular_por_porcao [(R, P)]
         = Retorna (arredondar (somas_acumuladas [(R, P)])))
  /\ (forall (R : Receita.t Qc) (P : Qc),
         menor_igual (Receita.rendimento_total R) (lit 0) = false ->
         acumular [(R, mult (lit 2) P)] totais_iniciais
         = Retorna (escalar (lit 2) (somas_acumuladas [(R, P)]))
         /\ calcular_por_porcao [(R, mult (lit 2) P)]
            = Retorna (arredondar (escalar (lit 2) (somas_acumuladas [(R, P)]))))
  /\ (forall (R : Receita.t float) (P : float),
         menor_igual (Receita.rendimento_total R) (lit 0) = false ->
         porcao_na_faixa R P = true ->
         acumular [(R, mult (lit 2) P)] totais_iniciais
         = Retorna (escalar (lit 2) (somas_acumuladas [(R, P)]))
         /\ calcular_por_porcao [(R, mult (lit 2) P)]
            = Retorna (arredondar (escalar (lit 2) (somas_acumuladas [(R, P)])))).
Proof.
  split; [ | split ].
  - intros F A R P G.
    assert (V : Forall rendimento_valido [(R, P)])
      by (repeat constructor; exact G).
    split; [ apply acumular_validos_somas, V | split ].
    + intros coef. unfold contribuicoes. simpl. apply app_nil_r.
    + apply calcular_validos, V.
  - intros R P G.
    assert (V : Forall rendimento_valido [(R, mult (lit 2) P)])
      by (repeat constructor; exact G).
    rewrite <- somas_dobradas.
    split; [ apply acumular_validos_somas, V | apply calcular_validos, V ].
  - intros R P G H.
    pose proof (somas_dobradas_binary64 R P G H) as E.
    split; [ exact E | ].
    unfold calcular_por_porcao. rewrite E. reflexivity.
Qed.

(** C3 in binary64 at the recipe "Rice" and a 200 g portion: the
    computation stays within range, and the 400 g portion accumulates
    twice each sum. *)
Lemma somas_lineares_na_porcao_rice :
  menor_igual (Receita.rendimento_total (@rice float _)) (lit 0) = false
  /\ porcao_na_faixa rice (lit 200) = true
  /\ acumular [(@rice float _, mult (lit 2) (lit 200))] totais_iniciais
     = Retorna (escalar (lit 2) (somas_acumuladas [(rice, lit 200)]))
  /\ somas_acumuladas [(@rice float _, lit 200)]
     = mkTotais (lit 80) (lit 10) (lit 5) (lit 2) (lit 100) (lit 405).
Proof.
  assert (G : menor_igual (Receita.rendimento_total (@rice float _)) (lit 0) = false)
    by (vm_compute; reflexivity).
  assert (H : porcao_na_faixa rice (lit 200) = true)
    by (vm_compute; reflexivity).
  split; [ exact G | split; [ exact H | split ] ].
  - destruct somas_lineares_na_porcao as (_ & _ & B).
    exact (proj1 (B rice (lit 200) G H)).
  - vm_compute. reflexivity.
Defined.

(** C3, as stated, fails: "caldo" yields 1000 g and holds 1 g of an
    ingredient with 0.004 g of carbohydrate per gram.  The 1000 g portion
    returns carbohydrate 0.0 and the 2000 g portion returns 0.01, which is
    not twice 0.0; in binary64 and in exact arithmetic alike.  In binary64
    the sums before rounding are not linear either: for "concentrado" the
    portion 5e-324 gives the factor 0.0 and the sum 0.0, its double gives
    the factor 5e-324 and a sum that is not 0.0; that portion is below the
    normal numbers, so the computation is not within range. *)
Lemma dobro_da_porcao_nao_dobra :
  (exists t1 t2 : Totais float,
      calcular_por_porcao [(caldo, lit 1000)] = Retorna t1
      /\ calcular_por_porcao [(caldo, mult (lit 2) (lit 1000))] = Retorna t2
      /\ igual (carboidratos t2) (mult (lit 2) (carboidratos t1)) = false)
  /\ (exists t1 t2 : Totais Qc,
         calcular_por_porcao [(caldo, lit 1000)] = Retorna t1
         /\ calcular_por_porcao [(caldo, mult (lit 2) (lit 1000))] = Retorna t2
         /\ igual (carboidratos t2) (mult (lit 2) (carboidratos t1)) = false)
  /\ (exists a1 a2 : Totais float,
         acumular [(concentrado, porcao_minima)] totais_iniciais = Retorna a1
         /\ acumular [(concentrado, mult (lit 2) porcao_minima)] totais_iniciais
            = Retorna a2
         /\ igual (carboidratos a2) (mult (lit 2) (carboidratos a1)) = false)
  /\ porcao_na_faixa concentrado porcao_minima = false.
Proof.
  split; [ | split; [ | split; [ | vm_compute; reflexivity ] ] ];
    do 2 eexists; (split; [ | split ]); vm_compute; reflexivity.
Qed.

(** C4 (as amended).  For two recipes with positive yields, in exact
    arithmetic each accumulated sum of the list [(R1,P1); (R2,P2)], before
    rounding, is the sum of the ones of [(R1,P1)] alone and of [(R2,P2)]
    alone; the calculator returns each of these sums rounded to two
    decimals, for the pair and for each recipe alone. *)
Theorem somas_aditivas_nas_receitas (R1 R2 : Receita.t Qc) (P1 P2 : Qc) :
  menor_igual (Receita.rendimento_total R1) (lit 0) = false ->
  menor_igual (Receita.rendimento_total R2) (lit 0) = false ->
  acumular [(R1, P1); (R2, P2)] totais_iniciais
  = Retorna (somar_totais (somas_acumuladas [(R1, P1)])
                          (somas_acumuladas [(R2, P2)]))
  /\ calcular_por_porcao [(R1, P1); (R2, P2)]
     = Retorna (arredondar (somar_totais (somas_acumuladas [(R1, P1)])
                                         (somas_acumuladas [(R2, P2)])))
  /\ calcular_por_porcao [(R1, P1)]
     = Retorna (arredondar (somas_acumuladas [(R1, P1)]))
  /\ calcular_por_porcao [(R2, P2)]
     = Retorna (arredondar (somas_acumuladas [(R2, P2)])).
Proof.
  intros G1 G2.
  assert (V1 : Forall rendimento_valido [(R1, P1)]) by (repeat constructor; exact G1).
  assert (V2 : Forall rendimento_valido [(R2, P2)]) by (repeat constructor; exact G2).
  assert (V : Forall rendimento_valido ([(R1, P1)] ++ [(R2, P2)]))
    by (apply Forall_app; split; assumption).
  rewrite <- somas_app.
  repeat split.
  - apply (acumular_validos_somas V).
  - apply (calcular_validos V).
  - apply (calcular_validos V1).
  - apply (calcular_validos V2).
Qed.

(** C4 at "Rice" (200 g) and "caldo" (1000 g). *)
Lemma somas_aditivas_nas_receitas_rice_caldo :
  menor_igual (Receita.rendimento_total (@rice Qc _)) (lit 0) = false
  /\ menor_igual (Receita.rendimento_total (@caldo Qc _)) (lit 0) = false
  /\ calcular_por_porcao [(@rice Qc _, lit 200); (caldo, lit 1000)]
     = Retorna (arredondar (somar_totais (somas_acumuladas [(rice, lit 200)])
                                         (somas_acumuladas [(caldo, lit 1000)]))).
Proof.
  assert (G1 : menor_igual (Receita.rendimento_total (@rice Qc _)) (lit 0) = false)
    by (vm_compute; reflexivity).
  assert (G2 : menor_igual (Receita.rendimento_total (@caldo Qc _)) (lit 0) = false)
    by (vm_compute; reflexivity).
  split; [ exact G1 | split; [ exact G2 | ] ].
  destruct (somas_aditivas_nas_receitas rice caldo (lit 200) (lit 1000) G1 G2)
    as (_ & L & _).
  exact L.
Defined.

(** C4, as stated, fails: two 1000 g portions of "caldo" in one list return
    carbohydrate 0.01, while each alone returns 0.0, and 0.0 + 0.0 is not
    0.01; in binary64 and in exact arithmetic alike.  In binary64 the sums
    before rounding are not additive either: "carga" then "pitadas" in one
    list accumulate (1e16 + 1) + 1 = 1e16, while apart they give 1e16 and
    2, whose sum is 1e16 + 2. *)
Lemma totais_de_duas_receitas_nao_somam :
  (exists t12 t1 t2 : Totais float,
      calcular_por_porcao [(caldo, lit 1000); (caldo, lit 1000)] = Retorna t12
      /\ calcular_por_porcao [(caldo, lit 1000)] = Retorna t1
      /\ calcular_por_porcao [(caldo, lit 1000)] = Retorna t2
      /\ igual (carboidratos t12) (soma (carboidratos t1) (carboidratos t2))
         = false)
  /\ (exists t12 t1 t2 : Totais Qc,
         calcular_por_porcao [(caldo, lit 1000); (caldo, lit 1000)] = Retorna t12
         /\ calcular_por_porcao [(caldo, lit 1000)] = Retorna t1
         /\ calcular_por_porcao [(caldo, lit 1000)] = Retorna t2
         /\ igual (carboidratos t12) (soma (carboidratos t1) (carboidratos t2))
            = false)
  /\ (exists a12 a1 a2 : Totais float,
         acumular [(carga, lit 1); (pitadas, lit 1)] totais_iniciais = Retorna a12
         /\ acumular [(carga, lit 1)] totais_iniciais = Retorna a1
         /\ acumular [(pitadas, lit 1)] totais_iniciais = Retorna a2
         /\ igual (carboidratos a12) (soma (carboidratos a1) (carboidratos a2))
            = false).
Proof.
  split; [ | split ]; do 3 eexists; (split; [ | split; [ | split ] ]);
    vm_compute; reflexivity.
Qed.

(** ** Deleting an ingredient *)

Section FatosDeletar.
Context {F : Type} `{Aritmetica F}.



End FatosDeletar.




Section FatosStores.
Context {F : Type} `{Aritmetica F}.

Lemma Receita_to_dict_registro (r : Receita.t F) :
  Receita_to_dict r = registro_json (registro_de r).
Proof.
  unfold Receita_to_dict, registro_json, registro_de. simpl.
  rewrite map_map. reflexivity.
Qed.

Lemma para_cada_map {A B C} (f : B -> Resultado C) (g : A -> B) (h : A -> C)
    (l : list A) :
  (forall x, f (g x) = Retorna (h x)) ->
  para_cada f (map g l) = Retorna (map h l).
Proof.
  intros E. induction l as [ | x l IH]; simpl; [ reflexivity | ].
  rewrite E, IH. reflexivity.
Qed.

Lemma find_no_catalogo (ingredientes : list (Ingrediente.t F)) (nome : string) :
  match find (fun i => String.eqb (Ingrediente.nome i) nome) ingredientes with
  | Some i => Ingrediente.nome i = nome /\ no_catalogo ingredientes nome = true
  | None => no_catalogo ingredientes nome = false
  end.
Proof.
  unfold no_catalogo.
  induction ingredientes as [ | i l IH]; simpl; [ reflexivity | ].
  destruct (String.eqb_spec (Ingrediente.nome i) nome) as [E | E]; simpl.
  - auto.
  - exact IH.
Qed.

Lemma resolver_pares (ingredientes : list (Ingrediente.t F))
    (pares : list (string * F)) :
  DataManager.resolver ingredientes (map par_json pares)
  = Retorna (resolvidos ingredientes pares).
Proof.
  induction pares as [ | [nome qtd] pares IH]; simpl; [ reflexivity | ].
  change (DataManager.nome_igual (JStr nome))
    with (fun i : Ingrediente.t F => String.eqb (Ingrediente.nome i) nome).
  destruct (find (fun i => String.eqb (Ingrediente.nome i) nome) ingredientes);
    simpl; rewrite IH; reflexivity.
Qed.

Lemma receita_de_registro (ingredientes : list (Ingrediente.t F))
    (reg : RegistroReceita F) :
  DataManager.receita_de_item ingredientes (registro_json reg)
  = Retorna (receita_resolvida ingredientes reg).
Proof.
  unfold DataManager.receita_de_item, registro_json. simpl.
  rewrite resolver_pares. reflexivity.
Qed.

(** Loading a store of well-formed records shows no message box and
    returns one resolved recipe per record. *)
Lemma carregar_registros (ingredientes : list (Ingrediente.t F))
    (regs : list (RegistroReceita F)) (w : Mundo F) :
  receitas_json w = Some (JList (map registro_json regs)) ->
  DataManager.carregar_receitas ingredientes w
  = (Retorna (map (receita_resolvida ingredientes) regs), w).
Proof.
  intros E. unfold DataManager.carregar_receitas. rewrite E. simpl.
  rewrite (para_cada_map _ _ _ _ (receita_de_registro ingredientes)).
  reflexivity.
Qed.

(** The resolved pairs are, by name and quantity, the stored pairs whose
    name is in the catalog, in the stored order. *)
Lemma resolvidos_filter (ingredientes : list (Ingrediente.t F))
    (pares : list (string * F)) :
  map (fun par => (Ingrediente.nome (fst par), snd par))
      (resolvidos ingredientes pares)
  = filter (fun p => no_catalogo ingredientes (fst p)) pares.
Proof.
  induction pares as [ | [nome qtd] pares IH]; simpl; [ reflexivity | ].
  pose proof (find_no_catalogo ingredientes nome) as Hf.
  destruct (find (fun i => String.eqb (Ingrediente.nome i) nome) ingredientes)
    as [i | ].
  - destruct Hf as [Hi Hc]. rewrite Hc. simpl. rewrite IH, Hi. reflexivity.
  - rewrite Hf. exact IH.
Qed.

Lemma filter_todos {A} (f : A -> bool) (l : list A) :
  (forall x, In x l -> f x = true) -> filter f l = l.
Proof.
  induction l as [ | x l IH]; simpl; intros Hl; [ reflexivity | ].
  rewrite (Hl x (or_introl eq_refl)), IH; [ reflexivity | ].
  intros y Hy. apply Hl. right. exact Hy.
Qed.

Lemma no_catalogo_In (ingredientes : list (Ingrediente.t F)) (nome : string) :
  In nome (map (@Ingrediente.nome F) ingredientes) ->
  no_catalogo ingredientes nome = true.
Proof.
  intros Hin. apply in_map_iff in Hin. destruct Hin as (i & Hi & Hin).
  unfold no_catalogo. apply existsb_exists. exists i. split; [ exact Hin | ].
  rewrite Hi. apply String.eqb_refl.
Qed.

Lemma ingrediente_de_to_dict (i : Ingrediente.t F) :
  DataManager.ingrediente_de_item (Ingrediente_to_dict i) = Retorna i.
Proof. destruct i. reflexivity. Qed.

(** [DataManager.deletar_ingrediente] (no caller in the program) rewrites
    the ingredient store without the entries of the name and leaves the
    recipe store as it is; a pair left dangling there is dropped when the
    recipes are next loaded. *)
Lemma deletar_ingrediente_no_store (n : string)
    (ingredientes : list (Ingrediente.t F)) (w : Mundo F) :
  ingredientes_json w = Some (JList (map Ingrediente_to_dict ingredientes)) ->
  exists w',
    DataManager.deletar_ingrediente n w = (Retorna tt, w')
    /\ ingredientes_json w'
       = Some (JList (map Ingrediente_to_dict
                          (filter (outro_nome n) ingredientes)))
    /\ receitas_json w' = receitas_json w.
Proof.
  intros E. eexists.
  unfold DataManager.deletar_ingrediente, io_ligar,
    DataManager.carregar_ingredientes.
  rewrite E. simpl iterar. cbn [ligar].
  rewrite (para_cada_map _ _ (fun i => i) _ ingrediente_de_to_dict), map_id.
  repeat split.
Qed.

End FatosStores.

Section FatosRecarga.
Context {F : Type} `{Aritmetica F}.

(** A resolved pair holds the first ingredient of its name in the catalog. *)
Lemma resolvidos_do_catalogo (ingredientes : list (Ingrediente.t F))
    (pares : list (string * F)) :
  Forall (fun par =>
            find (fun i => String.eqb (Ingrediente.nome i)
                                      (Ingrediente.nome (fst par)))
                 ingredientes
            = Some (fst par))
         (resolvidos ingredientes pares).
Proof.
  induction pares as [ | [nome qtd] pares IH]; simpl; [ constructor | ].
  pose proof (find_no_catalogo ingredientes nome) as Hf.
  destruct (find (fun i => String.eqb (Ingrediente.nome i) nome) ingredientes)
    as [i | ] eqn:E; [ | exact IH ].
  constructor; [ | exact IH ].
  destruct Hf as [Hi _]. simpl. rewrite Hi. exact E.
Qed.

Lemma registro_recarregado (ingredientes : list (Ingrediente.t F))
    (r : Receita.t F) :
  (forall par, In par (Receita.ingredientes r) ->
               In (Ingrediente.nome (fst par))
                  (map (@Ingrediente.nome F) ingredientes)) ->
  registro_de (receita_resolvida ingredientes (registro_de r)) = registro_de r.
Proof.
  intros Hr. unfold registro_de at 1 3, receita_resolvida. simpl.
  rewrite resolvidos_filter, filter_todos; [ reflexivity | ].
  intros p Hp. apply in_map_iff in Hp. destruct Hp as (par & <- & Hpar).
  simpl. apply no_catalogo_In, Hr, Hpar.
Qed.

End FatosRecarga.


(** C7.  For a catalog and recipes that reference only names of the
    catalog, saving both stores and loading them again gives back the same
    ingredients (name and five coefficients) and, for every recipe, the
    same name, the same (ingredient name, quantity) list and the same
    yield. *)
Theorem salvar_e_recarregar
    (F : Type) (A : Aritmetica F) (ingredientes : list (Ingrediente.t F))
    (receitas : list (Receita.t F)) (w : Mundo F) :
  (forall r par,
      In r receitas -> In par (Receita.ingredientes r) ->
      In (Ingrediente.nome (fst par)) (map (@Ingrediente.nome F) ingredientes)) ->
  exists w1 w2 receitas',
    DataManager.salvar_ingredientes ingredientes w = (Retorna tt, w1)
    /\ DataManager.salvar_receitas receitas w1 = (Retorna tt, w2)
    /\ DataManager.carregar_ingredientes w2 = (Retorna ingredientes, w2)
    /\ DataManager.carregar_receitas ingredientes w2 = (Retorna receitas', w2)
    /\ Forall2 (fun r r' => registro_de r' = registro_de r) receitas receitas'.
Proof.
  intros Href. do 2 eexists.
  exists (map (receita_resolvida ingredientes) (map registro_de receitas)).
  split; [ reflexivity | split; [ reflexivity | split; [ | split ] ] ].
  - unfold DataManager.carregar_ingredientes. cbn [ingredientes_json]. simpl iterar.
    cbn [ligar].
    rewrite (para_cada_map _ _ (fun i => i) _ ingrediente_de_to_dict), map_id.
    reflexivity.
  - apply carregar_registros. cbn [receitas_json]. do 2 f_equal.
    rewrite map_map. apply map_ext, Receita_to_dict_registro.
  - induction receitas as [ | r l IH]; simpl; constructor.
    + apply registro_recarregado. intros par Hpar.
      apply (Href r par); [ left; reflexivity | exact Hpar ].
    + apply IH. intros r' par Hr'. apply Href. right. exact Hr'.
Qed.

(** C7 on the catalog [A; B] and the recipe "Rice". *)
Lemma salvar_e_recarregar_rice :
  exists w1 w2 receitas',
    DataManager.salvar_ingredientes [ingrediente_A; ingrediente_B] mundo_vazio
    = (Retorna tt, w1)
    /\ DataManager.salvar_receitas [rice] w1 = (Retorna tt, w2)
    /\ DataManager.carregar_ingredientes w2
       = (Retorna [ingrediente_A; ingrediente_B], w2)
    /\ DataManager.carregar_receitas [ingrediente_A; ingrediente_B] w2
       = (Retorna receitas', w2)
    /\ Forall2 (fun r r' => registro_de r' = registro_de r) [rice] receitas'.
Proof.
  apply (@salvar_e_recarregar float _ [ingrediente_A; ingrediente_B] [rice]
           mundo_vazio).
  intros r par [<- | []] [<- | [<- | []]]; simpl; auto.
Defined.

(** C10.  The report generator does write the document: with a table of six
    references none of which is zero (the built-in table is one) and under
    the name that [gerar_pdf] gives it, it returns, and the document has
    the energy row.  Whenever it writes a document, the energy row prints
    4 * carbohydrates + 4 * protein + 9 * fat, computed from the totals it
    was given, and that value times 4.184 as kJ (when it raises, nothing is
    written); the ['calorias'] entry of the totals has no effect on what
    it does; and for some input the calculator returns totals whose
    ['calorias'] differs from this recomputed value. *)
Theorem energia_impressa_e_recalculada :
  (forall (F : Type) (A : Aritmetica F) (nome_arquivo : string)
          (d : Totais F) (peso_porcao : F) (w : Mundo F),
      match GeradorPDF.gerar_tabela_nutricional nome_arquivo d peso_porcao w with
      | (Retorna _, w') =>
          exists tabela vd,
            documentos w' = (nome_arquivo, tabela) :: documentos w
            /\ nth_error tabela 2
               = Some (linha_de_energia
                         (soma (soma (mult (carboidratos d) (lit 4))
                                     (mult (proteina d) (lit 4)))
                               (mult (gordura d) (lit 9)))
                         vd)
      | (Levanta _, w') => w' = w
      end)
  /\ (forall (F : Type) (A : Aritmetica F) (agora : string)
             (d : Totais F) (peso_porcao : F) (w : Mundo F)
             (c p g e f s : F) (z : Z),
         ValoresDiarios.carregar w = (Retorna (vd_json c p g e f s), w) ->
         forallb (fun x => negb (igual x (lit 0))) [c; p; g; e; f; s] = true ->
         truncar (mult e (lit 4.184)) = Retorna z ->
         exists tabela vd w',
           GeradorPDF.gerar_tabela_nutricional (Janela.nome_do_arquivo agora)
             d peso_porcao w
           = (Retorna tt, w')
           /\ documentos w'
              = (Janela.nome_do_arquivo agora, tabela) :: documentos w
           /\ nth_error tabela 2
              = Some (linha_de_energia
                        (soma (soma (mult (carboidratos d) (lit 4))
                                    (mult (proteina d) (lit 4)))
                              (mult (gordura d) (lit 9)))
                        vd))
  /\ (forall (F : Type) (A : Aritmetica F) (nome_arquivo : string)
             (d : Totais F) (peso_porcao c : F) (w : Mundo F),
         GeradorPDF.gerar_tabela_nutricional nome_arquivo (com_calorias c d)
                                             peso_porcao w
         = GeradorPDF.gerar_tabela_nutricional nome_arquivo d peso_porcao w)
  /\ (exists d : Totais float,
         calcular_por_porcao [(caldo, lit 1000)] = Retorna d
         /\ igual (GeradorPDF.kcal d) (calorias d) = false)
  /\ (exists d : Totais Qc,
         calcular_por_porcao [(caldo, lit 1000)] = Retorna d
         /\ igual (GeradorPDF.kcal d) (calorias d) = false).
Proof.
  split; [ | split; [ | split; [ | split ] ] ].
  - intros F A nome_arquivo d peso_porcao w.
    unfold GeradorPDF.gerar_tabela_nutricional, io_ligar,
      ValoresDiarios.carregar, GeradorPDF.elevar.
    destruct (valores_diarios_json w) as [vd | ];
      (destruct (GeradorPDF.porcentagens d _) as [p | e]; [ | reflexivity ]);
      (destruct (GeradorPDF.texto_rodape _) as [rodape | e]; [ | reflexivity ]);
      simpl; eexists; eexists; (split; [ reflexivity | reflexivity ]).
  - intros F A agora d peso_porcao w c p g e f s z Ev Hz Ht.
    destruct (relatorio_escrito (Janela.nome_do_arquivo agora) d peso_porcao
                                Ev Hz Ht)
      as (rodape & _ & E).
    rewrite E. unfold construir_documento.
    eexists. eexists. eexists. split; [ reflexivity | ].
    split; reflexivity.
  - intros F A nome_arquivo d peso_porcao c w. reflexivity.
  - eexists. split; vm_compute; reflexivity.
  - eexists. split; vm_compute; reflexivity.
Qed.

(** C10 in binary64, with no daily-value file, on the totals of "Rice" at
    200 g: the generator returns, and the energy row of the document it
    wrote shows 405 kcal. *)
Lemma energia_impressa_e_recalculada_rice :
  exists tabela vd w',
    GeradorPDF.gerar_tabela_nutricional (F := float)
      (Janela.nome_do_arquivo "20250101_120000")
      (mkTotais (lit 80) (lit 10) (lit 5) (lit 2) (lit 100) (lit 405))
      (lit 200) mundo_vazio
    = (Retorna tt, w')
    /\ documentos w' = [(Janela.nome_do_arquivo "20250101_120000", tabela)]
    /\ nth_error tabela 2 = Some (linha_de_energia (lit 405) vd).
Proof.
  destruct energia_impressa_e_recalculada as (_ & H & _).
  assert (Ev : ValoresDiarios.carregar (F := float) mundo_vazio
               = (Retorna (vd_json (lit 300) (lit 75) (lit 55) (lit 2000)
                                   (lit 30) (lit 5000)),
                  mundo_vazio))
    by (vm_compute; reflexivity).
  assert (Hz : forallb (fun x : float => negb (igual x (lit 0)))
                 [lit 300; lit 75; lit 55; lit 2000; lit 30; lit 5000] = true)
    by (vm_compute; reflexivity).
  assert (Ht : truncar (F := float) (mult (lit 2000) (lit 4.184)) = Retorna 8368)
    by (vm_compute; reflexivity).
  destruct (H float _ "20250101_120000"%string
              (mkTotais (lit 80) (lit 10) (lit 5) (lit 2) (lit 100) (lit 405))
              (lit 200) mundo_vazio _ _ _ _ _ _ _ Ev Hz Ht)
    as (tabela & vd & w' & E & D & L).
  exists tabela, vd, w'. split; [ exact E | split; [ exact D | ] ].
  rewrite L. vm_compute. reflexivity.
Defined.

(** * Further properties *)

(** ** Calculator *)

Section MaisCalculadora.
Context {F : Type} `{Aritmetica F}.

Lemma acumular_app (l1 l2 : list (Receita.t F * F)) (t : Totais F) :
  acumular (l1 ++ l2) t = (t1 <- acumular l1 t ;; acumular l2 t1)%py.
Proof.
  revert t. induction l1 as [ | [r p] l1 IH]; intros t; simpl.
  - reflexivity.
  - destruct (menor_igual (Receita.rendimento_total r) (lit 0)); [ reflexivity | ].
    destruct (divisao p (Receita.rendimento_total r)) as [fator | e]; simpl.
    + apply IH.
    + reflexivity.
Qed.

End MaisCalculadora.

(** X1.  A recipe with a valid yield and no ingredient pair (as one whose
    pairs were all dropped at load time) contributes nothing: the
    calculator returns what it returns without it, at any place of the
    list and in any arithmetic. *)
Theorem receita_sem_ingredientes_nao_conta
    (F : Type) (A : Aritmetica F) (l1 l2 : list (Receita.t F * F))
    (r : Receita.t F) (p : F) :
  Receita.ingredientes r = [] ->
  menor_igual (Receita.rendimento_total r) (lit 0) = false ->
  calcular_por_porcao (l1 ++ (r, p) :: l2) = calcular_por_porcao (l1 ++ l2).
Proof.
  intros Hr G. unfold calcular_por_porcao. rewrite !acumular_app.
  destruct (acumular l1 totais_iniciais) as [t1 | e]; [ | reflexivity ].
  simpl. rewrite G, (divisao_rendimento_valido p _ G), Hr. reflexivity.
Qed.

(** X1 with "Rice" before and after a recipe without ingredients. *)
Lemma receita_sem_ingredientes_nao_conta_rice :
  calcular_por_porcao (F := float)
    ([(rice, lit 200)] ++ (Receita.nova "vazia" [] (lit 1), lit 50)
                          :: [(rice, lit 100)])
  = calcular_por_porcao ([(rice, lit 200)] ++ [(rice, lit 100)]).
Proof.
  apply (@receita_sem_ingredientes_nao_conta float _ [(rice, lit 200)]
           [(rice, lit 100)] (Receita.nova "vazia" [] (lit 1)) (lit 50));
    reflexivity.
Defined.

(** X2.  The calculator stops at the first recipe of the list whose yield
    is not positive: it raises the [ValueError] that names that recipe,
    whatever comes after it in the list. *)
Theorem primeira_receita_invalida_decide
    (F : Type) (A : Aritmetica F) (l1 l2 : list (Receita.t F * F))
    (r : Receita.t F) (p : F) :
  Forall rendimento_valido l1 ->
  menor_igual (Receita.rendimento_total r) (lit 0) = true ->
  calcular_por_porcao (l1 ++ (r, p) :: l2)
  = Levanta (ValueError (mensagem_rendimento r)).
Proof.
  intros V G. unfold calcular_por_porcao.
  rewrite acumular_app, (acumular_validos _ V). simpl. rewrite G. reflexivity.
Qed.

(** X2 with "Rice" first and a recipe of yield 0 second. *)
Lemma primeira_receita_invalida_decide_rice :
  calcular_por_porcao (F := float)
    ([(rice, lit 200)] ++ (Receita.nova "nada" [] (lit 0), lit 50)
                          :: [(Receita.nova "menos" [] (lit (-1)), lit 1)])
  = Levanta (ValueError (mensagem_rendimento (Receita.nova "nada" [] (lit 0)))).
Proof.
  apply (@primeira_receita_invalida_decide float _ [(rice, lit 200)]).
  - repeat constructor.
  - reflexivity.
Defined.

(** ** Calculator, exact arithmetic *)

Section MaisExata.
Local Open Scope Qc_scope.

(** The invariant of the loops: the energy accumulated so far is 4, 4 and 9
    times the three macro sums accumulated so far. *)
Lemma energia_passo (fator : Qc) (t : Totais Qc) (par : Ingrediente.t Qc * Qc) :
  calorias t = GeradorPDF.kcal t ->
  calorias (acumular_ingrediente fator t par)
  = GeradorPDF.kcal (acumular_ingrediente fator t par).
Proof.
  destruct par as [i q]. unfold GeradorPDF.kcal. cbn. intros ->. ring.
Qed.

Lemma energia_laco_interno (fator : Qc) (ings : list (Ingrediente.t Qc * Qc))
    (t : Totais Qc) :
  calorias t = GeradorPDF.kcal t ->
  calorias (fold_left (acumular_ingrediente fator) ings t)
  = GeradorPDF.kcal (fold_left (acumular_ingrediente fator) ings t).
Proof.
  revert t. induction ings as [ | par ings IH]; intros t Ht; simpl.
  - exact Ht.
  - apply IH, energia_passo, Ht.
Qed.

Lemma energia_acumular (rps : list (Receita.t Qc * Qc)) (t a : Totais Qc) :
  calorias t = GeradorPDF.kcal t ->
  acumular rps t = Retorna a ->
  calorias a = GeradorPDF.kcal a.
Proof.
  revert t. induction rps as [ | [r p] rps IH]; intros t Ht; cbn [acumular].
  - intros [= <-]. exact Ht.
  - destruct (menor_igual (Receita.rendimento_total r) (lit 0)) eqn:G;
      [ discriminate | ].
    rewrite (divisao_rendimento_valido p _ G). cbn [ligar].
    apply IH, energia_laco_interno, Ht.
Qed.

Lemma energia_somas (rps : list (Receita.t Qc * Qc)) :
  Forall rendimento_valido rps ->
  calorias (somas_acumuladas rps) = GeradorPDF.kcal (somas_acumuladas rps).
Proof.
  intros V. apply (@energia_acumular rps totais_iniciais).
  - apply Qc_is_canon. reflexivity.
  - apply acumular_validos_somas, V.
Qed.

Lemma somatorio_perm (l l' : list Qc) :
  Permutation l l' -> fold_left Qcplus l 0 = fold_left Qcplus l' 0.
Proof.
  induction 1 as [ | x l l' _ IH | x y l | l l' l'' _ IH1 _ IH2 ]; simpl.
  - reflexivity.
  - rewrite (somatorio_desde l), (somatorio_desde l'), IH. reflexivity.
  - rewrite (somatorio_desde l (0 + y + x)), (somatorio_desde l (0 + x + y)).
    ring.
  - congruence.
Qed.

Lemma somas_perm (l l' : list (Receita.t Qc * Qc)) :
  Permutation l l' -> somas_acumuladas l = somas_acumuladas l'.
Proof.
  intros Hp. unfold somas_acumuladas, somatorio, contribuicoes,
    contribuicoes_energia.
  apply Totais_ext; simpl; apply somatorio_perm, Permutation_flat_map, Hp.
Qed.

End MaisExata.

(** X3.  In exact arithmetic the energy the loops accumulate is, before
    rounding, exactly 4 times the carbohydrate sum plus 4 times the protein
    sum plus 9 times the fat sum: on the sums before rounding the formula
    of the report and the ['calorias'] accumulator agree. *)
Theorem energia_acumulada_e_derivada
    (rps : list (Receita.t Qc * Qc)) (a : Totais Qc) :
  acumular rps totais_iniciais = Retorna a ->
  calorias a
  = soma (soma (mult (carboidratos a) (lit 4)) (mult (proteina a) (lit 4)))
         (mult (gordura a) (lit 9)).
Proof.
  intros E. apply (@energia_acumular rps totais_iniciais a); [ | exact E ].
  apply Qc_is_canon. reflexivity.
Qed.

(** X3 on "Rice" and "caldo". *)
Lemma energia_acumulada_e_derivada_rice :
  calorias (somas_acumuladas [(@rice Qc _, lit 200); (caldo, lit 1000)])
  = soma (soma (mult (carboidratos
                        (somas_acumuladas [(rice, lit 200); (caldo, lit 1000)]))
                     (lit 4))
               (mult (proteina
                        (somas_acumuladas [(rice, lit 200); (caldo, lit 1000)]))
                     (lit 4)))
         (mult (gordura (somas_acumuladas [(rice, lit 200); (caldo, lit 1000)]))
               (lit 9)).
Proof.
  apply (@energia_acumulada_e_derivada [(rice, lit 200); (caldo, lit 1000)]).
  apply acumular_validos_somas. repeat constructor.
Defined.

(** X4.  In exact arithmetic the order of the list does not matter: when
    every yield is positive, a reordered list returns the same six
    totals. *)
Theorem totais_nao_dependem_da_ordem (l l' : list (Receita.t Qc * Qc)) :
  Permutation l l' ->
  Forall rendimento_valido l ->
  calcular_por_porcao l = calcular_por_porcao l'.
Proof.
  intros Hp V.
  rewrite (calcular_validos V), (calcular_validos (Permutation_Forall Hp V)).
  rewrite (somas_perm Hp). reflexivity.
Qed.

(** X4 on "Rice" and "caldo" in both orders. *)
Lemma totais_nao_dependem_da_ordem_rice :
  calcular_por_porcao [(@rice Qc _, lit 200); (caldo, lit 1000)]
  = calcular_por_porcao [(caldo, lit 1000); (rice, lit 200)].
Proof.
  apply totais_nao_dependem_da_ordem.
  - apply perm_swap.
  - repeat constructor.
Defined.

(** ** Calculator, exact arithmetic: rounding and signs *)

(** Inequalities of exact numbers, read on their fractions. *)
Ltac fracoes :=
  unfold perto in *;
  cbn [lit soma mult round2 exata] in *;
  unfold Exata.round2, Qcle, Qclt, Qcminus, Qcplus, Qcmult, Qcopp in *;
  cbn [Q2Qc this] in *;
  rewrite ?Qred_correct in *.

Section MaisExataLimites.
Local Open Scope Qc_scope.

Lemma round2_perto (q : Qc) : perto (lit 0.005) q (round2 q).
Proof.
  destruct (Qround2_perto q) as [Hlo Hhi]. fracoes. split; lra.
Qed.

Lemma arredondar_perto (s : Totais Qc) : totais_perto (lit 0.005) s (arredondar s).
Proof.
  unfold totais_perto, arredondar. cbn [carboidratos proteina gordura fibra sodio calorias].
  repeat split; apply round2_perto.
Qed.

Lemma kcal_perto_de_calorias (s : Totais Qc) :
  calorias s = GeradorPDF.kcal s ->
  perto (lit 0.09) (calorias (arredondar s)) (GeradorPDF.kcal (arredondar s)).
Proof.
  intros E.
  destruct (Qround2_perto (carboidratos s)) as [C1 C2].
  destruct (Qround2_perto (proteina s)) as [P1 P2].
  destruct (Qround2_perto (gordura s)) as [G1 G2].
  destruct (Qround2_perto (calorias s)) as [K1 K2].
  assert (E' : (this (calorias s)
                == this (carboidratos s) * 4 + this (proteina s) * 4
                   + this (gordura s) * 9)%Q).
  { rewrite E at 1. unfold GeradorPDF.kcal. fracoes. reflexivity. }
  unfold GeradorPDF.kcal, arredondar.
  cbn [carboidratos proteina gordura fibra sodio calorias].
  fracoes. split; lra.
Qed.

Lemma nn_soma (a b : Qc) : 0 <= a -> 0 <= b -> 0 <= a + b.
Proof. intros Ha Hb. fracoes. lra. Qed.

Lemma nn_mult (a b : Qc) : 0 <= a -> 0 <= b -> 0 <= a * b.
Proof. intros Ha Hb. fracoes. apply Qmult_le_0_compat; assumption. Qed.

Lemma nn_quoc (a b : Qc) : 0 <= a -> 0 <= b -> 0 <= a / b.
Proof.
  intros Ha Hb. unfold Qcdiv. apply nn_mult; [ exact Ha | ].
  unfold Qcinv. fracoes. apply Qinv_le_0_compat. exact Hb.
Qed.

Lemma nn_lit (q : Q) : (0 <= q)%Q -> 0 <= Q2Qc q.
Proof. intros Hq. fracoes. exact Hq. Qed.

Lemma nn_round2 (q : Qc) : 0 <= q -> 0 <= round2 q.
Proof.
  intros Hq. pose proof (@Qround2_nao_negativo q) as R. fracoes. apply R, Hq.
Qed.

Lemma valido_positivo (y : Qc) : menor_igual y (lit 0) = false -> 0 <= y.
Proof.
  cbn. intros G. destruct (Qlt_le_dec 0 y) as [L | L].
  - apply Qlt_le_weak in L. exact L.
  - apply Qle_bool_iff in L. change (this (Q2Qc 0)) with 0%Q in G. congruence.
Qed.

Lemma nn_passo (fator : Qc) (t : Totais Qc) (par : Ingrediente.t Qc * Qc) :
  0 <= fator -> ingrediente_nao_negativo (fst par) -> 0 <= snd par ->
  nao_negativos t -> nao_negativos (acumular_ingrediente fator t par).
Proof.
  destruct par as [i q]. cbn [fst snd].
  intros Hf (Hc & Hp & Hg & Hfi & Hs) Hq (Tc & Tp & Tg & Tf & Ts & Tk).
  assert (Hqf : 0 <= q * fator) by (apply nn_mult; assumption).
  unfold nao_negativos, todos_os_totais, acumular_ingrediente.
  cbn [carboidratos proteina gordura fibra sodio calorias soma mult lit exata].
  repeat split;
    repeat (first [ assumption | apply nn_soma | apply nn_mult
                  | apply nn_lit; discriminate ]).
Qed.

Lemma nn_laco_interno (fator : Qc) (ings : list (Ingrediente.t Qc * Qc))
    (t : Totais Qc) :
  0 <= fator ->
  Forall (fun par => ingrediente_nao_negativo (fst par) /\ 0 <= snd par) ings ->
  nao_negativos t ->
  nao_negativos (fold_left (acumular_ingrediente fator) ings t).
Proof.
  intros Hf Hi. revert t. induction Hi as [ | par ings [Hp Hq] _ IH];
    intros t Ht; simpl.
  - exact Ht.
  - apply IH, nn_passo; assumption.
Qed.

Lemma nn_acumular (rps : list (Receita.t Qc * Qc)) (t a : Totais Qc) :
  Forall entrada_nao_negativa rps ->
  nao_negativos t ->
  acumular rps t = Retorna a ->
  nao_negativos a.
Proof.
  intros Hn. revert t. induction Hn as [ | [r p] rps [Hp Hi] _ IH];
    intros t Ht; cbn [acumular].
  - intros [= <-]. exact Ht.
  - destruct (menor_igual (Receita.rendimento_total r) (lit 0)) eqn:G;
      [ discriminate | ].
    rewrite (divisao_rendimento_valido p _ G). cbn [ligar].
    apply IH, nn_laco_interno; [ | exact Hi | exact Ht ].
    apply nn_quoc; [ exact Hp | apply valido_positivo, G ].
Qed.

Lemma nn_iniciais : nao_negativos totais_iniciais.
Proof. repeat split; apply nn_lit; discriminate. Qed.

End MaisExataLimites.

(** X5.  In exact arithmetic, when every yield is positive the calculator
    returns six totals each within 0.005 of the corresponding accumulated
    sum: the final rounding is the only loss. *)
Theorem totais_a_meio_centesimo (rps : list (Receita.t Qc * Qc)) :
  Forall rendimento_valido rps ->
  exists t,
    calcular_por_porcao rps = Retorna t
    /\ totais_perto (lit 0.005) (somas_acumuladas rps) t.
Proof.
  intros V. exists (arredondar (somas_acumuladas rps)). split.
  - apply calcular_validos, V.
  - apply arredondar_perto.
Qed.

(** X5 on "Rice" and "caldo". *)
Lemma totais_a_meio_centesimo_rice :
  exists t,
    calcular_por_porcao [(@rice Qc _, lit 200); (caldo, lit 1000)] = Retorna t
    /\ totais_perto (lit 0.005)
                    (somas_acumuladas [(rice, lit 200); (caldo, lit 1000)]) t.
Proof.
  apply totais_a_meio_centesimo. repeat constructor.
Defined.

(** X6.  In exact arithmetic, for every input with positive yields the
    energy that the report recomputes from the rounded totals lies within
    0.09 kcal of the ['calorias'] total the calculator returned. *)
Theorem energia_do_relatorio_a_9_centesimos (rps : list (Receita.t Qc * Qc)) :
  Forall rendimento_valido rps ->
  exists t,
    calcular_por_porcao rps = Retorna t
    /\ perto (lit 0.09) (calorias t) (GeradorPDF.kcal t).
Proof.
  intros V. exists (arredondar (somas_acumuladas rps)). split.
  - apply calcular_validos, V.
  - apply kcal_perto_de_calorias, energia_somas, V.
Qed.

(** X6 on "caldo", where the two values differ. *)
Lemma energia_do_relatorio_a_9_centesimos_caldo :
  exists t,
    calcular_por_porcao [(@caldo Qc _, lit 1000)] = Retorna t
    /\ perto (lit 0.09) (calorias t) (GeradorPDF.kcal t).
Proof.
  apply energia_do_relatorio_a_9_centesimos. repeat constructor.
Defined.

(** X7.  In exact arithmetic, when no portion, quantity or coefficient is
    negative, none of the six totals the calculator returns is negative. *)
Theorem totais_nao_negativos (rps : list (Receita.t Qc * Qc)) (t : Totais Qc) :
  Forall entrada_nao_negativa rps ->
  calcular_por_porcao rps = Retorna t ->
  todos_os_totais (fun x => (0 <= x)%Qc) t.
Proof.
  intros Hn. unfold calcular_por_porcao.
  destruct (acumular rps totais_iniciais) as [a | e] eqn:E;
    cbn [ligar]; [ | discriminate ].
  intros [= <-].
  destruct (nn_acumular Hn nn_iniciais E) as (Tc & Tp & Tg & Tf & Ts & Tk).
  unfold todos_os_totais, arredondar.
  cbn [carboidratos proteina gordura fibra sodio calorias].
  repeat split; apply nn_round2; assumption.
Qed.

(** X7 on "Rice" at 200 g. *)
Lemma totais_nao_negativos_rice :
  todos_os_totais (fun x => (0 <= x)%Qc)
                  (arredondar (somas_acumuladas [(@rice Qc _, lit 200)])).
Proof.
  apply (@totais_nao_negativos [(rice, lit 200)]).
  - repeat constructor; vm_compute; discriminate.
  - apply calcular_validos. repeat constructor.
Defined.

(** ** Stores: errors and round trips *)

Section MaisStores.
Context {F : Type} `{Aritmetica F}.

Lemma para_cada_ate_erro {A B C} (f : B -> Resultado C) (g : A -> B)
    (h : A -> C) (l : list A) (x : B) (resto : list B) (e : Excecao) :
  (forall a, f (g a) = Retorna (h a)) ->
  f x = Levanta e ->
  para_cada f (map g l ++ x :: resto) = Levanta e.
Proof.
  intros Hg Hx. induction l as [ | a l IH]; simpl.
  - rewrite Hx. reflexivity.
  - rewrite Hg, IH. reflexivity.
Qed.

Lemma ingrediente_sem_chave (i : Ingrediente.t F) (k : string) :
  In k chaves_ingrediente ->
  DataManager.ingrediente_de_item (sem_chave k (Ingrediente_to_dict i))
  = Levanta (KeyError k).
Proof.
  destruct i. unfold chaves_ingrediente.
  intros [<- | [<- | [<- | [<- | [<- | [<- | []]]]]]]; reflexivity.
Qed.

Lemma find_unico (ingredientes : list (Ingrediente.t F)) (i : Ingrediente.t F) :
  NoDup (map (@Ingrediente.nome F) ingredientes) ->
  In i ingredientes ->
  find (fun j => String.eqb (Ingrediente.nome j) (Ingrediente.nome i))
       ingredientes
  = Some i.
Proof.
  induction ingredientes as [ | j l IH]; simpl; intros Hd Hin; [ contradiction | ].
  inversion Hd as [ | ? ? Hj Hd']; subst.
  destruct Hin as [-> | Hin].
  - rewrite String.eqb_refl. reflexivity.
  - destruct (String.eqb_spec (Ingrediente.nome j) (Ingrediente.nome i)) as [E | E].
    + exfalso. apply Hj. rewrite E. apply in_map, Hin.
    + apply IH; assumption.
Qed.

Lemma resolvidos_identidade (ingredientes : list (Ingrediente.t F))
    (pares : list (Ingrediente.t F * F)) :
  Forall (fun par =>
            find (fun i => String.eqb (Ingrediente.nome i)
                                      (Ingrediente.nome (fst par)))
                 ingredientes
            = Some (fst par))
         pares ->
  resolvidos ingredientes
             (map (fun par => (Ingrediente.nome (fst par), snd par)) pares)
  = pares.
Proof.
  induction 1 as [ | [i q] pares Hi _ IH]; simpl; [ reflexivity | ].
  simpl in Hi. rewrite Hi, IH. reflexivity.
Qed.

Lemma receita_recarregada (ingredientes : list (Ingrediente.t F))
    (r : Receita.t F) :
  Forall (fun par =>
            find (fun i => String.eqb (Ingrediente.nome i)
                                      (Ingrediente.nome (fst par)))
                 ingredientes
            = Some (fst par))
         (Receita.ingredientes r) ->
  receita_resolvida ingredientes (registro_de r) = r.
Proof.
  intros Hr. destruct r as [nome pares y]. unfold receita_resolvida, registro_de.
  simpl in *. rewrite resolvidos_identidade by exact Hr. reflexivity.
Qed.

Lemma carregar_salvas (ingredientes : list (Ingrediente.t F))
    (receitas : list (Receita.t F)) (w : Mundo F) :
  receitas_json w = Some (JList (map Receita_to_dict receitas)) ->
  DataManager.carregar_receitas ingredientes w
  = (Retorna (map (fun r => receita_resolvida ingredientes (registro_de r))
                  receitas), w).
Proof.
  intros E. rewrite <- (map_map registro_de (receita_resolvida ingredientes)).
  apply carregar_registros. rewrite E. do 2 f_equal.
  rewrite map_map. apply map_ext, Receita_to_dict_registro.
Qed.

Lemma carregar_ingredientes_salvos (ingredientes : list (Ingrediente.t F))
    (w : Mundo F) :
  ingredientes_json w = Some (JList (map Ingrediente_to_dict ingredientes)) ->
  DataManager.carregar_ingredientes w = (Retorna ingredientes, w).
Proof.
  intros E. unfold DataManager.carregar_ingredientes. rewrite E.
  simpl iterar. cbn [ligar].
  rewrite (para_cada_map _ _ (fun i => i) _ ingrediente_de_to_dict), map_id.
  reflexivity.
Qed.

Lemma no_catalogo_filtrado (n nome : string)
    (ingredientes : list (Ingrediente.t F)) :
  no_catalogo (filter (outro_nome n) ingredientes) nome
  = no_catalogo ingredientes nome && negb (String.eqb nome n).
Proof.
  unfold no_catalogo.
  induction ingredientes as [ | i l IH]; simpl; [ reflexivity | ].
  unfold outro_nome at 1.
  destruct (String.eqb_spec (Ingrediente.nome i) n) as [E | E]; simpl.
  - rewrite IH.
    destruct (String.eqb_spec (Ingrediente.nome i) nome) as [E' | E']; simpl.
    + rewrite <- E', E, String.eqb_refl. simpl.
      rewrite andb_false_r. reflexivity.
    + reflexivity.
  - rewrite IH.
    destruct (String.eqb_spec (Ingrediente.nome i) nome) as [E' | E']; simpl.
    + rewrite <- E'. destruct (String.eqb_spec (Ingrediente.nome i) n);
        [ contradiction | reflexivity ].
    + reflexivity.
Qed.

End MaisStores.

(** X8.  [carregar_ingredientes] has no default for a missing key: if any
    record of the store lacks one of the six keys, and the records before
    it are complete, the load raises [KeyError] of that key and returns no
    ingredient at all; the stores are not touched. *)
Theorem carregar_ingredientes_chave_ausente
    (F : Type) (A : Aritmetica F) (antes : list (Ingrediente.t F))
    (i : Ingrediente.t F) (k : string) (depois : list (JSON F)) (w : Mundo F) :
  In k chaves_ingrediente ->
  ingredientes_json w
  = Some (JList (map Ingrediente_to_dict antes
                 ++ sem_chave k (Ingrediente_to_dict i) :: depois)) ->
  DataManager.carregar_ingredientes w = (Levanta (KeyError k), w).
Proof.
  intros Hk E. unfold DataManager.carregar_ingredientes. rewrite E.
  simpl iterar. cbn [ligar].
  rewrite (para_cada_ate_erro _ _ (fun i => i) _ _ _ ingrediente_de_to_dict
             (ingrediente_sem_chave i Hk)).
  reflexivity.
Qed.

(** X8 on a store holding A and then B without ['fibra_por_g']. *)
Lemma carregar_ingredientes_chave_ausente_fibra :
  DataManager.carregar_ingredientes
    (mkMundo (Some (JList (map Ingrediente_to_dict [@ingrediente_A float _]
                           ++ sem_chave "fibra_por_g"
                                (Ingrediente_to_dict (@ingrediente_B float _))
                              :: [])))
             None None [] [])
  = (Levanta (KeyError "fibra_por_g"),
     mkMundo (Some (JList (map Ingrediente_to_dict [@ingrediente_A float _]
                           ++ sem_chave "fibra_por_g"
                                (Ingrediente_to_dict (@ingrediente_B float _))
                              :: [])))
             None None [] []).
Proof.
  apply (@carregar_ingredientes_chave_ausente float _ [ingrediente_A]
           ingrediente_B "fibra_por_g"%string []).
  - simpl. auto 10.
  - reflexivity.
Defined.

(** X9.  [carregar_receitas] never raises, whatever the recipe store holds
    and whatever the catalog: it returns a list and leaves the three
    stores and the documents as they are; either it shows nothing, or it
    shows one error box and the list it returns is empty. *)
Theorem carregar_receitas_nunca_levanta :
  forall (F : Type) (A : Aritmetica F)
         (ingredientes : list (Ingrediente.t F)) (w : Mundo F),
  exists receitas w',
    DataManager.carregar_receitas ingredientes w = (Retorna receitas, w')
    /\ ingredientes_json w' = ingredientes_json w
    /\ receitas_json w' = receitas_json w
    /\ valores_diarios_json w' = valores_diarios_json w
    /\ documentos w' = documentos w
    /\ (mensagens w' = mensagens w
        \/ (receitas = []
            /\ exists e, mensagens w' = falha_ao_carregar e :: mensagens w)).
Proof.
  intros F A ingredientes w. unfold DataManager.carregar_receitas.
  destruct (receitas_json w) as [dados | ] eqn:E.
  - destruct (ligar (iterar dados) _) as [receitas | e].
    + exists receitas, w. rewrite E. auto 10.
    + eexists. eexists. split; [ reflexivity | ].
      simpl. rewrite E. repeat split. right. split; [ reflexivity | ].
      exists e. reflexivity.
  - exists [], w. rewrite E. auto 10.
Qed.

(** X10.  The load is all or nothing: if one record of the recipe store
    has no ['ingredientes'] key, then whatever the well-formed records
    before it and whatever comes after it, [carregar_receitas] returns the
    empty list and shows one error box for [KeyError('ingredientes')]. *)
Theorem carregar_receitas_tudo_ou_nada
    (F : Type) (A : Aritmetica F) (ingredientes : list (Ingrediente.t F))
    (antes : list (RegistroReceita F)) (d : list (string * JSON F))
    (depois : list (JSON F)) (w : Mundo F) :
  procurar "ingredientes" d = None ->
  receitas_json w
  = Some (JList (map registro_json antes ++ JDict d :: depois)) ->
  DataManager.carregar_receitas ingredientes w
  = (Retorna [],
     snd (mostrar (falha_ao_carregar (KeyError "ingredientes")) w)).
Proof.
  intros Hd E. unfold DataManager.carregar_receitas. rewrite E.
  simpl iterar. cbn [ligar].
  rewrite (para_cada_ate_erro _ _ (receita_resolvida ingredientes) _ _ _
             (receita_de_registro ingredientes)
             (e := KeyError "ingredientes")).
  - reflexivity.
  - unfold DataManager.receita_de_item. simpl. rewrite Hd. reflexivity.
Qed.

(** X10 on a store holding the record of "Rice" and then a record with a
    name only. *)
Lemma carregar_receitas_tudo_ou_nada_rice :
  DataManager.carregar_receitas [@ingrediente_A float _; ingrediente_B]
    (mkMundo None
       (Some (JList (map registro_json [registro_de rice]
                     ++ JDict [("nome"%string, JStr "sem lista")] :: [])))
       None [] [])
  = (Retorna [],
     mkMundo None
       (Some (JList (map registro_json [registro_de rice]
                     ++ JDict [("nome"%string, JStr "sem lista")] :: [])))
       None [] [falha_ao_carregar (KeyError "ingredientes")]).
Proof.
  apply (@carregar_receitas_tudo_ou_nada float _ [ingrediente_A; ingrediente_B]
           [registro_de rice] [("nome"%string, JStr "sem lista")] []);
    reflexivity.
Defined.

Section MaisPadrao.
Context {F : Type} `{Aritmetica F}.

(** A store of records without ['rendimento_total'] loads with the
    resolved pairs and the sum of their quantities. *)
Lemma carregar_legados (ingredientes : list (Ingrediente.t F))
    (legados : list (string * list (string * F)))
    (ij vd : option (JSON F)) (docs : list (string * Tabela F))
    (msgs : list Mensagem) :
  DataManager.carregar_receitas ingredientes
    (mkMundo ij
       (Some (JList (map (fun np => registro_legado_json (fst np) (snd np))
                         legados)))
       vd docs msgs)
  = (Retorna
       (map (fun np =>
               Receita.nova (fst np) (resolvidos ingredientes (snd np))
                 (DataManager.soma_quantidades
                    (resolvidos ingredientes (snd np))))
            legados),
     mkMundo ij
       (Some (JList (map (fun np => registro_legado_json (fst np) (snd np))
                         legados)))
       vd docs msgs).
Proof.
  unfold DataManager.carregar_receitas. cbn [receitas_json].
  simpl iterar. cbn [ligar].
  rewrite (para_cada_map _ _
             (fun np =>
                Receita.nova (fst np) (resolvidos ingredientes (snd np))
                  (DataManager.soma_quantidades
                     (resolvidos ingredientes (snd np))))).
  - reflexivity.
  - intros [nome pares]. unfold DataManager.receita_de_item. simpl.
    rewrite resolver_pares. reflexivity.
Qed.

(** The pairs that are dropped play no part in the resolution. *)
Lemma resolvidos_sem_pendentes (ingredientes : list (Ingrediente.t F))
    (pares : list (string * F)) :
  resolvidos ingredientes
    (filter (fun p => no_catalogo ingredientes (fst p)) pares)
  = resolvidos ingredientes pares.
Proof.
  induction pares as [ | [nome qtd] pares IH]; [ reflexivity | ].
  cbn [filter fst resolvidos].
  pose proof (find_no_catalogo ingredientes nome) as Hf.
  destruct (find (fun i => String.eqb (Ingrediente.nome i) nome) ingredientes)
    as [i | ] eqn:E.
  - destruct Hf as [_ Hc]. rewrite Hc. cbn [resolvidos]. rewrite E, IH.
    reflexivity.
  - rewrite Hf. exact IH.
Qed.

End MaisPadrao.

Lemma soma_quantidades_exata (pares : list (Ingrediente.t Qc * Qc)) :
  DataManager.soma_quantidades pares = soma_exata pares.
Proof.
  unfold DataManager.soma_quantidades, soma_exata.
  assert (G : forall a : Qc,
            fold_left (fun acc par => soma acc (snd par)) pares a
            = (a + fold_right (fun par acc => snd par + acc) (Q2Qc 0) pares)%Qc).
  { induction pares as [ | par pares IH]; intros a; cbn [fold_left fold_right].
    - change (Q2Qc 0) with 0%Qc. ring.
    - rewrite IH. cbn [soma exata]. ring. }
  rewrite G. cbn [lit exata]. change (Q2Qc 0) with 0%Qc. ring.
Qed.

(** X11.  The default yield of a record without ['rendimento_total'] is
    computed from the pairs that resolved in the catalog only: in any
    arithmetic such a record loads exactly as the same record without its
    dangling pairs; and in exact arithmetic, where neither the order nor
    the method of the summation matters, the default is the sum of the
    quantities of the resolved pairs. *)
Theorem carregar_receitas_rendimento_padrao :
  (forall (F : Type) (A : Aritmetica F)
          (ingredientes : list (Ingrediente.t F))
          (legados : list (string * list (string * F)))
          (ij vd : option (JSON F)) (docs : list (string * Tabela F))
          (msgs : list Mensagem),
      fst (DataManager.carregar_receitas ingredientes
             (mkMundo ij
                (Some (JList (map (fun np => registro_legado_json (fst np) (snd np))
                                  legados)))
                vd docs msgs))
      = fst (DataManager.carregar_receitas ingredientes
               (mkMundo ij
                  (Some (JList (map (fun np => registro_legado_json (fst np) (snd np))
                                    (map (sem_pendentes ingredientes) legados))))
                  vd docs msgs)))
  /\ (forall (ingredientes : list (Ingrediente.t Qc))
             (legados : list (string * list (string * Qc)))
             (ij vd : option (JSON Qc)) (docs : list (string * Tabela Qc))
             (msgs : list Mensagem),
         DataManager.carregar_receitas ingredientes
           (mkMundo ij
              (Some (JList (map (fun np => registro_legado_json (fst np) (snd np))
                                legados)))
              vd docs msgs)
         = (Retorna
              (map (fun np =>
                      Receita.nova (fst np) (resolvidos ingredientes (snd np))
                        (soma_exata (resolvidos ingredientes (snd np))))
                   legados),
            mkMundo ij
              (Some (JList (map (fun np => registro_legado_json (fst np) (snd np))
                                legados)))
              vd docs msgs)).
Proof.
  split.
  - intros F A ingredientes legados ij vd docs msgs.
    rewrite !carregar_legados. cbn [fst]. f_equal.
    rewrite map_map. apply map_ext. intros [nome pares].
    unfold sem_pendentes. cbn [fst snd].
    rewrite resolvidos_sem_pendentes. reflexivity.
  - intros ingredientes legados ij vd docs msgs.
    rewrite carregar_legados. do 2 f_equal.
    apply map_ext. intros np. rewrite soma_quantidades_exata. reflexivity.
Qed.

Section MaisLegado.
Context {F : Type} `{Aritmetica F}.

Lemma resolvidos_nenhum (ingredientes : list (Ingrediente.t F))
    (pares : list (string * F)) :
  Forall (fun p => no_catalogo ingredientes (fst p) = false) pares ->
  resolvidos ingredientes pares = [].
Proof.
  induction 1 as [ | [nome qtd] pares Hp _ IH]; simpl; [ reflexivity | ].
  pose proof (find_no_catalogo ingredientes nome) as Hf.
  destruct (find (fun i => String.eqb (Ingrediente.nome i) nome) ingredientes).
  - destruct Hf as [_ Hf]. simpl in Hp. congruence.
  - exact IH.
Qed.

End MaisLegado.

(** X12.  Load and calculator together: a record without
    ['rendimento_total'] none of whose pairs is in the catalog loads as a
    recipe without ingredients and with yield zero, and the calculator
    refuses any portion of it with the [ValueError] of the guard.  This
    holds for every arithmetic in which zero is not positive, binary64 and
    the exact one among them. *)
Theorem receita_legada_sem_ingredientes_e_recusada
    (F : Type) (A : Aritmetica F) (ingredientes : list (Ingrediente.t F))
    (nome : string) (pares : list (string * F)) (porcao : F) (w : Mundo F) :
  menor_igual (lit 0) (lit 0) = true ->
  Forall (fun p => no_catalogo ingredientes (fst p) = false) pares ->
  receitas_json w = Some (JList [registro_legado_json nome pares]) ->
  DataManager.carregar_receitas ingredientes w
  = (Retorna [Receita.nova nome [] (lit 0)], w)
  /\ calcular_por_porcao [(Receita.nova nome [] (lit 0), porcao)]
     = Levanta (ValueError
                  (mensagem_rendimento (Receita.nova nome [] (lit 0)))).
Proof.
  intros Z Hp E. split.
  - unfold DataManager.carregar_receitas. rewrite E.
    simpl iterar. cbn [ligar para_cada].
    unfold DataManager.receita_de_item. simpl.
    rewrite resolver_pares, resolvidos_nenhum by exact Hp. reflexivity.
  - unfold calcular_por_porcao. simpl. rewrite Z. reflexivity.
Qed.

(** X12 in binary64, on a record whose only pair names an ingredient that
    the catalog [A; B] does not hold. *)
Lemma receita_legada_sem_ingredientes_e_recusada_binary64 :
  DataManager.carregar_receitas [@ingrediente_A float _; ingrediente_B]
    (mkMundo None
       (Some (JList [registro_legado_json "antiga" [("C"%string, lit 100)]]))
       None [] [])
  = (Retorna [Receita.nova "antiga" [] (lit 0)],
     mkMundo None
       (Some (JList [registro_legado_json "antiga" [("C"%string, lit 100)]]))
       None [] [])
  /\ calcular_por_porcao (F := float)
       [(Receita.nova "antiga" [] (lit 0), lit 200)]
     = Levanta (ValueError
                  (mensagem_rendimento (Receita.nova "antiga" [] (lit 0)))).
Proof.
  apply (@receita_legada_sem_ingredientes_e_recusada float _
           [ingrediente_A; ingrediente_B] "antiga"%string
           [("C"%string, lit 100)] (lit 200)).
  - reflexivity.
  - repeat constructor.
  - reflexivity.
Defined.

(** X13.  With unique names in the catalog and recipes made of ingredients
    of the catalog, saving the recipes and loading them back returns the
    very same recipes, coefficients of their ingredients included. *)
Theorem salvar_e_recarregar_identico
    (F : Type) (A : Aritmetica F) (ingredientes : list (Ingrediente.t F))
    (receitas : list (Receita.t F)) (w : Mundo F) :
  NoDup (map (@Ingrediente.nome F) ingredientes) ->
  (forall r par,
      In r receitas -> In par (Receita.ingredientes r) ->
      In (fst par) ingredientes) ->
  exists w',
    DataManager.salvar_receitas receitas w = (Retorna tt, w')
    /\ DataManager.carregar_receitas ingredientes w' = (Retorna receitas, w').
Proof.
  intros Hd Href. eexists. split; [ reflexivity | ].
  rewrite (@carregar_salvas _ _ ingredientes receitas) by reflexivity.
  do 2 f_equal. rewrite <- (map_id receitas) at 2.
  apply map_ext_in. intros r Hr. apply receita_recarregada.
  apply Forall_forall. intros par Hpar.
  apply find_unico; [ exact Hd | ]. apply (Href r par Hr Hpar).
Qed.

(** X13 on the catalog [A; B] and the recipe "Rice". *)
Lemma salvar_e_recarregar_identico_rice :
  exists w',
    DataManager.salvar_receitas [@rice float _] mundo_vazio = (Retorna tt, w')
    /\ DataManager.carregar_receitas [ingrediente_A; ingrediente_B] w'
       = (Retorna [rice], w').
Proof.
  apply (@salvar_e_recarregar_identico float _ [ingrediente_A; ingrediente_B]
           [rice] mundo_vazio).
  - simpl. repeat constructor; simpl; intuition discriminate.
  - intros r par [<- | []] [<- | [<- | []]]; simpl; auto.
Defined.

(** X14.  Loading is stable under saving: for any catalog and any store of
    recipe records, saving what was loaded and loading again, against the
    same catalog, returns the same recipes, and the second load drops
    nothing. *)
Theorem recarregar_e_estavel :
  forall (F : Type) (A : Aritmetica F)
         (ingredientes : list (Ingrediente.t F))
         (regs : list (RegistroReceita F))
         (ij vd : option (JSON F)) (docs : list (string * Tabela F))
         (msgs : list Mensagem),
  exists receitas w',
    DataManager.carregar_receitas ingredientes
      (mkMundo ij (Some (JList (map registro_json regs))) vd docs msgs)
    = (Retorna receitas,
       mkMundo ij (Some (JList (map registro_json regs))) vd docs msgs)
    /\ DataManager.salvar_receitas receitas
         (mkMundo ij (Some (JList (map registro_json regs))) vd docs msgs)
       = (Retorna tt, w')
    /\ receitas_json w' = Some (JList (map Receita_to_dict receitas))
    /\ DataManager.carregar_receitas ingredientes w' = (Retorna receitas, w').
Proof.
  intros F A ingredientes regs ij vd docs msgs.
  exists (map (receita_resolvida ingredientes) regs). eexists.
  split; [ apply carregar_registros; reflexivity | ].
  split; [ reflexivity | split; [ reflexivity | ] ].
  rewrite (@carregar_salvas _ _ ingredientes
             (map (receita_resolvida ingredientes) regs)) by reflexivity.
  do 2 f_equal. rewrite map_map. apply map_ext. intros reg.
  apply receita_recarregada, resolvidos_do_catalogo.
Qed.

(** X15.  [DataManager.deletar_ingrediente] and the next load: the
    ingredient store is rewritten without the entries named [n] and the
    recipe store is left as it is; loading the catalog and then the
    recipes gives a catalog without [n] and recipes in which no pair names
    [n], while every stored pair of another name that was in the catalog
    is still there, in stored order. *)
Theorem deletar_ingrediente_e_recarregar
    (F : Type) (A : Aritmetica F) (n : string)
    (ingredientes : list (Ingrediente.t F)) (regs : list (RegistroReceita F))
    (w : Mundo F) :
  ingredientes_json w = Some (JList (map Ingrediente_to_dict ingredientes)) ->
  receitas_json w = Some (JList (map registro_json regs)) ->
  exists w' receitas,
    DataManager.deletar_ingrediente n w = (Retorna tt, w')
    /\ receitas_json w' = receitas_json w
    /\ DataManager.carregar_ingredientes w'
       = (Retorna (filter (outro_nome n) ingredientes), w')
    /\ DataManager.carregar_receitas (filter (outro_nome n) ingredientes) w'
       = (Retorna receitas, w')
    /\ Forall2
         (fun reg r =>
            Receita.nome r = reg_nome reg
            /\ map (fun par => (Ingrediente.nome (fst par), snd par))
                   (Receita.ingredientes r)
               = filter (fun p => no_catalogo ingredientes (fst p)
                                  && negb (String.eqb (fst p) n))
                        (reg_ingredientes reg))
         regs receitas.
Proof.
  intros Ei Er.
  destruct (deletar_ingrediente_no_store n _ _ Ei) as (w' & Ed & Ei' & Er').
  exists w', (map (receita_resolvida (filter (outro_nome n) ingredientes)) regs).
  split; [ exact Ed | split; [ exact Er' | split; [ | split ] ] ].
  - apply carregar_ingredientes_salvos, Ei'.
  - apply carregar_registros. rewrite Er'. exact Er.
  - clear. induction regs as [ | reg regs IH]; simpl; constructor;
      [ | exact IH ].
    split; [ reflexivity | ]. simpl. rewrite resolvidos_filter.
    apply filter_ext. intros p. apply no_catalogo_filtrado.
Qed.

(** X15 on the stores of the catalog [A; B] and the recipe "Rice", deleting
    "A". *)
Lemma deletar_ingrediente_e_recarregar_rice :
  exists w' receitas,
    DataManager.deletar_ingrediente "A"
      (mkMundo (Some (JList (map Ingrediente_to_dict
                                 [@ingrediente_A float _; ingrediente_B])))
               (Some (JList (map registro_json [registro_de rice])))
               None [] [])
    = (Retorna tt, w')
    /\ DataManager.carregar_receitas
         (filter (outro_nome "A") [ingrediente_A; ingrediente_B]) w'
       = (Retorna receitas, w')
    /\ map (@Receita.ingredientes float) receitas
       = [[(ingrediente_B, lit 500)]].
Proof.
  destruct (@deletar_ingrediente_e_recarregar float _ "A"%string
              [ingrediente_A; ingrediente_B] [registro_de rice]
              (mkMundo (Some (JList (map Ingrediente_to_dict
                                         [ingrediente_A; ingrediente_B])))
                       (Some (JList (map registro_json [registro_de rice])))
                       None [] [])
              eq_refl eq_refl)
    as (w' & receitas & Ed & _ & _ & Ec & _).
  exists w', receitas. split; [ exact Ed | split; [ exact Ec | ] ].
  vm_compute in Ed. injection Ed as <-.
  vm_compute in Ec. injection Ec as <-. reflexivity.
Defined.

(** ** The report and the daily values *)

(** X16.  With a stored daily-value table of six references none of which
    is zero and a reference energy that [int] accepts, the report is
    written under the time-stamped name that [gerar_pdf] gives it: each
    percentage is the total divided by its reference times 100 (the energy
    one from the recomputed kcal), and the footnote shows the reference
    energy and its [int] of kJ. *)
Theorem relatorio_com_tabela_valida
    (F : Type) (A : Aritmetica F) (agora : string) (d : Totais F)
    (peso : F) (w : Mundo F) (c p g e f s : F) (z : Z) :
  valores_diarios_json w = Some (vd_json c p g e f s) ->
  forallb (fun x => negb (igual x (lit 0))) [c; p; g; e; f; s] = true ->
  truncar (mult e (lit 4.184)) = Retorna z ->
  exists rodape,
    rodape_mostra e z rodape
    /\ GeradorPDF.gerar_tabela_nutricional (Janela.nome_do_arquivo agora) d peso w
       = construir_documento (Janela.nome_do_arquivo agora)
           (GeradorPDF.tabela_dados d peso (porcentagens_de d c p g e f s)
                                    rodape)
           w.
Proof.
  intros Ev Hz Ht. apply relatorio_escrito; [ | exact Hz | exact Ht ].
  unfold ValoresDiarios.carregar. rewrite Ev. reflexivity.
Qed.

(** X16 in binary64, on the totals of "Rice" at 200 g and a stored table
    equal to the built-in one. *)
Lemma relatorio_com_tabela_valida_rice :
  exists rodape,
    rodape_mostra (lit 2000) 8368 rodape
    /\ GeradorPDF.gerar_tabela_nutricional (F := float)
         (Janela.nome_do_arquivo "20250101_120000")
         (mkTotais (lit 80) (lit 10) (lit 5) (lit 2) (lit 100) (lit 405))
         (lit 200)
         (mkMundo None None
            (Some (vd_json (lit 300) (lit 75) (lit 55) (lit 2000) (lit 30)
                           (lit 5000)))
            [] [])
       = construir_documento (Janela.nome_do_arquivo "20250101_120000")
           (GeradorPDF.tabela_dados
              (mkTotais (lit 80) (lit 10) (lit 5) (lit 2) (lit 100) (lit 405))
              (lit 200)
              (porcentagens_de
                 (mkTotais (lit 80) (lit 10) (lit 5) (lit 2) (lit 100) (lit 405))
                 (lit 300) (lit 75) (lit 55) (lit 2000) (lit 30) (lit 5000))
              rodape)
           (mkMundo None None
              (Some (vd_json (lit 300) (lit 75) (lit 55) (lit 2000) (lit 30)
                             (lit 5000)))
              [] []).
Proof.
  apply (@relatorio_com_tabela_valida float _ "20250101_120000"%string);
    vm_compute; reflexivity.
Defined.

(** X17.  Without a daily-value file the built-in table is used, and under
    the time-stamped name that [gerar_pdf] gives it the report is written
    whatever the totals and the weight: the references are 300, 75, 55,
    2000, 30 and 5000 and the footnote shows 2000 kcal and 8368 kJ; in
    binary64 and in exact arithmetic. *)
Theorem relatorio_com_tabela_embutida :
  (forall (agora : string) (d : Totais float) (peso : float)
          (ij rj : option (JSON float)) (docs : list (string * Tabela float))
          (msgs : list Mensagem),
      exists rodape,
        rodape_mostra (lit 2000) 8368 rodape
        /\ GeradorPDF.gerar_tabela_nutricional (Janela.nome_do_arquivo agora)
             d peso (mkMundo ij rj None docs msgs)
           = construir_documento (Janela.nome_do_arquivo agora)
               (GeradorPDF.tabela_dados d peso
                  (porcentagens_de d (lit 300) (lit 75) (lit 55) (lit 2000)
                                   (lit 30) (lit 5000))
                  rodape)
               (mkMundo ij rj None docs msgs))
  /\ (forall (agora : string) (d : Totais Qc) (peso : Qc)
             (ij rj : option (JSON Qc)) (docs : list (string * Tabela Qc))
             (msgs : list Mensagem),
         exists rodape,
           rodape_mostra (lit 2000) 8368 rodape
           /\ GeradorPDF.gerar_tabela_nutricional (Janela.nome_do_arquivo agora)
                d peso (mkMundo ij rj None docs msgs)
              = construir_documento (Janela.nome_do_arquivo agora)
                  (GeradorPDF.tabela_dados d peso
                     (porcentagens_de d (lit 300) (lit 75) (lit 55) (lit 2000)
                                      (lit 30) (lit 5000))
                     rodape)
                  (mkMundo ij rj None docs msgs)).
Proof.
  split; intros agora d peso ij rj docs msgs;
    apply relatorio_escrito; vm_compute; reflexivity.
Qed.

(** X18.  If one of the six references of the stored daily-value table is
    zero, the report raises [ZeroDivisionError] and writes no document. *)
Theorem relatorio_com_referencia_zero
    (F : Type) (A : Aritmetica F) (nome_arquivo : string) (d : Totais F)
    (peso : F) (w : Mundo F) (c p g e f s : F) :
  valores_diarios_json w = Some (vd_json c p g e f s) ->
  existsb (fun x => igual x (lit 0)) [c; p; g; e; f; s] = true ->
  GeradorPDF.gerar_tabela_nutricional nome_arquivo d peso w
  = (Levanta ZeroDivisionError, w).
Proof.
  intros Ev Hz. apply relatorio_divisao_por_zero with c p g e f s;
    [ | exact Hz ].
  unfold ValoresDiarios.carregar. rewrite Ev. reflexivity.
Qed.

(** X18 in binary64, with a fiber reference of zero. *)
Lemma relatorio_com_referencia_zero_fibras :
  GeradorPDF.gerar_tabela_nutricional (F := float) "rice.pdf"
    (mkTotais (lit 80) (lit 10) (lit 5) (lit 2) (lit 100) (lit 405)) (lit 200)
    (mkMundo None None
       (Some (vd_json (lit 300) (lit 75) (lit 55) (lit 2000) (lit 0)
                      (lit 5000)))
       [] [])
  = (Levanta ZeroDivisionError,
     mkMundo None None
       (Some (vd_json (lit 300) (lit 75) (lit 55) (lit 2000) (lit 0)
                      (lit 5000)))
       [] []).
Proof.
  apply (@relatorio_com_referencia_zero float _ "rice.pdf"%string _ _ _
           (lit 300) (lit 75) (lit 55) (lit 2000) (lit 0) (lit 5000));
    vm_compute; reflexivity.
Defined.

Section MaisConfiguracoes.
Context {F : Type} `{Aritmetica F}.
Variable float_de : string -> option F.

Lemma novos_vd_chaves (e : Configuracoes.Entradas) (dados : JSON F) :
  Configuracoes.novos_vd float_de e = Some dados ->
  exists c p g f s k,
    dados = JDict [ ("carboidratos", JNum c); ("proteinas", JNum p);
                    ("gorduras_totais", JNum g);
                    ("fibras_alimentares", JNum f); ("sodio", JNum s);
                    ("valor_energetico", JNum k) ]%string.
Proof.
  unfold Configuracoes.novos_vd.
  destruct (float_de (Configuracoes.vd_carb e)) as [c | ]; [ | discriminate ].
  destruct (float_de (Configuracoes.vd_prot e)) as [p | ]; [ | discriminate ].
  destruct (float_de (Configuracoes.vd_gord e)) as [g | ]; [ | discriminate ].
  destruct (float_de (Configuracoes.vd_fibra e)) as [f | ]; [ | discriminate ].
  destruct (float_de (Configuracoes.vd_sodio e)) as [s | ]; [ | discriminate ].
  destruct (float_de (Configuracoes.vd_kcal e)) as [k | ]; [ | discriminate ].
  intros [= <-]. do 6 eexists. reflexivity.
Qed.

End MaisConfiguracoes.

(** X19.  The settings tab writes the fiber reference under the key
    ['fibras_alimentares'] and the report reads ['fibras']: once
    [_salvar_vds] has saved six numbers, every call of the report
    generator raises, [KeyError('fibras')] or, when one of the first four
    references is zero, [ZeroDivisionError], and writes no document. *)
Theorem relatorio_falha_apos_salvar_vds
    (F : Type) (A : Aritmetica F) (float_de : string -> option F)
    (e : Configuracoes.Entradas) (dados : JSON F) (w : Mundo F) :
  Configuracoes.novos_vd float_de e = Some dados ->
  exists w1,
    Configuracoes._salvar_vds float_de e w = (Retorna tt, w1)
    /\ valores_diarios_json w1 = Some dados
    /\ mensagens w1 = showinfo "Sucesso" "Valores atualizados!" :: mensagens w
    /\ forall (nome_arquivo : string) (d : Totais F) (peso : F),
         exists erro,
           GeradorPDF.gerar_tabela_nutricional nome_arquivo d peso w1
           = (Levanta erro, w1)
           /\ (erro = KeyError "fibras" \/ erro = ZeroDivisionError).
Proof.
  intros En. unfold Configuracoes._salvar_vds. rewrite En.
  eexists. split; [ reflexivity | ]. split; [ reflexivity | ].
  split; [ reflexivity | ].
  destruct (novos_vd_chaves _ _ En) as (c & p & g & f & s & k & ->).
  intros nome_arquivo d peso.
  unfold GeradorPDF.gerar_tabela_nutricional, io_ligar,
    ValoresDiarios.carregar, GeradorPDF.elevar, GeradorPDF.porcentagens,
    GeradorPDF.porcentagem, divisao.
  cbn [valores_diarios_json snd ValoresDiarios.salvar escrever_valores_diarios
       mostrar].
  simpl subscrito. cbn [ligar como_numero].
  destruct (igual c (lit 0)); cbn [ligar]; [ eauto | ].
  destruct (igual p (lit 0)); cbn [ligar]; [ eauto | ].
  destruct (igual g (lit 0)); cbn [ligar]; [ eauto | ].
  destruct (igual k (lit 0)); cbn [ligar]; [ eauto | ].
  eauto.
Qed.

(** X19 with six entries that all read as the number 1. *)
Lemma relatorio_falha_apos_salvar_vds_exemplo :
  exists w1,
    Configuracoes._salvar_vds (fun _ => Some (lit 1 : float))
      (Configuracoes.mkEntradas "1" "1" "1" "1" "1" "1") mundo_vazio
    = (Retorna tt, w1)
    /\ GeradorPDF.gerar_tabela_nutricional "rice.pdf"
         (mkTotais (lit 80) (lit 10) (lit 5) (lit 2) (lit 100) (lit 405))
         (lit 200) w1
       = (Levanta (KeyError "fibras"), w1).
Proof.
  destruct (@relatorio_falha_apos_salvar_vds float _
              (fun _ => Some (lit 1 : float))
              (Configuracoes.mkEntradas "1" "1" "1" "1" "1" "1")
              _ mundo_vazio eq_refl)
    as (w1 & Es & _ & _ & Hr).
  exists w1. split; [ exact Es | ].
  vm_compute in Es. injection Es as <-. vm_compute. reflexivity.
Defined.

(** X20.  If the text of any of the six entries is not a number,
    [_salvar_vds] shows the error box and leaves the daily-value store,
    like the other stores, as it was. *)
Theorem salvar_vds_invalido
    (F : Type) (float_de : string -> option F)
    (e : Configuracoes.Entradas) (w : Mundo F) :
  In None (map float_de
               [ Configuracoes.vd_carb e; Configuracoes.vd_prot e;
                 Configuracoes.vd_gord e; Configuracoes.vd_fibra e;
                 Configuracoes.vd_sodio e; Configuracoes.vd_kcal e ]) ->
  Configuracoes._salvar_vds float_de e w
  = (Retorna tt, snd (mostrar (showerror "Erro" "Valores inválidos!" None) w)).
Proof.
  intros Hn. unfold Configuracoes._salvar_vds, Configuracoes.novos_vd.
  simpl in Hn.
  destruct (float_de (Configuracoes.vd_carb e)); [ | reflexivity ].
  destruct (float_de (Configuracoes.vd_prot e)); [ | reflexivity ].
  destruct (float_de (Configuracoes.vd_gord e)); [ | reflexivity ].
  destruct (float_de (Configuracoes.vd_fibra e)); [ | reflexivity ].
  destruct (float_de (Configuracoes.vd_sodio e)); [ | reflexivity ].
  destruct (float_de (Configuracoes.vd_kcal e)); [ | reflexivity ].
  exfalso. intuition discriminate.
Qed.

(** X20 with a reader that accepts only the text "1". *)
Lemma salvar_vds_invalido_exemplo :
  Configuracoes._salvar_vds
    (fun t => if String.eqb t "1" then Some (lit 1 : float) else None)
    (Configuracoes.mkEntradas "1" "1" "abc" "1" "1" "1") mundo_vazio
  = (Retorna tt,
     snd (mostrar (showerror "Erro" "Valores inválidos!" None) mundo_vazio)).
Proof.
  apply salvar_vds_invalido. cbn. right. right. left. reflexivity.
Defined.

(** ** The report button and the recipe delete button *)

Section MaisJanela.
Context {F : Type} `{Aritmetica F}.
Variable float_de : string -> option F.

Lemma usada_nao_vazia (l : Janela.Linha) :
  Janela.combo l <> ""%string -> Janela.entry l <> ""%string ->
  String.eqb (Janela.combo l) "" || String.eqb (Janela.entry l) "" = false.
Proof.
  intros Hc He.
  destruct (String.eqb_spec (Janela.combo l) ""); [ contradiction | ].
  destruct (String.eqb_spec (Janela.entry l) ""); [ contradiction | ].
  reflexivity.
Qed.

Lemma coletar_vazias (receitas : list (Receita.t F))
    (linhas : list Janela.Linha) (acc : list (Receita.t F * F)) (peso : F) :
  Forall linha_vazia linhas ->
  Janela.coletar float_de receitas linhas acc peso = Janela.Coletado acc peso.
Proof.
  induction 1 as [ | l linhas [Hl | Hl] _ IH]; simpl.
  - reflexivity.
  - rewrite Hl. simpl. exact IH.
  - rewrite Hl, String.eqb_refl, orb_true_r. exact IH.
Qed.

(** The loop reads the rows in order: it appends one pair per row and adds
    its quantity to the weight. *)
Lemma coletar_lidas (receitas : list (Receita.t F))
    (linhas : list Janela.Linha) (rps : list (Receita.t F * F))
    (resto : list Janela.Linha) (acc : list (Receita.t F * F)) (peso : F) :
  Forall2 (linha_le float_de receitas) linhas rps ->
  Janela.coletar float_de receitas (linhas ++ resto) acc peso
  = Janela.coletar float_de receitas resto (acc ++ rps)
                   (fold_left soma (map snd rps) peso).
Proof.
  intros Hl. revert acc peso.
  induction Hl as [ | l [r q] linhas rps (Hc & He & Hf & Hq) _ IH];
    intros acc peso; simpl in *.
  - rewrite app_nil_r. reflexivity.
  - rewrite (usada_nao_vazia _ Hc He), Hf, Hq, IH, <- app_assoc. reflexivity.
Qed.

Lemma coletar_ilegivel (receitas : list (Receita.t F)) (l : Janela.Linha)
    (resto : list Janela.Linha) (acc : list (Receita.t F * F)) (peso : F) :
  linha_ilegivel float_de receitas l ->
  Janela.coletar float_de receitas (l :: resto) acc peso = Janela.SemReceita
  \/ Janela.coletar float_de receitas (l :: resto) acc peso
     = Janela.QuantidadeInvalida.
Proof.
  intros (Hc & He & Hx). simpl. rewrite (usada_nao_vazia _ Hc He).
  destruct (find (Janela.nome_e (Janela.combo l)) receitas) as [r | ].
  - destruct Hx as [Hx | Hx]; [ discriminate | ]. rewrite Hx. auto.
  - auto.
Qed.

End MaisJanela.

Section MaisDeletarReceita.
Context {F : Type}.

Lemma remove_primeira (n : string) (l : list (Receita.t F)) :
  In n (map (@Receita.nome F) l) ->
  exists l1 r l2,
    l = l1 ++ r :: l2
    /\ Receita.nome r = n
    /\ ~ In n (map (@Receita.nome F) l1)
    /\ find (Janela.nome_e n) l = Some r
    /\ Janela.remove n l = l1 ++ l2.
Proof.
  induction l as [ | r l IH]; simpl; intros Hin; [ contradiction | ].
  unfold Janela.nome_e at 1 3.
  destruct (String.eqb_spec (Receita.nome r) n) as [E | E].
  - exists [], r, l. simpl. auto.
  - destruct Hin as [Hin | Hin]; [ contradiction | ].
    destruct (IH Hin) as (l1 & j & l2 & -> & Hj & Hl1 & Hf & Hr).
    exists (r :: l1), j, l2. simpl. rewrite Hr. repeat split; auto.
    intros [Hi | Hi]; auto.
Qed.

Lemma find_ausente (n : string) (l : list (Receita.t F)) :
  ~ In n (map (@Receita.nome F) l) -> find (Janela.nome_e n) l = None.
Proof.
  induction l as [ | r l IH]; simpl; intros Hn; [ reflexivity | ].
  unfold Janela.nome_e at 1.
  destruct (String.eqb_spec (Receita.nome r) n) as [E | E].
  - exfalso. apply Hn. left. exact E.
  - apply IH. intros Hin. apply Hn. right. exact Hin.
Qed.

End MaisDeletarReceita.

(** X21.  When no row of the report tab has both a recipe name and a
    quantity (no row at all included), [gerar_pdf] shows the error box
    "Adicione pelo menos uma receita" and returns: the calculator is not
    run on an empty list and no document is written. *)
Theorem gerar_pdf_sem_receitas
    (F : Type) (A : Aritmetica F) (float_de : string -> option F)
    (agora : string) (j : Janela.t F) (w : Mundo F) :
  Forall linha_vazia (Janela.frame_receitas j) ->
  Janela.gerar_pdf float_de agora j w
  = (Janela.Terminou,
     snd (mostrar (showerror "Erro" "Adicione pelo menos uma receita" None) w)).
Proof.
  intros Hv. unfold Janela.gerar_pdf.
  rewrite (@coletar_vazias _ _ float_de _ _ [] (lit 0) Hv). reflexivity.
Qed.

(** X21 on a window with one row that names "Rice" and has no quantity. *)
Lemma gerar_pdf_sem_receitas_exemplo :
  Janela.gerar_pdf (fun _ => Some (lit 200 : float)) "20240101_120000"
    (Janela.mk [rice] None "" ["Rice"%string] "" ""
               [Janela.mkLinha "Rice" ["Rice"%string] ""])
    mundo_vazio
  = (Janela.Terminou,
     snd (mostrar (showerror "Erro" "Adicione pelo menos uma receita" None)
                  mundo_vazio)).
Proof.
  apply gerar_pdf_sem_receitas.
  constructor; [ right; reflexivity | constructor ].
Defined.

(** X22.  When every row names a recipe of the window and holds a number,
    and one of the recipes read has a yield that is not positive, the
    [ValueError] of the calculator leaves [gerar_pdf]: no document is
    written and no message box is shown. *)
Theorem gerar_pdf_rendimento_invalido
    (F : Type) (A : Aritmetica F) (float_de : string -> option F)
    (agora : string) (j : Janela.t F) (w : Mundo F)
    (rps : list (Receita.t F * F)) :
  Forall2 (linha_le float_de (Janela.receitas j)) (Janela.frame_receitas j) rps ->
  Exists rendimento_invalido rps ->
  exists r,
    In r (map fst rps)
    /\ Janela.gerar_pdf float_de agora j w
       = (Janela.Escapou (ValueError (mensagem_rendimento r)), w).
Proof.
  intros Hl Hx. unfold Janela.gerar_pdf.
  rewrite <- (app_nil_r (Janela.frame_receitas j)).
  rewrite (@coletar_lidas _ _ float_de _ _ _ [] [] (lit 0) Hl).
  cbn [Janela.coletar app].
  destruct (acumular_invalido totais_iniciais Hx) as [e He].
  destruct (acumular_levanta _ _ He) as (rp & Hin & _ & ->).
  exists (fst rp). split; [ apply in_map, Hin | ].
  destruct rps as [ | rp0 rps ]; [ inversion Hx | ].
  unfold calcular_por_porcao. rewrite He. reflexivity.
Qed.

(** X22 on a window whose only recipe has yield 0. *)
Lemma gerar_pdf_rendimento_invalido_exemplo :
  exists r,
    In r (map fst [(Receita.nova "nada" [] (lit 0 : float), lit 200)])
    /\ Janela.gerar_pdf (fun _ => Some (lit 200 : float)) "20240101_120000"
         (Janela.mk [Receita.nova "nada" [] (lit 0)] None "" ["nada"%string]
                    "" "" [Janela.mkLinha "nada" ["nada"%string] "200"])
         mundo_vazio
       = (Janela.Escapou (ValueError (mensagem_rendimento r)), mundo_vazio).
Proof.
  apply (@gerar_pdf_rendimento_invalido float _ (fun _ => Some (lit 200 : float))
           "20240101_120000"%string
           (Janela.mk [Receita.nova "nada" [] (lit 0)] None "" ["nada"%string]
                      "" "" [Janela.mkLinha "nada" ["nada"%string] "200"])
           mundo_vazio [(Receita.nova "nada" [] (lit 0), lit 200)]).
  - repeat constructor; discriminate.
  - left. reflexivity.
Defined.

(** X23.  A row that has a recipe name and a quantity but names no recipe
    of the window, or whose quantity is not a number, makes [gerar_pdf]
    end by an exception ([StopIteration] or [ValueError]) once the rows
    before it have been read: nothing is written and nothing is shown. *)
Theorem gerar_pdf_linha_ilegivel
    (F : Type) (A : Aritmetica F) (float_de : string -> option F)
    (agora : string) (j : Janela.t F) (w : Mundo F)
    (antes : list Janela.Linha) (rps : list (Receita.t F * F))
    (l : Janela.Linha) (depois : list Janela.Linha) :
  Janela.frame_receitas j = antes ++ l :: depois ->
  Forall2 (linha_le float_de (Janela.receitas j)) antes rps ->
  linha_ilegivel float_de (Janela.receitas j) l ->
  Janela.gerar_pdf float_de agora j w = (Janela.EscapouStopIteration, w)
  \/ exists msg,
       Janela.gerar_pdf float_de agora j w
       = (Janela.Escapou (ValueError msg), w).
Proof.
  intros Ef Hl Hi. unfold Janela.gerar_pdf.
  rewrite Ef, (@coletar_lidas _ _ float_de _ _ _ (l :: depois) [] (lit 0) Hl).
  destruct (@coletar_ilegivel _ _ float_de _ _ depois ([] ++ rps)
              (fold_left soma (map snd rps) (lit 0)) Hi) as [E | E];
    rewrite E; eauto.
Qed.

(** X23 on a window with "Rice" and a row that names "Feijao". *)
Lemma gerar_pdf_linha_ilegivel_exemplo :
  Janela.gerar_pdf (fun _ => Some (lit 200 : float)) "20240101_120000"
    (Janela.mk [rice] None "" ["Rice"%string] "" ""
               ([] ++ Janela.mkLinha "Feijao" ["Rice"%string] "200" :: []))
    mundo_vazio
  = (Janela.EscapouStopIteration, mundo_vazio)
  \/ exists msg,
       Janela.gerar_pdf (fun _ => Some (lit 200 : float)) "20240101_120000"
         (Janela.mk [rice] None "" ["Rice"%string] "" ""
                    ([] ++ Janela.mkLinha "Feijao" ["Rice"%string] "200" :: []))
         mundo_vazio
       = (Janela.Escapou (ValueError msg), mundo_vazio).
Proof.
  apply (@gerar_pdf_linha_ilegivel float _ (fun _ => Some (lit 200 : float))
           "20240101_120000"%string _ mundo_vazio []
           [] (Janela.mkLinha "Feijao" ["Rice"%string] "200") []).
  - reflexivity.
  - constructor.
  - repeat split; try discriminate. left. reflexivity.
Defined.

(** X24.  When every row names a recipe of the window and holds a number,
    every recipe read has a positive yield, and the daily-value table in
    force has six non-zero references, [gerar_pdf] writes one document
    named after the time stamp: its weight is the sum of the quantities
    from 0.0 in row order, its totals are those of the calculator on the
    rows in row order, and the success box names the file. *)
Theorem gerar_pdf_escreve
    (F : Type) (A : Aritmetica F) (float_de : string -> option F)
    (agora : string) (j : Janela.t F) (w : Mundo F)
    (rps : list (Receita.t F * F)) (c p g e f s : F) (z : Z) :
  Forall2 (linha_le float_de (Janela.receitas j)) (Janela.frame_receitas j) rps ->
  rps <> [] ->
  Forall rendimento_valido rps ->
  ValoresDiarios.carregar w = (Retorna (vd_json c p g e f s), w) ->
  forallb (fun x => negb (igual x (lit 0))) [c; p; g; e; f; s] = true ->
  truncar (mult e (lit 4.184)) = Retorna z ->
  exists d rodape w1,
    calcular_por_porcao rps = Retorna d
    /\ construir_documento (Janela.nome_do_arquivo agora)
         (GeradorPDF.tabela_dados d (peso_das_porcoes rps)
                                  (porcentagens_de d c p g e f s) rodape)
         w
       = (Retorna tt, w1)
    /\ Janela.gerar_pdf float_de agora j w
       = (Janela.Terminou,
          snd (mostrar (showinfo "Sucesso"
                                 ("PDF gerado: " ++ Janela.nome_do_arquivo agora))
                       w1)).
Proof.
  intros Hl Hne V Ev Hz Ht.
  destruct (@relatorio_escrito _ _ (Janela.nome_do_arquivo agora)
              (arredondar (somas_acumuladas rps)) (peso_das_porcoes rps)
              w c p g e f s z Ev Hz Ht) as (rodape & _ & Er).
  exists (arredondar (somas_acumuladas rps)), rodape. eexists.
  split; [ apply calcular_validos, V | ]. split; [ reflexivity | ].
  unfold Janela.gerar_pdf.
  rewrite <- (app_nil_r (Janela.frame_receitas j)).
  rewrite (@coletar_lidas _ _ float_de _ _ _ [] [] (lit 0) Hl).
  cbn [Janela.coletar app].
  destruct rps as [ | rp rps ]; [ contradiction | ].
  rewrite (calcular_validos V).
  fold (peso_das_porcoes (rp :: rps)). rewrite Er. reflexivity.
Qed.

(** X24 in binary64: one row, 200 g of "Rice", no daily-value file. *)
Lemma gerar_pdf_escreve_rice :
  exists d rodape w1,
    calcular_por_porcao [(@rice float _, lit 200)] = Retorna d
    /\ construir_documento (Janela.nome_do_arquivo "20240101_120000")
         (GeradorPDF.tabela_dados d (peso_das_porcoes [(rice, lit 200)])
            (porcentagens_de d (lit 300) (lit 75) (lit 55) (lit 2000)
                             (lit 30) (lit 5000))
            rodape)
         mundo_vazio
       = (Retorna tt, w1)
    /\ Janela.gerar_pdf (fun _ => Some (lit 200 : float)) "20240101_120000"
         (Janela.mk [rice] None "" ["Rice"%string] "" ""
                    [Janela.mkLinha "Rice" ["Rice"%string] "200"])
         mundo_vazio
       = (Janela.Terminou,
          snd (mostrar
                 (showinfo "Sucesso"
                    ("PDF gerado: " ++ Janela.nome_do_arquivo "20240101_120000"))
                 w1)).
Proof.
  apply (@gerar_pdf_escreve float _ (fun _ => Some (lit 200 : float))
           "20240101_120000"%string
           (Janela.mk [rice] None "" ["Rice"%string] "" ""
                      [Janela.mkLinha "Rice" ["Rice"%string] "200"])
           mundo_vazio [(rice, lit 200)]
           (lit 300) (lit 75) (lit 55) (lit 2000) (lit 30) (lit 5000) 8368).
  - repeat constructor; discriminate.
  - discriminate.
  - repeat constructor.
  - reflexivity.
  - vm_compute. reflexivity.
  - vm_compute. reflexivity.
Defined.

(** X25.  Deleting the recipe named [n] (selected in the combo box, the
    dialog answered yes) removes the first recipe of that name and leaves
    the others as they were and in order; the recipe store is rewritten
    with the remaining recipes and the ingredient store is not touched;
    the combo boxes offer the remaining names, and the rows of the report
    tab keep the text they show. *)
Theorem deletar_receita_da_janela
    (F : Type) (A : Aritmetica F) (j : Janela.t F) (w : Mundo F) (n : string) :
  Janela.combo_receitas_exist j = n ->
  n <> ""%string ->
  In n (map (@Receita.nome F) (Janela.receitas j)) ->
  exists j' w' l1 r l2,
    Janela._deletar_receita true j w = (Retorna j', w')
    /\ Janela.receitas j = l1 ++ r :: l2
    /\ Receita.nome r = n
    /\ ~ In n (map (@Receita.nome F) l1)
    /\ Janela.receitas j' = l1 ++ l2
    /\ receitas_json w' = Some (JList (map Receita_to_dict (l1 ++ l2)))
    /\ ingredientes_json w' = ingredientes_json w
    /\ Janela.combo_receitas_exist_valores j'
       = map (@Receita.nome F) (l1 ++ l2)
    /\ map Janela.combo (Janela.frame_receitas j')
       = map Janela.combo (Janela.frame_receitas j)
    /\ map Janela.entry (Janela.frame_receitas j')
       = map Janela.entry (Janela.frame_receitas j).
Proof.
  intros Hsel Hn Hin.
  destruct (remove_primeira _ _ Hin) as (l1 & r & l2 & Hl & Hr & Hl1 & Hf & Hrm).
  unfold Janela._deletar_receita. rewrite Hsel.
  destruct (String.eqb_spec n "") as [E | _]; [ contradiction | ].
  cbn [negb]. rewrite Hf.
  eexists. eexists. exists l1, r, l2. split; [ reflexivity | ].
  cbn [Janela.receitas Janela._nova_receita Janela._atualizar_combos_receitas
       Janela.combo_receitas_exist_valores Janela.frame_receitas
       receitas_json ingredientes_json].
  rewrite Hrm, !map_map. cbn [Janela.combo Janela.entry].
  repeat split; try assumption.
Qed.

(** X25 on a window with "Rice" and "caldo", deleting "Rice". *)
Lemma deletar_receita_da_janela_rice :
  exists j' w',
    Janela._deletar_receita true
      (Janela.mk [@rice float _; caldo] None "Rice" ["Rice"; "caldo"]%string
                 "" "" [Janela.mkLinha "Rice" ["Rice"; "caldo"]%string "200"])
      mundo_vazio
    = (Retorna j', w')
    /\ Janela.receitas j' = [caldo]
    /\ receitas_json w' = Some (JList (map Receita_to_dict [@caldo float _])).
Proof.
  destruct (@deletar_receita_da_janela float _
              (Janela.mk [rice; caldo] None "Rice" ["Rice"; "caldo"]%string
                         "" "" [Janela.mkLinha "Rice" ["Rice"; "caldo"]%string
                                               "200"])
              mundo_vazio "Rice"%string eq_refl)
    as (j' & w' & l1 & r & l2 & E & _).
  - discriminate.
  - simpl. auto.
  - exists j', w'. split; [ exact E | ].
    vm_compute in E. injection E as <- <-. split; reflexivity.
Defined.

(** X26.  Deleting a recipe leaves the rows of the report tab that name
    it: with unique recipe names, after [_deletar_receita] has deleted the
    recipe named [n], a report whose first row still names [n] and holds a
    quantity ends by [StopIteration] and writes nothing. *)
Theorem gerar_pdf_apos_deletar_receita
    (F : Type) (A : Aritmetica F) (float_de : string -> option F)
    (agora : string) (j : Janela.t F) (w : Mundo F) (n : string)
    (l : Janela.Linha) (resto : list Janela.Linha) :
  Janela.combo_receitas_exist j = n ->
  n <> ""%string ->
  In n (map (@Receita.nome F) (Janela.receitas j)) ->
  NoDup (map (@Receita.nome F) (Janela.receitas j)) ->
  Janela.frame_receitas j = l :: resto ->
  Janela.combo l = n ->
  Janela.entry l <> ""%string ->
  exists j' w',
    Janela._deletar_receita true j w = (Retorna j', w')
    /\ Janela.gerar_pdf float_de agora j' w' = (Janela.EscapouStopIteration, w').
Proof.
  intros Hsel Hn Hin Hd Hfr Hc He.
  destruct (remove_primeira _ _ Hin) as (l1 & r & l2 & Hl & Hr & Hl1 & Hf & Hrm).
  unfold Janela._deletar_receita. rewrite Hsel.
  destruct (String.eqb_spec n "") as [E | _]; [ contradiction | ].
  cbn [negb]. rewrite Hf.
  eexists. eexists. split; [ reflexivity | ].
  unfold Janela.gerar_pdf.
  cbn [Janela.receitas Janela._nova_receita Janela._atualizar_combos_receitas
       Janela.frame_receitas].
  rewrite Hfr, Hrm. cbn [map Janela.coletar Janela.combo Janela.entry].
  rewrite Hc.
  destruct (String.eqb_spec n ""); [ contradiction | ].
  destruct (String.eqb_spec (Janela.entry l) ""); [ contradiction | ].
  cbn [orb].
  rewrite find_ausente; [ reflexivity | ].
  rewrite Hl, map_app in Hd. simpl in Hd.
  apply NoDup_remove_2 in Hd. rewrite Hr in Hd. rewrite map_app. exact Hd.
Qed.

(** X26 on a window with "Rice" and "caldo" and a row for 200 g of
    "Rice". *)
Lemma gerar_pdf_apos_deletar_receita_rice :
  exists j' w',
    Janela._deletar_receita true
      (Janela.mk [@rice float _; caldo] None "Rice" ["Rice"; "caldo"]%string
                 "" "" [Janela.mkLinha "Rice" ["Rice"; "caldo"]%string "200"])
      mundo_vazio
    = (Retorna j', w')
    /\ Janela.gerar_pdf (fun _ => Some (lit 200 : float)) "20240101_120000"
                        j' w'
       = (Janela.EscapouStopIteration, w').
Proof.
  apply (@gerar_pdf_apos_deletar_receita float _
           (fun _ => Some (lit 200 : float)) "20240101_120000"%string
           (Janela.mk [rice; caldo] None "Rice" ["Rice"; "caldo"]%string
                      "" "" [Janela.mkLinha "Rice" ["Rice"; "caldo"]%string
                                            "200"])
           mundo_vazio "Rice"%string
           (Janela.mkLinha "Rice" ["Rice"; "caldo"]%string "200") []).
  - reflexivity.
  - discriminate.
  - simpl. auto.
  - simpl. repeat constructor; simpl; intuition discriminate.
  - reflexivity.
  - reflexivity.
  - discriminate.
Defined.

(** ** The ingredient form *)

Section MaisFormulario.
Context {F : Type} `{Aritmetica F}.

Lemma map_atribuir_fora (objs : nat -> Ingrediente.t F) (a : nat)
    (i : Ingrediente.t F) (l : list nat) :
  ~ In a l -> map (Formulario.atribuir objs a i) l = map objs l.
Proof.
  intros Ha. apply map_ext_in. intros b Hb. unfold Formulario.atribuir.
  destruct (Nat.eqb_spec b a) as [-> | _]; [ contradiction | reflexivity ].
Qed.

Lemma abaixo_nao_contem (a : nat) (l : list nat) :
  Forall (fun b => b < a)%nat l -> ~ In a l.
Proof.
  intros Hl Ha. rewrite Forall_forall in Hl. specialize (Hl a Ha). lia.
Qed.

Lemma nomes_distintos {A} (f : A -> string) (l : list A) (a b : A) :
  NoDup (map f l) -> In a l -> In b l -> f a = f b -> a = b.
Proof.
  induction l as [ | x l IH]; simpl; intros Hd Ha Hb E; [ contradiction | ].
  inversion Hd as [ | ? ? Hx Hd']; subst.
  destruct Ha as [-> | Ha], Hb as [-> | Hb].
  - reflexivity.
  - exfalso. apply Hx. rewrite E. apply in_map, Hb.
  - exfalso. apply Hx. rewrite <- E. apply in_map, Ha.
  - apply IH; assumption.
Qed.

Lemma existsb_nome (l : list (Ingrediente.t F)) (nome : string) :
  existsb (fun i => String.eqb (Ingrediente.nome i) nome) l = true
  <-> In nome (map (@Ingrediente.nome F) l).
Proof.
  rewrite existsb_exists, in_map_iff. split.
  - intros (i & Hi & E). apply String.eqb_eq in E. eauto.
  - intros (i & E & Hi). exists i. split; [ exact Hi | ].
    apply String.eqb_eq, E.
Qed.

Lemma valor_receita_fora (objs : nat -> Ingrediente.t F) (a : nat)
    (i : Ingrediente.t F) (r : Formulario.ReceitaRef F) :
  Forall (fun par => fst par < a)%nat (Formulario.ingredientes_ref r) ->
  Formulario.valor_receita (Formulario.atribuir objs a i) r
  = Formulario.valor_receita objs r.
Proof.
  intros Hr. unfold Formulario.valor_receita. f_equal.
  apply map_ext_in. intros par Hpar. rewrite Forall_forall in Hr.
  specialize (Hr par Hpar). unfold Formulario.atribuir.
  destruct (Nat.eqb_spec (fst par) a); [ lia | reflexivity ].
Qed.

(** When no pair of the recipe refers to an object named [old_name], the
    loops of [_atualizar_combos_ingredientes] leave it as it is. *)
Lemma substituir_nada (objs : nat -> Ingrediente.t F) (old_name : string)
    (a : nat) (r : Formulario.ReceitaRef F) :
  Forall (fun par => Ingrediente.nome (objs (fst par)) <> old_name)
         (Formulario.ingredientes_ref r) ->
  Formulario.substituir objs old_name a r = r.
Proof.
  intros Hr. destruct r as [nome pares y]. unfold Formulario.substituir.
  simpl in *. f_equal. rewrite <- (map_id pares) at 2.
  apply map_ext_in. intros par Hpar. rewrite Forall_forall in Hr.
  specialize (Hr par Hpar).
  destruct (String.eqb_spec (Ingrediente.nome (objs (fst par))) old_name);
    [ contradiction | reflexivity ].
Qed.

End MaisFormulario.

(** X27.  In new-ingredient mode (nothing selected) a name that the catalog
    already holds is refused: [salvar_ingrediente] shows the error box and
    changes neither the window nor any store. *)
Theorem salvar_ingrediente_nome_repetido
    (F : Type) (A : Aritmetica F) (float_de : string -> option F)
    (j : Formulario.t F) (w : Mundo F) (numeros : F * F * F * F * F) :
  Formulario.ingrediente_selecionado j = None ->
  Formulario.ler_numeros float_de (Formulario.entradas j) = Some numeros ->
  In (Formulario.entry_nome (Formulario.entradas j))
     (map (@Ingrediente.nome F) (Formulario.catalogo j)) ->
  Formulario.salvar_ingrediente float_de j w
  = (Retorna j,
     snd (mostrar (showerror "Erro" "Já existe um ingrediente com este nome!"
                             None) w)).
Proof.
  intros Hs Hn Hin. unfold Formulario.salvar_ingrediente.
  rewrite Hn, Hs. destruct numeros as [[[[c p] g] f] s].
  apply existsb_nome in Hin. rewrite Hin. reflexivity.
Qed.

(** X27 on the example form, with the name "A" in the form. *)
Lemma salvar_ingrediente_nome_repetido_exemplo :
  Formulario.salvar_ingrediente (fun _ => Some (lit 1 : float))
    (formulario_exemplo "A" None) mundo_vazio
  = (Retorna (formulario_exemplo "A" None),
     snd (mostrar (showerror "Erro" "Já existe um ingrediente com este nome!"
                             None) mundo_vazio)).
Proof.
  apply (@salvar_ingrediente_nome_repetido float _ (fun _ => Some (lit 1 : float))
           (formulario_exemplo "A" None) mundo_vazio
           (lit 1, lit 1, lit 1, lit 1, lit 1)).
  - reflexivity.
  - reflexivity.
  - simpl. auto.
Defined.

(** X28.  In new-ingredient mode a name that the catalog does not hold is
    accepted: the ingredient of the form is appended to the catalog, the
    ingredient store is rewritten with the new catalog, the recipes and
    the recipe store are as before, and if the names of the catalog were
    unique they still are. *)
Theorem salvar_ingrediente_novo
    (F : Type) (A : Aritmetica F) (float_de : string -> option F)
    (j : Formulario.t F) (w : Mundo F) (numeros : F * F * F * F * F) :
  Formulario.ingrediente_selecionado j = None ->
  Formulario.ler_numeros float_de (Formulario.entradas j) = Some numeros ->
  ~ In (Formulario.entry_nome (Formulario.entradas j))
       (map (@Ingrediente.nome F) (Formulario.catalogo j)) ->
  proximo_livre j ->
  exists j' w',
    Formulario.salvar_ingrediente float_de j w = (Retorna j', w')
    /\ Formulario.catalogo j'
       = Formulario.catalogo j
         ++ [ingrediente_do_formulario (Formulario.entradas j) numeros]
    /\ ingredientes_json w'
       = Some (JList (map Ingrediente_to_dict (Formulario.catalogo j')))
    /\ Formulario.receitas_valor j' = Formulario.receitas_valor j
    /\ receitas_json w' = receitas_json w
    /\ (NoDup (map (@Ingrediente.nome F) (Formulario.catalogo j)) ->
        NoDup (map (@Ingrediente.nome F) (Formulario.catalogo j'))).
Proof.
  intros Hs Hn Hin [Hl Hr]. destruct numeros as [[[[c p] g] f] s].
  assert (Ex : existsb
                 (fun i => String.eqb (Ingrediente.nome i)
                             (Formulario.entry_nome (Formulario.entradas j)))
                 (Formulario.catalogo j) = false).
  { destruct (existsb _ (Formulario.catalogo j)) eqn:Ex; [ | reflexivity ].
    exfalso. apply Hin, existsb_nome, Ex. }
  unfold Formulario.salvar_ingrediente. rewrite Hn, Hs, Ex.
  unfold Formulario.salvar_e_atualizar, io_ligar,
    DataManager.salvar_ingredientes, escrever_ingredientes, mostrar, io_ret.
  eexists. eexists. split; [ reflexivity | ].
  assert (Em : map (Formulario.atribuir (Formulario.objetos j)
                      (Formulario.proximo j)
                      (Ingrediente.novo
                         (Formulario.entry_nome (Formulario.entradas j))
                         c p g f s))
                   (Formulario.ingredientes j ++ [Formulario.proximo j])
               = Formulario.catalogo j
                 ++ [Ingrediente.novo
                       (Formulario.entry_nome (Formulario.entradas j))
                       c p g f s]).
  { rewrite map_app, map_atribuir_fora
      by (apply abaixo_nao_contem; exact Hl).
    cbn [map]. unfold Formulario.atribuir. rewrite Nat.eqb_refl. reflexivity. }
  unfold Formulario.catalogo, Formulario.receitas_valor in *.
  cbn [Formulario.objetos Formulario.ingredientes Formulario.receitas
       Formulario._novo_ingrediente Formulario._atualizar_combos
       ingredientes_json receitas_json ingrediente_do_formulario].
  rewrite !Em.
  split; [ reflexivity | ]. split; [ reflexivity | ].
  split; [ | split; [ reflexivity | ] ].
  - apply map_ext_in. intros r Hrin. apply valor_receita_fora.
    rewrite Forall_forall in Hr. apply Hr, Hrin.
  - intros Hd. rewrite map_app. cbn [map Ingrediente.nome].
    apply NoDup_app; [ exact Hd | repeat constructor; intros [] | ].
    intros n Hn1 [<- | []]. apply Hin, Hn1.
Qed.

(** X28 on the example window, with the name "B" in the form. *)
Lemma salvar_ingrediente_novo_exemplo :
  exists j' w',
    Formulario.salvar_ingrediente (fun _ => Some (lit 1 : float))
      (formulario_exemplo "B" None) mundo_vazio
    = (Retorna j', w')
    /\ map (@Ingrediente.nome float) (Formulario.catalogo j')
       = ["A"; "B"]%string.
Proof.
  destruct (@salvar_ingrediente_novo float _ (fun _ => Some (lit 1 : float))
              (formulario_exemplo "B" None) mundo_vazio
              (lit 1, lit 1, lit 1, lit 1, lit 1) eq_refl eq_refl)
    as (j' & w' & E & Ec & _).
  - simpl. intuition discriminate.
  - split; repeat constructor.
  - exists j', w'. split; [ exact E | ]. rewrite Ec. reflexivity.
Defined.

Section MaisEdicao.
Context {F : Type} `{Aritmetica F}.
Variable float_de : string -> option F.

(** What [salvar_ingrediente] returns in edit mode, whether or not the name
    changes: the object is rewritten; when the name changes the recipes
    go through [_atualizar_combos_ingredientes] and their store is
    rewritten. *)
Lemma salvar_ingrediente_edicao (j : Formulario.t F) (w : Mundo F) (a : nat)
    (c p g f s : F) :
  Formulario.ingrediente_selecionado j = Some a ->
  Formulario.ler_numeros float_de (Formulario.entradas j)
  = Some (c, p, g, f, s) ->
  exists j' w',
    Formulario.salvar_ingrediente float_de j w = (Retorna j', w')
    /\ Formulario.objetos j'
       = Formulario.atribuir (Formulario.objetos j) a
           (Ingrediente.novo (Formulario.entry_nome (Formulario.entradas j))
                             c p g f s)
    /\ Formulario.ingredientes j' = Formulario.ingredientes j
    /\ ingredientes_json w'
       = Some (JList (map Ingrediente_to_dict (Formulario.catalogo j')))
    /\ (Ingrediente.nome (Formulario.objetos j a)
        = Formulario.entry_nome (Formulario.entradas j) ->
        Formulario.receitas j' = Formulario.receitas j
        /\ receitas_json w' = receitas_json w)
    /\ (Ingrediente.nome (Formulario.objetos j a)
        <> Formulario.entry_nome (Formulario.entradas j) ->
        Formulario.receitas j'
        = map (Formulario.substituir (Formulario.objetos j')
                 (Ingrediente.nome (Formulario.objetos j a)) a)
              (Formulario.receitas j)
        /\ receitas_json w'
           = Some (JList (map Receita_to_dict (Formulario.receitas_valor j')))).
Proof.
  intros Hs Hn. unfold Formulario.salvar_ingrediente. rewrite Hn, Hs.
  unfold Formulario._atualizar_combos_ingredientes,
    Formulario.salvar_e_atualizar, io_ligar, DataManager.salvar_ingredientes,
    DataManager.salvar_receitas, escrever_ingredientes, escrever_receitas,
    mostrar, io_ret.
  destruct (String.eqb_spec (Ingrediente.nome (Formulario.objetos j a))
              (Formulario.entry_nome (Formulario.entradas j))) as [E | E];
    eexists; eexists; (split; [ reflexivity | ]);
    (split; [ reflexivity | ]); (split; [ reflexivity | ]);
    (split; [ reflexivity | ]); split; intros E'; try contradiction;
    split; reflexivity.
Qed.

End MaisEdicao.

(** X29.  Editing the selected ingredient reaches every recipe that uses
    it: with unique names in the catalog and recipes made of objects of
    the catalog, after [salvar_ingrediente] the recipes refer to the same
    objects as before, so every pair of the edited ingredient shows its
    new name and coefficients; the ingredient store is rewritten, and when
    the name changed the recipe store is rewritten with the new name. *)
Theorem salvar_ingrediente_alcanca_receitas
    (F : Type) (A : Aritmetica F) (float_de : string -> option F)
    (j : Formulario.t F) (w : Mundo F) (a : nat)
    (numeros : F * F * F * F * F) :
  Formulario.ingrediente_selecionado j = Some a ->
  Formulario.ler_numeros float_de (Formulario.entradas j) = Some numeros ->
  In a (Formulario.ingredientes j) ->
  NoDup (map (@Ingrediente.nome F) (Formulario.catalogo j)) ->
  receitas_do_catalogo j ->
  exists j' w',
    Formulario.salvar_ingrediente float_de j w = (Retorna j', w')
    /\ Formulario.catalogo j'
       = map (Formulario.atribuir (Formulario.objetos j) a
                (ingrediente_do_formulario (Formulario.entradas j) numeros))
             (Formulario.ingredientes j)
    /\ Formulario.receitas_valor j'
       = map (Formulario.valor_receita
                (Formulario.atribuir (Formulario.objetos j) a
                   (ingrediente_do_formulario (Formulario.entradas j) numeros)))
             (Formulario.receitas j)
    /\ ingredientes_json w'
       = Some (JList (map Ingrediente_to_dict (Formulario.catalogo j')))
    /\ (Ingrediente.nome (Formulario.objetos j a)
        <> Formulario.entry_nome (Formulario.entradas j) ->
        receitas_json w'
        = Some (JList (map Receita_to_dict (Formulario.receitas_valor j')))).
Proof.
  intros Hs Hn Ha Hd Hr. destruct numeros as [[[[c p] g] f] s].
  destruct (@salvar_ingrediente_edicao _ float_de j w a c p g f s Hs Hn)
    as (j' & w' & E & Eo & Ei & Ew & Hsame & Hdiff).
  exists j', w'. split; [ exact E | ].
  assert (Er : Formulario.receitas j' = Formulario.receitas j).
  { destruct (String.eqb_spec (Ingrediente.nome (Formulario.objetos j a))
                (Formulario.entry_nome (Formulario.entradas j))) as [En | En].
    - apply Hsame, En.
    - destruct (Hdiff En) as [-> _].
      rewrite <- (map_id (Formulario.receitas j)) at 2.
      apply map_ext_in. intros r Hrin. apply substituir_nada.
      unfold receitas_do_catalogo in Hr. rewrite Forall_forall in Hr.
      specialize (Hr r Hrin). rewrite Forall_forall in Hr |- *.
      intros par Hpar. specialize (Hr par Hpar). rewrite Eo.
      unfold Formulario.atribuir.
      destruct (Nat.eqb_spec (fst par) a) as [Eb | Eb].
      + cbn [Ingrediente.nome]. intros Ec. apply En. symmetry. exact Ec.
      + intros Ec. apply Eb.
        apply (nomes_distintos
                 (fun b => Ingrediente.nome (Formulario.objetos j b))
                 (Formulario.ingredientes j)); try assumption.
        unfold Formulario.catalogo in Hd. rewrite map_map in Hd. exact Hd. }
  unfold Formulario.catalogo, Formulario.receitas_valor in *.
  cbn [ingrediente_do_formulario]. rewrite Eo, Ei, Er in *.
  split; [ reflexivity | ]. split; [ reflexivity | ].
  split; [ exact Ew | ].
  intros En. destruct (Hdiff En) as [_ Hw]. exact Hw.
Qed.

(** X29 on the example window: A selected and renamed to "Arroz". *)
Lemma salvar_ingrediente_alcanca_receitas_exemplo :
  exists j' w',
    Formulario.salvar_ingrediente (fun _ => Some (lit 1 : float))
      (formulario_exemplo "Arroz" (Some 0%nat)) mundo_vazio
    = (Retorna j', w')
    /\ map (fun r => map (fun par => Ingrediente.nome (fst par))
                         (Receita.ingredientes r))
           (Formulario.receitas_valor j')
       = [["Arroz"%string]]
    /\ receitas_json w'
       = Some (JList (map Receita_to_dict (Formulario.receitas_valor j'))).
Proof.
  destruct (@salvar_ingrediente_alcanca_receitas float _
              (fun _ => Some (lit 1 : float))
              (formulario_exemplo "Arroz" (Some 0%nat)) mundo_vazio 0%nat
              (lit 1, lit 1, lit 1, lit 1, lit 1) eq_refl eq_refl)
    as (j' & w' & E & _ & Er & _ & Hw).
  - simpl. auto.
  - simpl. repeat constructor. intros [].
  - repeat constructor.
  - exists j', w'. split; [ exact E | split ].
    + rewrite Er. reflexivity.
    + apply Hw. discriminate.
Defined.

(** X30.  Edit mode has no check on the name: when the form gives the
    selected ingredient the name of another ingredient of the catalog,
    [salvar_ingrediente] accepts it, and the catalog it saves holds two
    ingredients of that name. *)
Theorem salvar_ingrediente_duplica_nome
    (F : Type) (A : Aritmetica F) (float_de : string -> option F)
    (j : Formulario.t F) (w : Mundo F) (a b : nat)
    (numeros : F * F * F * F * F) :
  Formulario.ingrediente_selecionado j = Some a ->
  Formulario.ler_numeros float_de (Formulario.entradas j) = Some numeros ->
  In a (Formulario.ingredientes j) ->
  In b (Formulario.ingredientes j) ->
  b <> a ->
  Ingrediente.nome (Formulario.objetos j b)
  = Formulario.entry_nome (Formulario.entradas j) ->
  exists j' w',
    Formulario.salvar_ingrediente float_de j w = (Retorna j', w')
    /\ ingredientes_json w'
       = Some (JList (map Ingrediente_to_dict (Formulario.catalogo j')))
    /\ ~ NoDup (map (@Ingrediente.nome F) (Formulario.catalogo j')).
Proof.
  intros Hs Hn Ha Hb Hab Eb. destruct numeros as [[[[c p] g] f] s].
  destruct (@salvar_ingrediente_edicao _ float_de j w a c p g f s Hs Hn)
    as (j' & w' & E & Eo & Ei & Ew & _).
  exists j', w'. split; [ exact E | split; [ exact Ew | ] ].
  intros Hd. unfold Formulario.catalogo in Hd. rewrite map_map, Ei in Hd.
  apply Hab.
  apply (nomes_distintos
           (fun x => Ingrediente.nome (Formulario.objetos j' x))
           (Formulario.ingredientes j)); try assumption.
  rewrite Eo. unfold Formulario.atribuir.
  rewrite Nat.eqb_refl. destruct (Nat.eqb_spec b a); [ contradiction | ].
  cbn [Ingrediente.nome]. exact Eb.
Qed.

(** X30 on the form of two ingredients. *)
Lemma salvar_ingrediente_duplica_nome_exemplo :
  exists j' w',
    Formulario.salvar_ingrediente (fun _ => Some (lit 1 : float))
      formulario_dois mundo_vazio
    = (Retorna j', w')
    /\ map (@Ingrediente.nome float) (Formulario.catalogo j')
       = ["B"; "B"]%string.
Proof.
  destruct (@salvar_ingrediente_duplica_nome float _
              (fun _ => Some (lit 1 : float)) formulario_dois mundo_vazio
              0%nat 1%nat (lit 1, lit 1, lit 1, lit 1, lit 1)
              eq_refl eq_refl)
    as (j' & w' & E & _).
  - simpl. auto.
  - simpl. auto.
  - discriminate.
  - reflexivity.
  - exists j', w'. split; [ exact E | ].
    vm_compute in E. injection E as <- _. reflexivity.
Defined.
